(** * MediTrack: a shallow embedding of [backend.py]

    The development follows the layers of the program: Python values and
    exceptions, the entity classes ([Appointment], [Medicine], [User]),
    the JSON file store ([Database]) and the menu operations of
    [MediTrackApp].  Every definition is the translation of the Python
    function of the same name. *)

From Stdlib Require Import Ascii String.
From stdpp Require Import gmap strings list fin_maps pretty.
From Stdlib Require Import ZArith QArith Lia.

#[local] Set Warnings "-register-all".
#[local] Open Scope Z_scope.

(** ** Python values

    The values [json.load] produces and [json.dump] consumes.  JSON
    numbers are integers here; the program stores no other number. *)

Inductive pyval : Type :=
| PNone
| PBool (b : bool)
| PInt (z : Z)
| PStr (s : string)
| PList (l : list pyval)
| PDict (d : gmap string pyval).

(** ** Exceptions

    [IllTyped] is not a Python exception.  The entity fields carry the
    types of the constructor annotations ([title: str], [stock: int]); a
    record holding a value of another type is outside this model, and
    [from_dict] reports it as [IllTyped] where Python would store the
    value unchecked and fail, if at all, at a later use. *)

Inductive exn : Type :=
| KeyError (key : string)
| ValueError
| TypeError
| AttributeError
| IndexError
| IllTyped.

Inductive result (A : Type) : Type :=
| Ok (a : A)
| Raise (e : exn).
Arguments Ok {A} a.
Arguments Raise {A} e.

#[global] Instance result_ret : MRet result := λ A a, Ok a.
#[global] Instance result_bind : MBind result := λ A B f m,
  match m with
  | Ok a => f a
  | Raise e => Raise e
  end.

(** [for x in l: ...] with a body that may raise: the elements are visited
    in order and the first exception ends the loop. *)
Fixpoint for_each {A B : Type} (f : A → result B) (l : list A) : result (list B) :=
  match l with
  | [] => Ok []
  | x :: rest =>
      y ← f x;
      ys ← for_each f rest;
      Ok (y :: ys)
  end.

(** *** Dictionary access *)

(** [data[key]] *)
Definition getitem (data : gmap string pyval) (key : string) : result pyval :=
  match data !! key with
  | Some v => Ok v
  | None => Raise (KeyError key)
  end.

(** [data.get(key, dflt)] *)
Definition get (data : gmap string pyval) (key : string) (dflt : pyval) : pyval :=
  default dflt (data !! key).

(** The elements a [for] loop or a comprehension draws from a value.
    Iterating a string gives its characters and iterating a dictionary its
    keys; numbers, booleans and [None] are not iterable. *)
Definition iter (v : pyval) : result (list pyval) :=
  match v with
  | PList l => Ok l
  | PStr s => Ok ((λ c, PStr (String c EmptyString)) <$> String.list_ascii_of_string s)
  | PDict d => Ok ((λ kv, PStr kv.1) <$> map_to_list d)
  | PNone | PBool _ | PInt _ => Raise TypeError
  end.

Definition expect_str (v : pyval) : result string :=
  match v with PStr s => Ok s | _ => Raise IllTyped end.
Definition expect_int (v : pyval) : result Z :=
  match v with PInt z => Ok z | _ => Raise IllTyped end.
Definition expect_bool (v : pyval) : result bool :=
  match v with PBool b => Ok b | _ => Raise IllTyped end.
Definition expect_dict (v : pyval) : result (gmap string pyval) :=
  match v with PDict d => Ok d | _ => Raise TypeError end.

(** ** Strings read from the terminal

    A [string] holds the text of a Python [str] (its UTF-8 bytes).  The
    program looks inside a line of input only through [str.strip],
    [str.isdigit] and [int], which belong to the Python library: like
    the clock and the JSON codec below they are parameters, and every
    theorem holds for whatever they compute.  [int_of_string] is [None]
    where [int] raises [ValueError]. *)

Class Text := {
  strip : string → string;
  isdigit : string → bool;
  int_of_string : string → option Z
}.

(** [int(s)] for a string: the number read, or [ValueError]. *)
Definition int `{Text} (s : string) : result Z :=
  match int_of_string s with
  | Some n => Ok n
  | None => Raise ValueError
  end.

(** [s or dflt] for strings: the empty string is falsy. *)
Definition str_or (s dflt : string) : string :=
  if bool_decide (s = "") then dflt else s.

(** ** The clock

    [date.today()], [datetime.strptime(s, "%Y-%m-%d").date()] and
    [strftime("%Y-%m-%d")] belong to the Python library.  Dates are day
    numbers; [strptime] is [None] where Python raises [ValueError]. *)

Class Clock := {
  today : Z;
  strptime : string → option Z;
  strftime : Z → string
}.

(** ** Appointment *)

Module Appointment.

Record t := mk {
  title : string;
  doctor : string;
  date : string;
  time : string;
  location : string;
  completed : bool
}.

(** [Appointment.__init__] *)
Definition init (title doctor date_str time_str location : string) : t :=
  mk title doctor date_str time_str location false.

(** [self.completed = b] *)
Definition set_completed (b : bool) (self : t) : t :=
  mk (title self) (doctor self) (date self) (time self) (location self) b.

Definition days_until `{Clock} (self : t) : result Z :=
  match strptime (date self) with
  | Some appt_date => Ok (appt_date - today)
  | None => Raise ValueError
  end.

Definition to_dict (self : t) : gmap string pyval :=
  list_to_map [
    ("title", PStr (title self));
    ("doctor", PStr (doctor self));
    ("date", PStr (date self));
    ("time", PStr (time self));
    ("location", PStr (location self));
    ("completed", PBool (completed self))
  ].

Definition from_dict (data : gmap string pyval) : result t :=
  title ← getitem data "title" ≫= expect_str;
  doctor ← getitem data "doctor" ≫= expect_str;
  date_str ← getitem data "date" ≫= expect_str;
  time_str ← getitem data "time" ≫= expect_str;
  location ← expect_str (get data "location" (PStr ""));
  let appointment := init title doctor date_str time_str location in
  completed ← expect_bool (get data "completed" (PBool false));
  Ok (set_completed completed appointment).

End Appointment.

(** ** Medicine *)

Module Medicine.

Record t := mk {
  name : string;
  dosage : string;
  frequency : string;
  start_date : string;
  end_date : string;
  stock : Z;
  taken_today : Z;
  missed_today : Z
}.

(** [Medicine.__init__] *)
Definition init (name dosage frequency start_date end_date : string) (stock : Z) : t :=
  mk name dosage frequency start_date end_date stock 0 0.

Definition set_stock (n : Z) (self : t) : t :=
  mk (name self) (dosage self) (frequency self) (start_date self) (end_date self)
     n (taken_today self) (missed_today self).
Definition set_taken_today (n : Z) (self : t) : t :=
  mk (name self) (dosage self) (frequency self) (start_date self) (end_date self)
     (stock self) n (missed_today self).
Definition set_missed_today (n : Z) (self : t) : t :=
  mk (name self) (dosage self) (frequency self) (start_date self) (end_date self)
     (stock self) (taken_today self) n.

(** [take_dose] returns the object after the call and the returned
    boolean. *)
Definition take_dose (self : t) : t * bool :=
  if bool_decide (stock self ≤ 0) then (self, false)
  else
    let self := set_stock (stock self - 1) self in
    let self := set_taken_today (taken_today self + 1) self in
    (self, true).

Definition to_dict (self : t) : gmap string pyval :=
  list_to_map [
    ("name", PStr (name self));
    ("dosage", PStr (dosage self));
    ("frequency", PStr (frequency self));
    ("start_date", PStr (start_date self));
    ("end_date", PStr (end_date self));
    ("stock", PInt (stock self));
    ("taken_today", PInt (taken_today self));
    ("missed_today", PInt (missed_today self))
  ].

Definition from_dict (data : gmap string pyval) : result t :=
  name ← getitem data "name" ≫= expect_str;
  dosage ← getitem data "dosage" ≫= expect_str;
  frequency ← getitem data "frequency" ≫= expect_str;
  start_date ← getitem data "start_date" ≫= expect_str;
  end_date ← getitem data "end_date" ≫= expect_str;
  stock ← getitem data "stock" ≫= expect_int;
  let medicine := init name dosage frequency start_date end_date stock in
  taken ← expect_int (get data "taken_today" (PInt 0));
  let medicine := set_taken_today taken medicine in
  missed ← expect_int (get data "missed_today" (PInt 0));
  Ok (set_missed_today missed medicine).

End Medicine.

(** ** User *)

Module User.

Record t := mk {
  username : string;
  password : string;
  name : string;
  medicines : list Medicine.t;
  appointments : list Appointment.t;
  emergency_contact : string;
  emergency_phone : string
}.

(** [User.__init__] *)
Definition init (username password name : string) : t :=
  mk username password name [] [] "" "".

Definition set_password (p : string) (self : t) : t :=
  mk (username self) p (name self) (medicines self) (appointments self)
     (emergency_contact self) (emergency_phone self).
Definition set_medicines (ms : list Medicine.t) (self : t) : t :=
  mk (username self) (password self) (name self) ms (appointments self)
     (emergency_contact self) (emergency_phone self).
Definition set_appointments (l : list Appointment.t) (self : t) : t :=
  mk (username self) (password self) (name self) (medicines self) l
     (emergency_contact self) (emergency_phone self).
Definition set_emergency_contact (s : string) (self : t) : t :=
  mk (username self) (password self) (name self) (medicines self) (appointments self)
     s (emergency_phone self).
Definition set_emergency_phone (s : string) (self : t) : t :=
  mk (username self) (password self) (name self) (medicines self) (appointments self)
     (emergency_contact self) s.

Definition to_dict (self : t) : gmap string pyval :=
  list_to_map [
    ("username", PStr (username self));
    ("password", PStr (password self));
    ("name", PStr (name self));
    ("medicines", PList ((λ m, PDict (Medicine.to_dict m)) <$> medicines self));
    ("appointments", PList ((λ a, PDict (Appointment.to_dict a)) <$> appointments self));
    ("emergency_contact", PStr (emergency_contact self));
    ("emergency_phone", PStr (emergency_phone self))
  ].

(** In [Medicine.from_dict(m)] the first access [m['name']] is a
    [TypeError] when [m] is not a dictionary. *)
Definition from_dict (data : gmap string pyval) : result t :=
  username ← getitem data "username" ≫= expect_str;
  password ← getitem data "password" ≫= expect_str;
  name ← getitem data "name" ≫= expect_str;
  let user := init username password name in
  ms ← iter (get data "medicines" (PList []));
  medicines ← for_each (λ m, expect_dict m ≫= Medicine.from_dict) ms;
  let user := set_medicines medicines user in
  appts ← iter (get data "appointments" (PList []));
  appointments ← for_each (λ a, expect_dict a ≫= Appointment.from_dict) appts;
  let user := set_appointments appointments user in
  contact ← expect_str (get data "emergency_contact" (PStr ""));
  let user := set_emergency_contact contact user in
  phone ← expect_str (get data "emergency_phone" (PStr ""));
  Ok (set_emergency_phone phone user).

End User.

(** ** The file system and the JSON codec

    A file system maps a path to the text of the file.  [json.load] and
    [json.dump] belong to the Python library: [json_load] is [None] where
    [json.load] raises, [json_dump] is the text [json.dump(data, f,
    indent=4)] writes. *)

Abbreviation filesystem := (gmap string string).

Class Json := {
  json_load : string → option pyval;
  json_dump : pyval → string
}.

(** [open(path, 'w')] creates the file or truncates it to length 0. *)
Definition open_w (path : string) (fs : filesystem) : filesystem :=
  <[path := ""]> fs.

(** [f.write(text)] on a file opened for writing appends at its end. *)
Definition write (path text : string) (fs : filesystem) : filesystem :=
  alter (λ written, written +:+ text) path fs.

(** Code that reads and writes files and may raise: the file system is
    threaded through, and an exception leaves it as it was when raised. *)
Definition io (A : Type) : Type := filesystem → filesystem * result A.

#[global] Instance io_ret : MRet io := λ A a fs, (fs, Ok a).
#[global] Instance io_bind : MBind io := λ A B f m fs,
  match m fs with
  | (fs', Ok a) => f a fs'
  | (fs', Raise e) => (fs', Raise e)
  end.

(** A computation that touches no file. *)
Definition pure {A : Type} (r : result A) : io A := λ fs, (fs, r).

(** ** Membership and subscription *)

(** [needle in hay] for strings: [needle] occurs in [hay]. *)
Fixpoint is_infix (needle hay : string) : bool :=
  String.prefix needle hay
  || match hay with
     | EmptyString => false
     | String _ rest => is_infix needle rest
     end.

(** [key in v] for a string [key]: a key of a dictionary, an element of a
    list (only a string equals a string), a substring of a string;
    numbers, booleans and [None] are not containers. *)
Definition contains (v : pyval) (key : string) : result bool :=
  match v with
  | PDict d => Ok (bool_decide (is_Some (d !! key)))
  | PList l =>
      Ok (existsb (λ x, match x with PStr s => bool_decide (s = key) | _ => false end) l)
  | PStr s => Ok (is_infix key s)
  | PNone | PBool _ | PInt _ => Raise TypeError
  end.

(** [v[key]] for an arbitrary value and a string key: only a dictionary can
    be subscripted by a string. *)
Definition subscript (v : pyval) (key : string) : result pyval :=
  match v with
  | PDict d => getitem d key
  | _ => Raise TypeError
  end.

(** A computation that reads the file system and leaves it alone. *)
Definition reading {A : Type} (f : filesystem → result A) : io A := λ fs, (fs, f fs).

(** ** Database *)

Definition DATABASE_FILE : string := "meditrack_simple.json".

Module Database.
Section database.
Context `{Json}.

(** The bare [except:] turns every failure to read or parse into [{}]. *)
Definition load_data (fs : filesystem) : pyval :=
  match fs !! DATABASE_FILE with
  | Some text =>
      match json_load text with
      | Some data => data
      | None => PDict ∅
      end
  | None => PDict ∅
  end.

Definition save_data (data : pyval) (fs : filesystem) : filesystem :=
  write DATABASE_FILE (json_dump data) (open_w DATABASE_FILE fs).

(** [save_data] when the write fails after [n] characters of the output
    have reached the file (full disk, I/O error, killed process): [open]
    has already truncated the file. *)
Definition save_data_failing (n : nat) (data : pyval) (fs : filesystem) : filesystem :=
  write DATABASE_FILE (String.substring 0 n (json_dump data)) (open_w DATABASE_FILE fs).

(** [data.get] exists on dictionaries only ([AttributeError] otherwise),
    and [data['users'][username] = ...] needs ['users'] to hold a
    dictionary ([TypeError] otherwise). *)
Definition save_user (user : User.t) : io () := λ fs,
  match load_data fs with
  | PDict data =>
      match get data "users" (PDict ∅) with
      | PDict users =>
          let users := <[User.username user := PDict (User.to_dict user)]> users in
          let data := <["users" := PDict users]> data in
          (save_data (PDict data) fs, Ok ())
      | _ => (fs, Raise TypeError)
      end
  | _ => (fs, Raise AttributeError)
  end.

(** In [User.from_dict(users[username])] the first access is a
    [TypeError] when the record is not a dictionary. *)
Definition load_user (username : string) (fs : filesystem) : result (option User.t) :=
  match load_data fs with
  | PDict data =>
      let users := get data "users" (PDict ∅) in
      found ← contains users username;
      if found : bool then
        record ← subscript users username;
        user ← expect_dict record ≫= User.from_dict;
        Ok (Some user)
      else Ok None
  | _ => Raise AttributeError
  end.

Definition user_exists (username : string) (fs : filesystem) : result bool :=
  match load_data fs with
  | PDict data => contains (get data "users" (PDict ∅)) username
  | _ => Raise AttributeError
  end.

End database.
End Database.

(** ** MediTrackApp

    Each menu operation takes the lines it reads with [input()] as
    arguments, in the order it reads them, and returns the lines it prints
    that report an outcome (headers, listings, prompts and the closing
    "Press Enter" are left out).  The operations act on the logged-in user,
    [self.current_user]; the ones that write return the user after the
    call. *)

Inductive line : Type :=
| NameRequired
| DosageRequired
| MedicineAdded (name dosage frequency : string) (stock : Z)
| TitleRequired
| DoctorRequired
| AppointmentAdded (title doctor date : string) (days : Z) (time : string)
| NoMedicines
| MarkedTaken (name : string)
| RemainingStock (stock : Z)
| LowStockRefill
| OutOfStock
| InvalidChoice
| InvalidInput
| NoAppointments
| NoUpcomingAppointments
| MarkedCompleted (title : string)
| NoteToday (title doctor : string)
| NoteUpcoming (title doctor : string) (days : Z)
| NoteLowStock (name : string) (stock : Z)
| DosesTaken (n : Z)
| DosesMissed (n : Z)
| ActiveMedicines (n : nat)
| UpcomingAppointments (n : nat)
| LowStockMedicines (n : nat)
| AdherenceRate (rate : Q)
| PasswordIncorrect
| PasswordEmpty
| PasswordMismatch
| PasswordChanged
| PatientName (name : string)
| EmergencyContact (name phone : string)
| NoEmergencyContact
| CriticalMedication (name : string) (stock : Z)
| UrgentAppointment (title doctor : string).

(** [for x in l: body], the body updating the loop state [s]. *)
Fixpoint for_loop {A S : Type} (body : S → A → result S) (l : list A) (s : S) : result S :=
  match l with
  | [] => Ok s
  | x :: rest =>
      s' ← body s x;
      for_loop body rest s'
  end.

(** [[x for x in l if p(x)]] with a condition that may raise. *)
Fixpoint select {A : Type} (p : A → result bool) (l : list A) : result (list A) :=
  match l with
  | [] => Ok []
  | x :: rest =>
      keep ← p x;
      xs ← select p rest;
      Ok (if keep : bool then x :: xs else xs)
  end.

(** [sum(...)] adds from the left, starting at 0. *)
Definition sum (l : list Z) : Z := foldl Z.add 0 l.

Definition frequencies : list string :=
  ["Once daily"; "Twice daily"; "Three times daily"; "Four times daily"].

(** What [register_user] and [login_user] print. *)
Inductive account_line : Type :=
| UsernameEmpty
| UsernameExists
| NameEmpty
| NewPasswordEmpty
| NewPasswordMismatch
| RegistrationSuccessful (name : string)
| WelcomeBack (name : string)
| Notification (note : line)
| InvalidLogin.

(** The stock colours of [view_medicines]. *)
Inductive status : Type := Green | Yellow | Red.

(** What [view_medicines] and [view_appointments] print. *)
Inductive listing : Type :=
| NoMedicinesYet
| MedicineRow (i : nat) (name dosage frequency : string) (colour : status) (stock : Z)
| RefillSoon
| NoAppointmentsScheduled
| UpcomingHeader
| UpcomingRow (i : nat) (completed : bool) (title doctor date : string) (days : Z)
| LocationRow (location : string)
| PastHeader
| PastRow (i : nat) (completed : bool) (title doctor date : string) (days_ago : Z).

(** The [try]/[except ValueError] block of [add_medicine]:
    [int(input(...).strip() or "30")], and 30 when [int] fails. *)
Definition initial_stock `{Text} (stock_input : string) : Z :=
  match int (str_or (strip stock_input) "30") with
  | Ok stock => stock
  | Raise _ => 30
  end.

Module MediTrackApp.
Section app.
Context `{Clock} `{Json} `{Text}.

(** The body of the first loop of [check_notifications]. *)
Definition notify_appointment (notifications : list line) (appointment : Appointment.t)
  : result (list line) :=
  days ← Appointment.days_until appointment;
  if bool_decide (days = 0) && negb (Appointment.completed appointment) then
    Ok (notifications ++
        [NoteToday (Appointment.title appointment) (Appointment.doctor appointment)])
  else if bool_decide (1 ≤ days ≤ 3) && negb (Appointment.completed appointment) then
    Ok (notifications ++
        [NoteUpcoming (Appointment.title appointment) (Appointment.doctor appointment) days])
  else Ok notifications.

(** The body of the second loop of [check_notifications]. *)
Definition notify_medicine (notifications : list line) (medicine : Medicine.t)
  : result (list line) :=
  if bool_decide (Medicine.stock medicine ≤ 5) then
    Ok (notifications ++ [NoteLowStock (Medicine.name medicine) (Medicine.stock medicine)])
  else Ok notifications.

Definition check_notifications (current_user : option User.t) : result (list line) :=
  match current_user with
  | None => Ok []
  | Some user =>
      let notifications := [] in
      notifications ← for_loop notify_appointment (User.appointments user) notifications;
      notifications ← for_loop notify_medicine (User.medicines user) notifications;
      Ok notifications
  end.

Definition add_medicine (name dosage choice end_date_input stock_input : string)
    (user : User.t) : io (User.t * list line) :=
  let name := strip name in
  if bool_decide (name = "") then mret (user, [NameRequired]) else
  let dosage := strip dosage in
  if bool_decide (dosage = "") then mret (user, [DosageRequired]) else
  let choice := strip choice in
  frequency ← pure (
    if isdigit choice then
      c ← int choice;
      if bool_decide (1 ≤ c ≤ 4) then
        match frequencies !! Z.to_nat (c - 1) with
        | Some f => Ok f
        | None => Raise IndexError
        end
      else Ok "Once daily"
    else Ok "Once daily");
  let start_date := strftime today in
  let end_date_input := strip end_date_input in
  let end_date :=
    if bool_decide (end_date_input = "") then strftime (today + 30) else end_date_input in
  let stock := initial_stock stock_input in
  let medicine := Medicine.init name dosage frequency start_date end_date stock in
  let user := User.set_medicines (User.medicines user ++ [medicine]) user in
  Database.save_user user;;
  mret (user, [MedicineAdded name dosage frequency stock]).

Definition add_appointment (title doctor date_str time_str location : string)
    (user : User.t) : io (User.t * list line) :=
  let title := strip title in
  if bool_decide (title = "") then mret (user, [TitleRequired]) else
  let doctor := strip doctor in
  if bool_decide (doctor = "") then mret (user, [DoctorRequired]) else
  let date_str := strip date_str in
  let time_str := str_or (strip time_str) "10:00" in
  let location := strip location in
  let appointment := Appointment.init title doctor date_str time_str location in
  let user := User.set_appointments (User.appointments user ++ [appointment]) user in
  Database.save_user user;;
  days ← pure (Appointment.days_until appointment);
  mret (user, [AppointmentAdded title doctor date_str days time_str]).

(** [medicine] is the object in the user's list, so [take_dose] updates the
    list in place.  The [except ValueError] clause catches the failure of
    [int]; nothing else in the block raises a [ValueError]. *)
Definition mark_medicine_taken (choice : string) (user : User.t)
  : io (User.t * list line) :=
  if bool_decide (User.medicines user = []) then mret (user, [NoMedicines]) else
  match int (strip choice) with
  | Raise _ => mret (user, [InvalidInput])
  | Ok choice =>
      if bool_decide (1 ≤ choice ≤ Z.of_nat (length (User.medicines user))) then
        let i := Z.to_nat (choice - 1) in
        match User.medicines user !! i with
        | None => pure (Raise IndexError)
        | Some medicine =>
            let '(medicine, taken) := Medicine.take_dose medicine in
            let user := User.set_medicines (<[i := medicine]> (User.medicines user)) user in
            if taken : bool then
              Database.save_user user;;
              mret (user,
                    [MarkedTaken (Medicine.name medicine);
                     RemainingStock (Medicine.stock medicine)] ++
                    (if bool_decide (Medicine.stock medicine ≤ 5)
                     then [LowStockRefill] else []))
            else mret (user, [OutOfStock])
        end
      else mret (user, [InvalidChoice])
  end.

(** The condition of the "upcoming" comprehensions. *)
Definition is_upcoming (a : Appointment.t) : result bool :=
  days ← Appointment.days_until a;
  Ok (bool_decide (0 ≤ days) && negb (Appointment.completed a)).

(** [upcoming] holds references to the objects of the user's list, not
    copies: an element is a position in [self.current_user.appointments]
    together with the object found there, and the assignment
    [appointment.completed = True] writes through the position. *)
Definition mark_appointment_completed (choice : string) (user : User.t)
  : io (User.t * list line) :=
  if bool_decide (User.appointments user = []) then mret (user, [NoAppointments]) else
  upcoming ← pure (select (λ ref, is_upcoming ref.2) (imap pair (User.appointments user)));
  if bool_decide (upcoming = []) then mret (user, [NoUpcomingAppointments]) else
  match int (strip choice) with
  | Raise _ => mret (user, [InvalidInput])
  | Ok choice =>
      if bool_decide (1 ≤ choice ≤ Z.of_nat (length upcoming)) then
        match upcoming !! Z.to_nat (choice - 1) with
        | None => pure (Raise IndexError)
        | Some (i, appointment) =>
            let appointments :=
              alter (Appointment.set_completed true) i (User.appointments user) in
            let user := User.set_appointments appointments user in
            Database.save_user user;;
            mret (user, [MarkedCompleted (Appointment.title appointment)])
        end
      else mret (user, [InvalidChoice])
  end.

(** [adherence = (taken_today / total_doses) * 100].  Python divides in
    binary64; the model keeps the exact rational. *)
Definition adherence (taken_today total_doses : Z) : Q :=
  ((inject_Z taken_today / inject_Z total_doses) * inject_Z 100)%Q.

Definition view_weekly_summary (user : User.t) : result (list line) :=
  let taken_today := sum (Medicine.taken_today <$> User.medicines user) in
  let missed_today := sum (Medicine.missed_today <$> User.medicines user) in
  let total_medicines := length (User.medicines user) in
  upcoming ← select is_upcoming (User.appointments user);
  let upcoming_appointments := length upcoming in
  let low_stock :=
    length (filter (λ m, Medicine.stock m ≤ 5) (User.medicines user)) in
  Ok ([DosesTaken taken_today;
       DosesMissed missed_today;
       ActiveMedicines total_medicines;
       UpcomingAppointments upcoming_appointments] ++
      (if bool_decide (0 < low_stock)%nat then [LowStockMedicines low_stock] else []) ++
      (if bool_decide (0 < total_medicines)%nat then
         let total_doses := taken_today + missed_today in
         if bool_decide (0 < total_doses) then
           [AdherenceRate (adherence taken_today total_doses)]
         else []
       else [])).

Definition change_password (current new_password confirm : string) (user : User.t)
  : io (User.t * list line) :=
  let current := strip current in
  if bool_decide (current ≠ User.password user) then mret (user, [PasswordIncorrect]) else
  let new_password := strip new_password in
  if bool_decide (new_password = "") then mret (user, [PasswordEmpty]) else
  let confirm := strip confirm in
  if bool_decide (new_password ≠ confirm) then mret (user, [PasswordMismatch]) else
  let user := User.set_password new_password user in
  Database.save_user user;;
  mret (user, [PasswordChanged]).

Definition emergency_mode (user : User.t) : result (list line) :=
  let contact :=
    if bool_decide (User.emergency_contact user = "") then [NoEmergencyContact]
    else [EmergencyContact (User.emergency_contact user) (User.emergency_phone user)] in
  let critical_meds := filter (λ m, Medicine.stock m ≤ 2) (User.medicines user) in
  urgent_appts ← select (λ a, days ← Appointment.days_until a;
                              Ok (bool_decide (days ≤ 3) && negb (Appointment.completed a)))
                        (User.appointments user);
  Ok ([PatientName (User.name user)] ++ contact ++
      ((λ m, CriticalMedication (Medicine.name m) (Medicine.stock m)) <$> critical_meds) ++
      ((λ a, UrgentAppointment (Appointment.title a) (Appointment.doctor a)) <$> urgent_appts)).

Definition register_user
    (username name password confirm emergency_contact emergency_phone : string)
  : io (list account_line) :=
  let username := strip username in
  if bool_decide (username = "") then mret [UsernameEmpty] else
  taken ← reading (Database.user_exists username);
  if taken : bool then mret [UsernameExists] else
  let name := strip name in
  if bool_decide (name = "") then mret [NameEmpty] else
  let password := strip password in
  if bool_decide (password = "") then mret [NewPasswordEmpty] else
  let confirm := strip confirm in
  if bool_decide (password ≠ confirm) then mret [NewPasswordMismatch] else
  let emergency_contact := strip emergency_contact in
  let emergency_phone := strip emergency_phone in
  let user := User.init username password name in
  let user := User.set_emergency_contact emergency_contact user in
  let user := User.set_emergency_phone emergency_phone user in
  Database.save_user user;;
  mret [RegistrationSuccessful name].

(** [login_user] returns [self.current_user] after the call.  A [User]
    object is truthy, so [user and ...] fails only on [None]. *)
Definition login_user (username password : string) (current_user : option User.t)
  : io (option User.t * list account_line) :=
  let username := strip username in
  let password := strip password in
  user ← reading (Database.load_user username);
  match user with
  | Some user =>
      if bool_decide (User.password user = password) then
        let current_user := Some user in
        notes ← pure (check_notifications current_user);
        mret (current_user, WelcomeBack (User.name user) :: (Notification <$> notes))
      else mret (current_user, [InvalidLogin])
  | None => mret (current_user, [InvalidLogin])
  end.

(** The colour [view_medicines] shows beside a stock. *)
Definition stock_status (stock : Z) : status :=
  if bool_decide (10 < stock) then Green
  else if bool_decide (5 < stock) then Yellow
  else Red.

Definition view_medicines (user : User.t) : list listing :=
  if bool_decide (User.medicines user = []) then [NoMedicinesYet] else
  mjoin (imap (λ i med,
           [MedicineRow (S i) (Medicine.name med) (Medicine.dosage med)
              (Medicine.frequency med) (stock_status (Medicine.stock med))
              (Medicine.stock med)]
           ++ (if bool_decide (Medicine.stock med ≤ 5) then [RefillSoon] else []))
         (User.medicines user)).

Definition view_appointments (user : User.t) : result (list listing) :=
  if bool_decide (User.appointments user = []) then Ok [NoAppointmentsScheduled] else
  upcoming ← select (λ a, days ← Appointment.days_until a; Ok (bool_decide (0 ≤ days)))
                    (User.appointments user);
  past ← select (λ a, days ← Appointment.days_until a; Ok (bool_decide (days < 0)))
                (User.appointments user);
  upcoming_rows ←
    (if bool_decide (upcoming = []) then Ok [] else
     rows ← for_each (λ '(i, appt),
               days ← Appointment.days_until appt;
               Ok ([UpcomingRow (S i) (Appointment.completed appt) (Appointment.title appt)
                      (Appointment.doctor appt) (Appointment.date appt) days]
                   ++ (if bool_decide (Appointment.location appt = "") then []
                       else [LocationRow (Appointment.location appt)])))
             (imap pair upcoming);
     Ok (UpcomingHeader :: mjoin rows));
  past_rows ←
    (if bool_decide (past = []) then Ok [] else
     rows ← for_each (λ '(i, appt),
               days ← Appointment.days_until appt;
               Ok (PastRow (S i) (Appointment.completed appt) (Appointment.title appt)
                     (Appointment.doctor appt) (Appointment.date appt) (Z.abs days)))
             (imap pair past);
     Ok (PastHeader :: rows));
  Ok (upcoming_rows ++ past_rows).

(** The choices of the logged-in menu that reach the operations above,
    with the lines each one reads. *)
Inductive choice : Type :=
| ViewWeeklySummary
| CheckNotifications
| AddMedicine (name dosage frequency end_date stock : string)
| MarkMedicineTaken (index : string)
| AddAppointment (title doctor date time location : string)
| MarkAppointmentCompleted (index : string)
| ChangePassword (current new_password confirm : string)
| EmergencyMode.

(** One turn of the loop of [main_menu] for a logged-in user. *)
Definition dispatch (c : choice) (user : User.t) : io (User.t * list line) :=
  match c with
  | ViewWeeklySummary =>
      out ← pure (view_weekly_summary user); mret (user, out)
  | CheckNotifications =>
      out ← pure (check_notifications (Some user)); mret (user, out)
  | AddMedicine name dosage frequency end_date stock =>
      add_medicine name dosage frequency end_date stock user
  | MarkMedicineTaken index => mark_medicine_taken index user
  | AddAppointment title doctor date time location =>
      add_appointment title doctor date time location user
  | MarkAppointmentCompleted index => mark_appointment_completed index user
  | ChangePassword current new_password confirm =>
      change_password current new_password confirm user
  | EmergencyMode =>
      out ← pure (emergency_mode user); mret (user, out)
  end.

(** The loop of [main_menu] over a sequence of choices; an exception ends
    the program. *)
Fixpoint main_menu (choices : list choice) (user : User.t) : io (User.t * list line) :=
  match choices with
  | [] => mret (user, [])
  | c :: rest =>
      '(user, out) ← dispatch c user;
      '(user, out') ← main_menu rest user;
      mret (user, out ++ out')
  end.

End app.
End MediTrackApp.

(** ** The effect of a menu choice on the user in memory

    What one turn of the menu may do to [self.current_user]: nothing;
    append a medicine with both counters at 0 and the stock read from the
    stock line; append an appointment that is not completed; let one
    medicine that has stock take a dose; mark one appointment completed;
    replace the password. *)

Inductive effect `{Text} : MediTrackApp.choice → User.t → User.t → Prop :=
| effect_none c user :
    effect c user user
| effect_add_medicine name dosage frequency end_date stock user medicine :
    Medicine.stock medicine = initial_stock stock →
    Medicine.taken_today medicine = 0 →
    Medicine.missed_today medicine = 0 →
    effect (MediTrackApp.AddMedicine name dosage frequency end_date stock) user
      (User.set_medicines (User.medicines user ++ [medicine]) user)
| effect_add_appointment title doctor date time location user appointment :
    Appointment.completed appointment = false →
    effect (MediTrackApp.AddAppointment title doctor date time location) user
      (User.set_appointments (User.appointments user ++ [appointment]) user)
| effect_take_dose index user i medicine :
    User.medicines user !! i = Some medicine →
    0 < Medicine.stock medicine →
    effect (MediTrackApp.MarkMedicineTaken index) user
      (User.set_medicines
         (<[i := (Medicine.take_dose medicine).1]> (User.medicines user)) user)
| effect_complete index user i :
    effect (MediTrackApp.MarkAppointmentCompleted index) user
      (User.set_appointments
         (alter (Appointment.set_completed true) i (User.appointments user)) user)
| effect_password current new_password confirm user :
    effect (MediTrackApp.ChangePassword current new_password confirm) user
      (User.set_password (strip new_password) user).

(** The effects of a sequence of choices, one after the other. *)
Inductive effects `{Text} : list MediTrackApp.choice → User.t → User.t → Prop :=
| effects_nil user :
    effects [] user user
| effects_cons c choices user user1 user2 :
    effect c user user1 →
    effects choices user1 user2 →
    effects (c :: choices) user user2.

(** The adherence rates among the printed lines. *)
Definition rates (out : list line) : list Q :=
  omap (λ l, match l with AdherenceRate rate => Some rate | _ => None end) out.

(** The document [save_user] writes: the one it read, with the user's
    record stored under the user's name. *)
Definition with_user (user : User.t) (data users : gmap string pyval) : pyval :=
  PDict (<["users" := PDict (<[User.username user := PDict (User.to_dict user)]> users)]> data).

Definition bare_appointment : gmap string pyval :=
  list_to_map [("title", PStr "Checkup"); ("doctor", PStr "Smith");
               ("date", PStr "2024-03-10"); ("time", PStr "10:00")].

Definition bare_medicine : gmap string pyval :=
  list_to_map [("name", PStr "Aspirin"); ("dosage", PStr "100mg");
               ("frequency", PStr "Twice daily"); ("start_date", PStr "2024-03-10");
               ("end_date", PStr "2024-04-09"); ("stock", PInt 3)].

(** A choice whose stock line, if it has one, does not read as a negative
    number. *)
Definition stock_line_ok `{Text} (c : MediTrackApp.choice) : Prop :=
  match c with
  | MediTrackApp.AddMedicine _ _ _ _ stock => 0 ≤ initial_stock stock
  | _ => True
  end.

(** ** Notifications, by the words of the specification

    "today" for an incomplete appointment with [daysUntil == 0],
    "upcoming" for an incomplete appointment with [1 <= daysUntil <= 3],
    nothing for any other appointment. *)

Definition appointment_notes (days : Z) (a : Appointment.t) : list line :=
  if Appointment.completed a then []
  else if bool_decide (days = 0) then
    [NoteToday (Appointment.title a) (Appointment.doctor a)]
  else if bool_decide (1 ≤ days ≤ 3) then
    [NoteUpcoming (Appointment.title a) (Appointment.doctor a) days]
  else [].

Definition notes_of `{Clock} (a : Appointment.t) : list line :=
  match Appointment.days_until a with
  | Ok days => appointment_notes days a
  | Raise _ => []
  end.

(** "low-stock" for a medicine with [stock <= 5]. *)
Definition low_stock_notes (medicines : list Medicine.t) : list line :=
  (λ m, NoteLowStock (Medicine.name m) (Medicine.stock m))
    <$> filter (λ m, Medicine.stock m ≤ 5) medicines.

(** The lines that are not an adherence rate. *)
Definition no_rate (l : line) : Prop :=
  match l with AdherenceRate _ => False | _ => True end.

(** ** Upcoming appointments, by the words of the specification

    The appointments with [daysUntil >= 0] that are not completed. *)

Definition upcoming_incomplete `{Clock} (a : Appointment.t) : Prop :=
  ∃ days, Appointment.days_until a = Ok days
          ∧ 0 ≤ days
          ∧ Appointment.completed a = false.

#[global] Instance upcoming_incomplete_dec `{Clock} (a : Appointment.t) :
  Decision (upcoming_incomplete a).
Proof.
  unfold upcoming_incomplete.
  destruct (Appointment.days_until a) as [days|e].
  - destruct (decide (0 ≤ days ∧ Appointment.completed a = false)) as [Hyes|Hno].
    + left. by exists days.
    + right. intros (days' & [= <-] & Hrest). by apply Hno.
  - right. by intros (days & [=] & _).
Defined.

(** ** Text, a calendar and a codec for the examples

    The theorems below hold for every [Text], every [Clock] and every
    [Json].  The examples run on ASCII text, where [str.strip],
    [str.isdigit] and [int] are the functions of [Plain]; on the
    proleptic Gregorian calendar of Python's [date.toordinal]
    (zero-padded [YYYY-MM-DD] text, years 1000 to 9999); and, where they
    start from an empty file system, on a codec that reads nothing
    back. *)

Module Plain.

(** The characters [str.strip] removes. *)
Definition is_space (c : ascii) : bool :=
  let n := Ascii.nat_of_ascii c in
  ((9 <=? n) && (n <=? 13) || (28 <=? n) && (n <=? 32))%nat.

Fixpoint lstrip (cs : list ascii) : list ascii :=
  match cs with
  | c :: rest => if is_space c then lstrip rest else cs
  | [] => []
  end.

(** [s.strip()] *)
Definition strip (s : string) : string :=
  String.string_of_list_ascii (rev (lstrip (rev (lstrip (String.list_ascii_of_string s))))).

Definition digit_of (c : ascii) : option Z :=
  let n := Ascii.nat_of_ascii c in
  if ((48 <=? n) && (n <=? 57))%nat then Some (Z.of_nat n - 48) else None.

(** [s.isdigit()]: non-empty and all decimal digits. *)
Definition isdigit (s : string) : bool :=
  match String.list_ascii_of_string s with
  | [] => false
  | cs => forallb (λ c, bool_decide (is_Some (digit_of c))) cs
  end.

(** The digit part of a decimal literal: digits, with single underscores
    allowed between two digits. *)
Fixpoint int_digits (acc : Z) (after_digit : bool) (cs : list ascii) : option Z :=
  match cs with
  | [] => if after_digit then Some acc else None
  | c :: rest =>
      if bool_decide (c = "_"%char) then
        if after_digit then
          match rest with
          | [] => None
          | _ => int_digits acc false rest
          end
        else None
      else
        match digit_of c with
        | Some d => int_digits (10 * acc + d) true rest
        | None => None
        end
  end.

(** [int(s)]: surrounding whitespace, an optional sign, a decimal
    literal; [None] for anything else. *)
Definition int (s : string) : option Z :=
  let cs := String.list_ascii_of_string (strip s) in
  let '(negative, body) :=
    match cs with
    | "-"%char :: rest => (true, rest)
    | "+"%char :: rest => (false, rest)
    | _ => (false, cs)
    end in
  match int_digits 0 false body with
  | Some n => Some (if negative : bool then - n else n)
  | None => None
  end.

End Plain.

Definition example_text : Text :=
  {| strip := Plain.strip; isdigit := Plain.isdigit; int_of_string := Plain.int |}.

(** The superscript two, as UTF-8 text: a character that [str.isdigit]
    accepts and [int] rejects.  [superscript_text] is [example_text] with
    that one character known to [isdigit]. *)
Definition superscript_two : string :=
  String (Ascii.ascii_of_nat 194) (String (Ascii.ascii_of_nat 178) EmptyString).

Definition superscript_text : Text :=
  {| strip := Plain.strip;
     isdigit := λ s, Plain.isdigit s || bool_decide (s = superscript_two);
     int_of_string := Plain.int |}.

Module Calendar.

Definition is_leap (year : Z) : bool :=
  (year mod 4 =? 0) && (negb (year mod 100 =? 0) || (year mod 400 =? 0)).

Definition days_in_month (year month : Z) : Z :=
  if month =? 2 then (if is_leap year then 29 else 28)
  else if (month =? 4) || (month =? 6) || (month =? 9) || (month =? 11) then 30
  else 31.

Definition days_before_year (year : Z) : Z :=
  let y := year - 1 in y * 365 + y / 4 - y / 100 + y / 400.

Definition days_before_month (year month : Z) : Z :=
  foldr (λ k acc, days_in_month year (Z.of_nat k) + acc) 0 (seq 1 (Z.to_nat (month - 1))).

Definition toordinal (year month day : Z) : Z :=
  days_before_year year + days_before_month year month + day.

Definition number (cs : list ascii) : option Z :=
  foldl (λ acc c, a ← acc; d ← Plain.digit_of c; Some (10 * a + d)) (Some 0) cs.

Fixpoint split_dash (field : list ascii) (cs : list ascii) : list (list ascii) :=
  match cs with
  | [] => [rev field]
  | c :: rest =>
      if bool_decide (c = "-"%char) then rev field :: split_dash [] rest
      else split_dash (c :: field) rest
  end.

Definition parse (s : string) : option Z :=
  match split_dash [] (String.list_ascii_of_string s) with
  | [ys; ms; ds] =>
      y ← number ys; m ← number ms; d ← number ds;
      if bool_decide (length ys = 4 ∧ length ms = 2 ∧ length ds = 2)%nat
         && bool_decide (1 ≤ y ∧ 1 ≤ m ≤ 12 ∧ 1 ≤ d ≤ days_in_month y m)
      then Some (toordinal y m d) else None
  | _ => None
  end.

Definition two_digits (n : Z) : string :=
  if bool_decide (n < 10) then "0" +:+ pretty n else pretty n.

Definition format (ordinal : Z) : string :=
  let z := ordinal + 305 in
  let era := z / 146097 in
  let doe := z - era * 146097 in
  let yoe := (doe - doe / 1460 + doe / 36524 - doe / 146096) / 365 in
  let doy := doe - (365 * yoe + yoe / 4 - yoe / 100) in
  let mp := (5 * doy + 2) / 153 in
  let d := doy - (153 * mp + 2) / 5 + 1 in
  let m := if bool_decide (mp < 10) then mp + 3 else mp - 9 in
  let y := yoe + era * 400 + (if bool_decide (m ≤ 2) then 1 else 0) in
  pretty y +:+ "-" +:+ two_digits m +:+ "-" +:+ two_digits d.

End Calendar.

(** The clock stopped on 2024-03-10. *)
Definition example_clock : Clock :=
  {| today := 738955; strptime := Calendar.parse; strftime := Calendar.format |}.

Definition example_json : Json :=
  {| json_load := λ _, None; json_dump := λ _, "{}" |}.

Definition alice : User.t := User.init "alice" "pw1" "Alice A".

Definition aspirin (stock : Z) : Medicine.t :=
  Medicine.init "Aspirin" "100mg" "Twice daily" "2024-03-10" "2024-04-09" stock.

Definition checkup (date : string) : Appointment.t :=
  Appointment.init "Checkup" "Smith" date "10:00" "".

(** Alice with a visit already made today, a dentist in two days and a
    visit missed last week. *)
Definition alice_with_visits : User.t :=
  User.set_appointments
    [Appointment.set_completed true (checkup "2024-03-10");
     Appointment.init "Dentist" "Jones" "2024-03-12" "09:30" "Main Street";
     Appointment.init "Eye test" "Lee" "2024-03-03" "10:00" ""]
    alice.

(** Alice with three doses of aspirin left and a full box of vitamins. *)
Definition alice_with_medicines : User.t :=
  User.set_medicines
    [aspirin 3;
     Medicine.init "Vitamin D" "10ug" "Once daily" "2024-03-10" "2024-04-09" 30]
    alice.


(** A short session: one medicine added, one dose taken, the summary. *)
Definition dose_session : list MediTrackApp.choice :=
  [MediTrackApp.AddMedicine "Aspirin" "100mg" "2" "" "3";
   MediTrackApp.MarkMedicineTaken "1";
   MediTrackApp.ViewWeeklySummary].

(** A session around appointments. *)
Definition visit_session : list MediTrackApp.choice :=
  [MediTrackApp.AddAppointment "Blood test" "Khan" "2024-03-11" "" "";
   MediTrackApp.MarkAppointmentCompleted "1";
   MediTrackApp.CheckNotifications;
   MediTrackApp.ChangePassword "pw1" "pw2" "pw2";
   MediTrackApp.ViewWeeklySummary].

(** Where [dose_session] leaves Alice, and what it prints. *)
Definition alice_after_doses : User.t :=
  User.set_medicines
    [Medicine.set_taken_today 1 (aspirin 2)]
    alice.

Definition dose_session_lines : list line :=
  [MedicineAdded "Aspirin" "100mg" "Twice daily" 3;
   MarkedTaken "Aspirin"; RemainingStock 2; LowStockRefill;
   DosesTaken 1; DosesMissed 0; ActiveMedicines 1;
   UpcomingAppointments 0; LowStockMedicines 1;
   AdherenceRate (MediTrackApp.adherence 1 1)].

(** Where [visit_session] leaves Alice with her three visits, and what it
    prints: the index 1 is the dentist, the first visit still to come. *)
Definition alice_after_visits : User.t :=
  User.set_password "pw2"
    (User.set_appointments
       [Appointment.set_completed true (checkup "2024-03-10");
        Appointment.set_completed true
          (Appointment.init "Dentist" "Jones" "2024-03-12" "09:30" "Main Street");
        Appointment.init "Eye test" "Lee" "2024-03-03" "10:00" "";
        Appointment.init "Blood test" "Khan" "2024-03-11" "10:00" ""]
       alice).

Definition visit_session_lines : list line :=
  [AppointmentAdded "Blood test" "Khan" "2024-03-11" 1 "10:00";
   MarkedCompleted "Dentist"; NoteUpcoming "Blood test" "Khan" 1;
   PasswordChanged; DosesTaken 0; DosesMissed 0;
   ActiveMedicines 0; UpcomingAppointments 1].

(** ** A codec that reads back what it writes

    JSON on one line, for text without quotes or escapes: enough to run
    the examples that save and load. *)

Module Compact.

Definition quote : ascii := Ascii.ascii_of_nat 34.

Definition text (s : string) : string := String quote (s +:+ String quote "").

Definition join (l : list string) : string :=
  match l with
  | [] => ""
  | x :: rest => foldl (λ acc y, acc +:+ "," +:+ y) x rest
  end.

Fixpoint dump (v : pyval) : string :=
  match v with
  | PNone => "null"
  | PBool b => if b then "true" else "false"
  | PInt z => pretty z
  | PStr s => text s
  | PList l => "[" +:+ join (dump <$> l) +:+ "]"
  | PDict d =>
      "{" +:+ join ((λ kv, text kv.1 +:+ ":" +:+ kv.2) <$> map_to_list (dump <$> d)) +:+ "}"
  end.

Fixpoint read_text (acc cs : list ascii) : option (string * list ascii) :=
  match cs with
  | [] => None
  | c :: rest =>
      if bool_decide (c = quote) then Some (String.string_of_list_ascii (rev acc), rest)
      else read_text (c :: acc) rest
  end.

Fixpoint read_digits (acc : Z) (cs : list ascii) : Z * list ascii :=
  match cs with
  | c :: rest =>
      match Plain.digit_of c with
      | Some d => read_digits (10 * acc + d) rest
      | None => (acc, cs)
      end
  | [] => (acc, [])
  end.

Section nested.
Variable value : list ascii → option (pyval * list ascii).

Fixpoint items (fuel : nat) (acc : list pyval) (cs : list ascii)
  : option (pyval * list ascii) :=
  match fuel with
  | O => None
  | S fuel =>
      '(v, rest) ← value cs;
      match rest with
      | ","%char :: rest => items fuel (acc ++ [v]) rest
      | "]"%char :: rest => Some (PList (acc ++ [v]), rest)
      | _ => None
      end
  end.

Fixpoint members (fuel : nat) (acc : gmap string pyval) (cs : list ascii)
  : option (pyval * list ascii) :=
  match fuel with
  | O => None
  | S fuel =>
      match cs with
      | c :: cs =>
          if bool_decide (c = quote) then
            '(key, rest) ← read_text [] cs;
            match rest with
            | ":"%char :: rest =>
                '(v, rest) ← value rest;
                match rest with
                | ","%char :: rest => members fuel (<[key := v]> acc) rest
                | "}"%char :: rest => Some (PDict (<[key := v]> acc), rest)
                | _ => None
                end
            | _ => None
            end
          else None
      | [] => None
      end
  end.

End nested.

Fixpoint parse (fuel : nat) (cs : list ascii) : option (pyval * list ascii) :=
  match fuel with
  | O => None
  | S fuel =>
      match cs with
      | "n"%char :: "u"%char :: "l"%char :: "l"%char :: rest => Some (PNone, rest)
      | "t"%char :: "r"%char :: "u"%char :: "e"%char :: rest => Some (PBool true, rest)
      | "f"%char :: "a"%char :: "l"%char :: "s"%char :: "e"%char :: rest =>
          Some (PBool false, rest)
      | "["%char :: "]"%char :: rest => Some (PList [], rest)
      | "["%char :: rest => items (parse fuel) fuel [] rest
      | "{"%char :: "}"%char :: rest => Some (PDict ∅, rest)
      | "{"%char :: rest => members (parse fuel) fuel ∅ rest
      | "-"%char :: rest =>
          let '(n, rest) := read_digits 0 rest in Some (PInt (- n), rest)
      | c :: rest =>
          if bool_decide (c = quote) then
            '(s, rest) ← read_text [] rest; Some (PStr s, rest)
          else if bool_decide (is_Some (Plain.digit_of c)) then
            let '(n, rest) := read_digits 0 cs in Some (PInt n, rest)
          else None
      | [] => None
      end
  end.

Definition load (s : string) : option pyval :=
  match parse (S (String.length s)) (String.list_ascii_of_string s) with
  | Some (v, []) => Some v
  | _ => None
  end.

End Compact.

Definition compact_json : Json :=
  {| json_load := Compact.load; json_dump := Compact.dump |}.

(** ** Doses in a row *)

(** [take_dose] called [n] times on the same medicine. *)
Definition take_doses (n : nat) (m : Medicine.t) : Medicine.t :=
  Nat.iter n (λ m, (Medicine.take_dose m).1) m.

(** What a medicine is, as opposed to how much of it is left. *)
Definition same_medicine (m m' : Medicine.t) : Prop :=
  Medicine.name m' = Medicine.name m
  ∧ Medicine.dosage m' = Medicine.dosage m
  ∧ Medicine.frequency m' = Medicine.frequency m
  ∧ Medicine.start_date m' = Medicine.start_date m
  ∧ Medicine.end_date m' = Medicine.end_date m
  ∧ Medicine.missed_today m' = Medicine.missed_today m.

(** ** Listings, by what they show *)

(** The days until an appointment whose date parses. *)
Definition days_of `{Clock} (a : Appointment.t) : Z :=
  match Appointment.days_until a with
  | Ok days => days
  | Raise _ => 0
  end.

(** An appointment the emergency view calls urgent: not completed and at
    most three days ahead, overdue included. *)
Definition urgent `{Clock} (a : Appointment.t) : Prop :=
  days_of a ≤ 3 ∧ Appointment.completed a = false.

#[global] Instance urgent_dec `{Clock} (a : Appointment.t) : Decision (urgent a).
Proof. unfold urgent. apply _. Defined.

(** The rows of the upcoming and of the past appointments, numbered from
    1, each list on its own. *)
Definition upcoming_rows `{Clock} (upcoming : list Appointment.t) : list listing :=
  mjoin (imap (λ i a,
           UpcomingRow (S i) (Appointment.completed a) (Appointment.title a)
             (Appointment.doctor a) (Appointment.date a) (days_of a)
           :: (if bool_decide (Appointment.location a = "") then []
               else [LocationRow (Appointment.location a)]))
         upcoming).

Definition past_rows `{Clock} (past : list Appointment.t) : list listing :=
  imap (λ i a,
     PastRow (S i) (Appointment.completed a) (Appointment.title a)
       (Appointment.doctor a) (Appointment.date a) (Z.abs (days_of a)))
    past.

(** The refill warnings of a listing. *)
Definition is_refill (l : listing) : Prop := l = RefillSoon.

#[global] Instance is_refill_dec (l : listing) : Decision (is_refill l).
Proof. unfold is_refill. destruct l; (by left) || (by right). Defined.


(** The keys [from_dict] reads by subscript, in the order it reads them:
    the other keys are read with [get] and a default. *)
Definition appointment_keys : list string := ["title"; "doctor"; "date"; "time"].
Definition medicine_keys : list string :=
  ["name"; "dosage"; "frequency"; "start_date"; "end_date"; "stock"].
Definition user_keys : list string := ["username"; "password"; "name"].

(** ** More examples *)

Definition bob : User.t := User.mk "bob" "secret" "Bob B" [] [] "Carol" "555-0100".

(** Alice with an appointment whose date is no date. *)
Definition alice_bad_date : User.t :=
  User.set_appointments [checkup "2024-03-10"; checkup "tomorrow"] alice.

(** Alice with her visits and her medicines. *)
Definition alice_everything : User.t :=
  User.set_medicines (User.medicines alice_with_medicines) alice_with_visits.

(** The store document that holds the given users, and the file system
    whose database file holds it in the compact notation. *)
Definition store_users (users : list User.t) : gmap string pyval :=
  list_to_map ((λ u, (User.username u, PDict (User.to_dict u))) <$> users).

Definition store_data (users : list User.t) : gmap string pyval :=
  {["users" := PDict (store_users users)]}.

Definition store (users : list User.t) : filesystem :=
  {[DATABASE_FILE := Compact.dump (PDict (store_data users))]}.

(** A database file with a list where the users should be, and one that
    holds no dictionary. *)
Definition store_users_list : filesystem :=
  {[DATABASE_FILE := Compact.dump (PDict {["users" := PList []]})]}.

Definition store_list : filesystem := {[DATABASE_FILE := "[]"]}.
(** * Entity layer: dose taking *)

Section take_dose.
Import Medicine.

Lemma take_dose_in_stock m :
  0 < stock m →
  take_dose m = (set_taken_today (taken_today m + 1) (set_stock (stock m - 1) m), true).
Proof.
  intros Hs. unfold take_dose.
  rewrite bool_decide_eq_false_2 by lia. reflexivity.
Qed.

Lemma take_dose_no_stock m : stock m ≤ 0 → take_dose m = (m, false).
Proof. intros Hs. unfold take_dose. by rewrite bool_decide_eq_true_2. Qed.

End take_dose.

(** C1. A medicine with stock [s > 0] takes the dose: [take_dose] returns
    [True], the stock becomes [s - 1] and [taken_today] grows by exactly 1
    (nothing else changes).  A medicine with stock 0 refuses: [take_dose]
    returns [False] and the object, in particular [stock] and
    [taken_today], is unchanged. *)
Theorem take_dose_spec (m : Medicine.t) :
  (0 < Medicine.stock m →
     let '(m', ok) := Medicine.take_dose m in
     ok = true
     ∧ Medicine.stock m' = Medicine.stock m - 1
     ∧ Medicine.taken_today m' = Medicine.taken_today m + 1
     ∧ Medicine.missed_today m' = Medicine.missed_today m
     ∧ Medicine.name m' = Medicine.name m)
  ∧ (Medicine.stock m = 0 →
     let '(m', ok) := Medicine.take_dose m in
     ok = false
     ∧ m' = m
     ∧ Medicine.stock m' = Medicine.stock m
     ∧ Medicine.taken_today m' = Medicine.taken_today m).
Proof.
  split; intros Hs.
  - rewrite take_dose_in_stock by done. by cbn.
  - rewrite take_dose_no_stock by lia. done.
Qed.

Lemma take_dose_spec_witness :
  (0 < Medicine.stock (aspirin 3)
   ∧ Medicine.take_dose (aspirin 3)
     = (Medicine.mk "Aspirin" "100mg" "Twice daily" "2024-03-10" "2024-04-09" 2 1 0, true))
  ∧ (Medicine.stock (aspirin 0) = 0
     ∧ Medicine.take_dose (aspirin 0) = (aspirin 0, false)).
Proof.
  split.
  - split; [reflexivity |].
    pose proof (proj1 (take_dose_spec (aspirin 3)) eq_refl) as H.
    reflexivity.
  - split; [reflexivity |].
    pose proof (proj2 (take_dose_spec (aspirin 0)) eq_refl) as H.
    reflexivity.
Defined.

(** * Entity layer: records *)

Lemma for_each_fmap {A B C : Type} (f : B → result C) (g : A → B) (h : A → C) (l : list A) :
  (∀ x, f (g x) = Ok (h x)) → for_each f (g <$> l) = Ok (h <$> l).
Proof.
  intros Hfg. induction l as [|x l IH]; [done|].
  cbn. rewrite Hfg. cbn. rewrite IH. done.
Qed.

Lemma appointment_round_trip (a : Appointment.t) :
  Appointment.from_dict (Appointment.to_dict a) = Ok a.
Proof. by destruct a. Qed.

Lemma medicine_round_trip (m : Medicine.t) :
  Medicine.from_dict (Medicine.to_dict m) = Ok m.
Proof. by destruct m. Qed.

Lemma user_round_trip (u : User.t) :
  User.from_dict (User.to_dict u) = Ok u.
Proof.
  destruct u as [un pw nm ms appts ec ep].
  set (data := User.to_dict _).
  assert (getitem data "username" = Ok (PStr un)) as Hun by reflexivity.
  assert (getitem data "password" = Ok (PStr pw)) as Hpw by reflexivity.
  assert (getitem data "name" = Ok (PStr nm)) as Hnm by reflexivity.
  assert (get data "medicines" (PList [])
          = PList ((λ m, PDict (Medicine.to_dict m)) <$> ms)) as Hms by reflexivity.
  assert (get data "appointments" (PList [])
          = PList ((λ a, PDict (Appointment.to_dict a)) <$> appts)) as Happts by reflexivity.
  assert (get data "emergency_contact" (PStr "") = PStr ec) as Hec by reflexivity.
  assert (get data "emergency_phone" (PStr "") = PStr ep) as Hep by reflexivity.
  unfold User.from_dict. rewrite Hun, Hpw, Hnm, Hms, Happts, Hec, Hep.
  cbn -[Medicine.to_dict Appointment.to_dict].
  rewrite (for_each_fmap (A := Medicine.t) _ _ id) by (intros m; apply medicine_round_trip).
  cbn -[Medicine.to_dict Appointment.to_dict].
  rewrite (for_each_fmap (A := Appointment.t) _ _ id) by (intros a; apply appointment_round_trip).
  cbn. by rewrite !list_fmap_id.
Qed.

(** Reading a key that is absent is reading the record with the default
    stored under that key. *)
Lemma get_insert_default (data : gmap string pyval) (key : string) (dflt : pyval) :
  data !! key = None → get (<[key := dflt]> data) key dflt = get data key dflt.
Proof. intros Hk. unfold get. by rewrite lookup_insert_eq, Hk. Qed.

Lemma get_insert_ne (data : gmap string pyval) (key key' : string) (v dflt : pyval) :
  key ≠ key' → get (<[key := v]> data) key' dflt = get data key' dflt.
Proof. intros Hk. unfold get. by rewrite lookup_insert_ne. Qed.

Lemma getitem_insert_ne (data : gmap string pyval) (key key' : string) (v : pyval) :
  key ≠ key' → getitem (<[key := v]> data) key' = getitem data key'.
Proof. intros Hk. unfold getitem. by rewrite lookup_insert_ne. Qed.

Ltac absent_is_default :=
  repeat first
    [ rewrite get_insert_default by done
    | rewrite get_insert_ne by done
    | rewrite getitem_insert_ne by done ];
  reflexivity.

(** C4. Writing an entity to a record and reading it back gives the entity,
    field by field, for appointments, medicines and users; and a record
    that lacks an optional key is read as the record holding the
    documented default under that key: [location = ""],
    [completed = False], [taken_today = 0], [missed_today = 0],
    [emergency_contact = ""], [emergency_phone = ""]. *)
Theorem from_dict_to_dict :
  (∀ a, Appointment.from_dict (Appointment.to_dict a) = Ok a)
  ∧ (∀ m, Medicine.from_dict (Medicine.to_dict m) = Ok m)
  ∧ (∀ u, User.from_dict (User.to_dict u) = Ok u)
  ∧ (∀ data : gmap string pyval,
       (data !! "location" = None →
          Appointment.from_dict data = Appointment.from_dict (<["location" := PStr ""]> data))
       ∧ (data !! "completed" = None →
          Appointment.from_dict data = Appointment.from_dict (<["completed" := PBool false]> data))
       ∧ (data !! "taken_today" = None →
          Medicine.from_dict data = Medicine.from_dict (<["taken_today" := PInt 0]> data))
       ∧ (data !! "missed_today" = None →
          Medicine.from_dict data = Medicine.from_dict (<["missed_today" := PInt 0]> data))
       ∧ (data !! "emergency_contact" = None →
          User.from_dict data = User.from_dict (<["emergency_contact" := PStr ""]> data))
       ∧ (data !! "emergency_phone" = None →
          User.from_dict data = User.from_dict (<["emergency_phone" := PStr ""]> data))).
Proof.
  split; [exact appointment_round_trip|].
  split; [exact medicine_round_trip|].
  split; [exact user_round_trip|].
  intros data. repeat split; intros Hk.
  - unfold Appointment.from_dict. absent_is_default.
  - unfold Appointment.from_dict. absent_is_default.
  - unfold Medicine.from_dict. absent_is_default.
  - unfold Medicine.from_dict. absent_is_default.
  - unfold User.from_dict. absent_is_default.
  - unfold User.from_dict. absent_is_default.
Qed.

Lemma from_dict_to_dict_witness :
  (bare_appointment !! "location" = None
   ∧ <["location" := PStr ""]> bare_appointment !! "completed" = None
   ∧ Appointment.from_dict bare_appointment = Ok (checkup "2024-03-10"))
  ∧ (bare_medicine !! "taken_today" = None
     ∧ <["taken_today" := PInt 0]> bare_medicine !! "missed_today" = None
     ∧ Medicine.from_dict bare_medicine = Ok (aspirin 3)).
Proof.
  pose proof (proj2 (proj2 (proj2 from_dict_to_dict))) as Hdefault.
  split; (split; [reflexivity|]); (split; [reflexivity|]).
  - rewrite (proj1 (Hdefault bare_appointment)) by reflexivity.
    rewrite (proj1 (proj2 (Hdefault _))) by reflexivity.
    reflexivity.
  - rewrite (proj1 (proj2 (proj2 (Hdefault bare_medicine)))) by reflexivity.
    rewrite (proj1 (proj2 (proj2 (proj2 (Hdefault _))))) by reflexivity.
    reflexivity.
Defined.

(** * Persistence layer *)

Lemma write_open_w (path text : string) (fs : filesystem) :
  write path text (open_w path fs) = <[path := text]> fs.
Proof. unfold write, open_w. by rewrite alter_insert_eq. Qed.

Lemma get_insert_eq (data : gmap string pyval) (key : string) (v default : pyval) :
  get (<[key := v]> data) key default = v.
Proof. unfold get. by rewrite lookup_insert_eq. Qed.

Section database_facts.
Context `{Json}.

Lemma save_data_insert (data : pyval) (fs : filesystem) :
  Database.save_data data fs = <[DATABASE_FILE := json_dump data]> fs.
Proof. apply write_open_w. Qed.

Lemma save_data_failing_insert (n : nat) (data : pyval) (fs : filesystem) :
  Database.save_data_failing n data fs
  = <[DATABASE_FILE := String.substring 0 n (json_dump data)]> fs.
Proof. apply write_open_w. Qed.

Lemma save_user_ok (user : User.t) (fs : filesystem) (data users : gmap string pyval) :
  Database.load_data fs = PDict data →
  get data "users" (PDict ∅) = PDict users →
  Database.save_user user fs
  = (<[DATABASE_FILE := json_dump (with_user user data users)]> fs, Ok ()).
Proof.
  intros Hdata Husers. unfold Database.save_user.
  rewrite Hdata, Husers. by rewrite save_data_insert.
Qed.

(** [save_user] writes nothing, or writes through [save_data]. *)
Lemma save_user_writes (user : User.t) (fs : filesystem) :
  (Database.save_user user fs).1 = fs
  ∨ ∃ data, (Database.save_user user fs).1 = Database.save_data data fs.
Proof.
  unfold Database.save_user. repeat case_match; cbn; eauto.
Qed.

(** With a codec that reads back the document written, the file after a
    save holds that document, and the user saved is the user loaded. *)
Lemma load_data_saved (user : User.t) (fs : filesystem) (data users : gmap string pyval) :
  json_load (json_dump (with_user user data users)) = Some (with_user user data users) →
  Database.load_data (<[DATABASE_FILE := json_dump (with_user user data users)]> fs)
  = with_user user data users.
Proof.
  intros Hcodec. unfold Database.load_data. by rewrite lookup_insert_eq, Hcodec.
Qed.

Lemma saved_user_loads
    (user : User.t) (fs : filesystem) (data users : gmap string pyval) :
  Database.load_data fs = PDict data →
  get data "users" (PDict ∅) = PDict users →
  json_load (json_dump (with_user user data users)) = Some (with_user user data users) →
  Database.load_user (User.username user) (Database.save_user user fs).1 = Ok (Some user)
  ∧ Database.user_exists (User.username user) (Database.save_user user fs).1 = Ok true.
Proof.
  intros Hdata Husers Hcodec.
  rewrite (save_user_ok _ _ _ _ Hdata Husers). cbn [fst].
  unfold Database.load_user, Database.user_exists.
  rewrite (load_data_saved _ _ _ _ Hcodec). unfold with_user.
  rewrite !get_insert_eq. cbn [contains subscript]. unfold getitem.
  rewrite !lookup_insert_eq, !bool_decide_eq_true_2 by by eexists.
  cbn [mbind result_bind expect_dict default]. by rewrite user_round_trip.
Qed.

End database_facts.

(** C2 (as stated, refuted). The database file holds [[]]; a save of the
    empty document, whose text is [{}], fails after one character.  The
    file then holds [{], not its previous content: [open(DATABASE_FILE,
    'w')] has truncated it, and the write went into the file itself. *)
Lemma failed_save_loses_previous_content :
  let fs : filesystem := {[DATABASE_FILE := "[]"]} in
  let fs' := @Database.save_data_failing example_json 1 (PDict ∅) fs in
  @json_dump example_json (PDict ∅) = "{}"
  ∧ fs !! DATABASE_FILE = Some "[]"
  ∧ fs' !! DATABASE_FILE = Some "{"
  ∧ fs' !! DATABASE_FILE ≠ fs !! DATABASE_FILE.
Proof.
  intros fs fs'. subst fs fs'.
  rewrite save_data_failing_insert, lookup_insert_eq, lookup_singleton_eq.
  by repeat split.
Qed.

(** C2 (amended). [save_data] writes in place: it changes the database
    file and no other path, a save that completes leaves exactly the new
    text there, and a save that fails after [n] characters leaves exactly
    the first [n] characters of the new text, whatever the file held
    before.  [save_user] writes through [save_data] or not at all. *)
Theorem save_data_writes_in_place `{Json} (data : pyval) (fs : filesystem) (n : nat) :
  Database.save_data data fs = <[DATABASE_FILE := json_dump data]> fs
  ∧ Database.save_data_failing n data fs
    = <[DATABASE_FILE := String.substring 0 n (json_dump data)]> fs
  ∧ Database.save_data_failing n data fs !! DATABASE_FILE
    = Some (String.substring 0 n (json_dump data))
  ∧ ∀ user,
      (Database.save_user user fs).1 = fs
      ∨ ∃ document, (Database.save_user user fs).1 = Database.save_data document fs.
Proof.
  split; [apply save_data_insert|].
  split; [apply save_data_failing_insert|].
  split; [by rewrite save_data_failing_insert, lookup_insert_eq|].
  intros user. apply save_user_writes.
Qed.

(** * Service layer: what an operation does to the user in memory *)

Lemma io_bind_ok {A B : Type} (m : io A) (f : A → io B) fs fs' (b : B) :
  (m ≫= f) fs = (fs', Ok b) →
  ∃ a fs1, m fs = (fs1, Ok a) ∧ f a fs1 = (fs', Ok b).
Proof.
  unfold mbind, io_bind. destruct (m fs) as [fs1 [a|e]]; [eauto | discriminate].
Qed.

Lemma io_ret_ok {A : Type} (a b : A) fs fs' :
  mret (M := io) a fs = (fs', Ok b) → fs' = fs ∧ b = a.
Proof. unfold mret, io_ret. by intros [= -> ->]. Qed.

Lemma io_pure_ok {A : Type} (r : result A) (a : A) fs fs' :
  pure r fs = (fs', Ok a) → fs' = fs ∧ r = Ok a.
Proof. unfold pure. by intros [= -> ->]. Qed.

(** Splits a successful run of a sequence of [io] steps into its steps. *)
Ltac io_steps H :=
  repeat first
    [ apply io_ret_ok in H as [-> H]
    | let a := fresh "a" in let fs := fresh "fs" in let Hm := fresh "Hstep" in
      apply io_bind_ok in H as (a & fs & Hm & H) ].

Lemma set_medicines_same (user : User.t) :
  User.set_medicines (User.medicines user) user = user.
Proof. by destruct user. Qed.

Lemma set_completed_same (a : Appointment.t) :
  Appointment.completed a = true → Appointment.set_completed true a = a.
Proof. destruct a; cbn; by intros ->. Qed.

Section app_facts.
Context `{Clock} `{Json} `{Text}.
Import MediTrackApp.

Lemma add_medicine_effect name dosage frequency end_date stock user fs fs' user' out :
  add_medicine name dosage frequency end_date stock user fs = (fs', Ok (user', out)) →
  effect (AddMedicine name dosage frequency end_date stock) user user'.
Proof.
  unfold add_medicine. intros Hrun.
  case_bool_decide; [io_steps Hrun; injection Hrun as -> _; constructor|].
  case_bool_decide; [io_steps Hrun; injection Hrun as -> _; constructor|].
  io_steps Hrun. injection Hrun as -> _.
  by apply (effect_add_medicine _ _ _ _ _ _ (Medicine.init _ _ _ _ _ _)).
Qed.

Lemma add_appointment_effect title doctor date time location user fs fs' user' out :
  add_appointment title doctor date time location user fs = (fs', Ok (user', out)) →
  effect (AddAppointment title doctor date time location) user user'.
Proof.
  unfold add_appointment. intros Hrun.
  case_bool_decide; [io_steps Hrun; injection Hrun as -> _; constructor|].
  case_bool_decide; [io_steps Hrun; injection Hrun as -> _; constructor|].
  io_steps Hrun. injection Hrun as -> _.
  by apply (effect_add_appointment _ _ _ _ _ _ (Appointment.init _ _ _ _ _)).
Qed.

Lemma mark_medicine_taken_effect index user fs fs' user' out :
  mark_medicine_taken index user fs = (fs', Ok (user', out)) →
  effect (MarkMedicineTaken index) user user'.
Proof.
  unfold mark_medicine_taken. intros Hrun.
  case_bool_decide; [io_steps Hrun; injection Hrun as -> _; constructor|].
  destruct (int (strip index)) as [c|e];
    [|io_steps Hrun; injection Hrun as -> _; constructor].
  case_bool_decide; [|io_steps Hrun; injection Hrun as -> _; constructor].
  destruct (User.medicines user !! Z.to_nat (c - 1)) as [m|] eqn:Hm; [|done].
  destruct (decide (0 < Medicine.stock m)) as [Hs|Hs].
  - rewrite take_dose_in_stock in Hrun by done.
    io_steps Hrun. injection Hrun as -> _.
    pose proof (effect_take_dose index user _ m Hm Hs) as He.
    by rewrite take_dose_in_stock in He.
  - rewrite take_dose_no_stock in Hrun by lia.
    io_steps Hrun. injection Hrun as -> _.
    rewrite list_insert_id, set_medicines_same by done. constructor.
Qed.

Lemma mark_appointment_completed_effect index user fs fs' user' out :
  mark_appointment_completed index user fs = (fs', Ok (user', out)) →
  effect (MarkAppointmentCompleted index) user user'.
Proof.
  unfold mark_appointment_completed. intros Hrun.
  case_bool_decide; [io_steps Hrun; injection Hrun as -> _; constructor|].
  io_steps Hrun. revert Hrun.
  case_bool_decide; [intros Hrun; io_steps Hrun; injection Hrun as -> _; constructor|].
  destruct (int (strip index)) as [c|e];
    [|intros Hrun; io_steps Hrun; injection Hrun as -> _; constructor].
  case_bool_decide; [|intros Hrun; io_steps Hrun; injection Hrun as -> _; constructor].
  destruct (a !! Z.to_nat (c - 1)) as [[i appointment]|]; [|done].
  intros Hrun. io_steps Hrun. injection Hrun as -> _. constructor.
Qed.

Lemma change_password_effect current new_password confirm user fs fs' user' out :
  change_password current new_password confirm user fs = (fs', Ok (user', out)) →
  effect (ChangePassword current new_password confirm) user user'.
Proof.
  unfold change_password. intros Hrun.
  case_bool_decide; [io_steps Hrun; injection Hrun as -> _; constructor|].
  case_bool_decide; [io_steps Hrun; injection Hrun as -> _; constructor|].
  case_bool_decide; [io_steps Hrun; injection Hrun as -> _; constructor|].
  io_steps Hrun. injection Hrun as -> _. constructor.
Qed.

Lemma dispatch_effect c user fs fs' user' out :
  dispatch c user fs = (fs', Ok (user', out)) → effect c user user'.
Proof.
  destruct c; cbn [dispatch]; intros Hrun.
  - io_steps Hrun. injection Hrun as -> _. constructor.
  - io_steps Hrun. injection Hrun as -> _. constructor.
  - by eapply add_medicine_effect.
  - by eapply mark_medicine_taken_effect.
  - by eapply add_appointment_effect.
  - by eapply mark_appointment_completed_effect.
  - by eapply change_password_effect.
  - io_steps Hrun. injection Hrun as -> _. constructor.
Qed.

Lemma main_menu_cons c choices user fs fs' user' out :
  main_menu (c :: choices) user fs = (fs', Ok (user', out)) →
  ∃ user1 out1 fs1 out2,
    dispatch c user fs = (fs1, Ok (user1, out1))
    ∧ main_menu choices user1 fs1 = (fs', Ok (user', out2))
    ∧ out = out1 ++ out2.
Proof.
  cbn [main_menu]. intros Hrun.
  apply io_bind_ok in Hrun as ([user1 out1] & fs1 & Hc & Hrun).
  apply io_bind_ok in Hrun as ([user2 out2] & fs2 & Hrest & Hrun).
  apply io_ret_ok in Hrun as [-> [= -> ->]]. eauto 10.
Qed.

Lemma main_menu_effects choices user fs fs' user' out :
  main_menu choices user fs = (fs', Ok (user', out)) → effects choices user user'.
Proof.
  revert user fs out. induction choices as [|c choices IH]; intros user fs out Hrun.
  - apply io_ret_ok in Hrun as [-> [= -> ->]]. constructor.
  - apply main_menu_cons in Hrun as (user1 & out1 & fs1 & out2 & Hc & Hrest & ->).
    econstructor; [by eapply dispatch_effect | by eapply IH].
Qed.

End app_facts.
(** * Invariants of a session *)

Section effect_facts.

Lemma effect_appointments `{Text} c user user' i a :
  effect c user user' →
  User.appointments user !! i = Some a →
  Appointment.completed a = true →
  User.appointments user' !! i = Some a.
Proof.
  intros He Ha Hdone.
  destruct He as [| | | |index user j|]; cbn; try done.
  - by apply lookup_app_l_Some.
  - destruct (decide (j = i)) as [->|Hne].
    + by rewrite list_lookup_alter_eq, Ha; cbn; rewrite set_completed_same.
    + by rewrite list_lookup_alter_ne.
Qed.

Lemma effects_appointments `{Text} choices user user' i a :
  effects choices user user' →
  User.appointments user !! i = Some a →
  Appointment.completed a = true →
  User.appointments user' !! i = Some a.
Proof.
  induction 1 as [|c choices user user1 user2 He _ IH]; [done|].
  intros Ha Hdone. apply IH; [|done]. by eapply effect_appointments.
Qed.

(** One choice changes the medicine at a position by at most one dose
    taken, and only the dose-taking choice does. *)
Lemma effect_medicine `{Text} c user user' i m :
  effect c user user' →
  User.medicines user !! i = Some m →
  User.medicines user' !! i = Some m
  ∨ (∃ index, c = MediTrackApp.MarkMedicineTaken index)
    ∧ 0 < Medicine.stock m
    ∧ User.medicines user' !! i = Some (Medicine.take_dose m).1.
Proof.
  intros He Hm.
  destruct He as [| | |index user j m' Hm' Hs| |]; cbn; try by left.
  - left. by apply lookup_app_l_Some.
  - destruct (decide (j = i)) as [->|Hne].
    + right. assert (m' = m) as -> by congruence.
      split; [by eexists|]. split; [done|].
      apply list_lookup_insert_eq. by eapply lookup_lt_Some.
    + left. by rewrite list_lookup_insert_ne.
Qed.

Lemma effect_new_medicine `{Text} c user user' i m' :
  effect c user user' →
  User.medicines user' !! i = Some m' →
  (length (User.medicines user) ≤ i)%nat →
  (∃ name dosage frequency end_date stock,
     c = MediTrackApp.AddMedicine name dosage frequency end_date stock
     ∧ Medicine.stock m' = initial_stock stock)
  ∧ Medicine.taken_today m' = 0
  ∧ Medicine.missed_today m' = 0.
Proof.
  intros He Hm' Hi.
  destruct He as [|name dosage frequency end_date stock user m Hstock Ht Hmiss
                  | |index user j m Hm Hs| |];
    cbn in Hm';
    try (apply lookup_lt_Some in Hm'; lia).
  - apply lookup_app_Some in Hm' as [Hm'|[_ Hm']];
      [apply lookup_lt_Some in Hm'; lia|].
    apply list_lookup_singleton_Some in Hm' as [_ <-]. eauto 10.
  - apply lookup_lt_Some in Hm'. rewrite length_insert in Hm'. lia.
Qed.

Lemma take_dose_stock m :
  0 < Medicine.stock m →
  Medicine.stock (Medicine.take_dose m).1 = Medicine.stock m - 1
  ∧ Medicine.missed_today (Medicine.take_dose m).1 = Medicine.missed_today m.
Proof. intros Hs. by rewrite take_dose_in_stock. Qed.

End effect_facts.
Lemma result_bind_ok {A B : Type} (m : result A) (f : A → result B) (b : B) :
  m ≫= f = Ok b → ∃ a, m = Ok a ∧ f a = Ok b.
Proof. destruct m as [a|e]; [eauto | discriminate]. Qed.

(** Splits a successful run of a sequence of steps that may raise. *)
Ltac result_steps H :=
  repeat
    (let a := fresh "a" in let Hm := fresh "Hstep" in
     apply result_bind_ok in H as (a & Hm & H)).

Lemma appointment_from_dict_completed (data : gmap string pyval) (a : Appointment.t) :
  Appointment.from_dict data = Ok a →
  get data "completed" (PBool false) = PBool (Appointment.completed a).
Proof.
  unfold Appointment.from_dict. intros Hread. result_steps Hread.
  injection Hread as <-. cbn.
  by destruct (get data "completed" (PBool false)); simplify_eq/=.
Qed.

Lemma medicine_from_dict_missed_today (data : gmap string pyval) (m : Medicine.t) :
  Medicine.from_dict data = Ok m →
  get data "missed_today" (PInt 0) = PInt (Medicine.missed_today m).
Proof.
  unfold Medicine.from_dict. intros Hread. result_steps Hread.
  injection Hread as <-. cbn.
  by destruct (get data "missed_today" (PInt 0)); simplify_eq/=.
Qed.

(** C5. An appointment that is completed stays completed, and unchanged,
    through every sequence of menu choices (taking doses, adding medicines
    and appointments, completing appointments, changing the password,
    notifications, summary, emergency view); the flag is written to the
    record as it is and read back as it was written, [False] standing in
    only for a record without the key. *)
Theorem completed_never_reset `{Clock} `{Json} `{Text} :
  (∀ choices user fs fs' user' out i a,
     MediTrackApp.main_menu choices user fs = (fs', Ok (user', out)) →
     User.appointments user !! i = Some a →
     Appointment.completed a = true →
     User.appointments user' !! i = Some a)
  ∧ (∀ a, Appointment.to_dict a !! "completed" = Some (PBool (Appointment.completed a)))
  ∧ (∀ data a,
       Appointment.from_dict data = Ok a →
       get data "completed" (PBool false) = PBool (Appointment.completed a)).
Proof.
  split; [|split].
  - intros choices user fs fs' user' out i a Hrun.
    apply effects_appointments with choices. by eapply main_menu_effects.
  - done.
  - exact appointment_from_dict_completed.
Qed.

Section stock_facts.

Lemma effect_stock `{Text} c user user' i m :
  effect c user user' →
  User.medicines user !! i = Some m →
  ∃ m', User.medicines user' !! i = Some m'
        ∧ Medicine.stock m' ≤ Medicine.stock m
        ∧ (0 ≤ Medicine.stock m → 0 ≤ Medicine.stock m')
        ∧ Medicine.missed_today m' = Medicine.missed_today m.
Proof.
  intros He Hm.
  destruct (effect_medicine _ _ _ _ _ He Hm) as [Hsame|(_ & Hs & Hdose)].
  - exists m. repeat split; [done|lia|done].
  - exists (Medicine.take_dose m).1.
    destruct (take_dose_stock m Hs) as [-> ->]. repeat split; [done|lia|lia].
Qed.

Lemma effects_stock `{Text} choices user user' i m :
  effects choices user user' →
  User.medicines user !! i = Some m →
  ∃ m', User.medicines user' !! i = Some m'
        ∧ Medicine.stock m' ≤ Medicine.stock m
        ∧ (0 ≤ Medicine.stock m → 0 ≤ Medicine.stock m')
        ∧ Medicine.missed_today m' = Medicine.missed_today m.
Proof.
  intros He. revert m.
  induction He as [|c choices user user1 user2 He _ IH]; intros m Hm.
  - exists m. repeat split; [done|lia|done].
  - destruct (effect_stock _ _ _ _ _ He Hm) as (m1 & Hm1 & Hle1 & Hpos1 & Hmiss1).
    destruct (IH _ Hm1) as (m2 & Hm2 & Hle2 & Hpos2 & Hmiss2).
    exists m2. repeat split; [done|lia|auto|congruence].
Qed.

Lemma effect_stock_nonneg `{Text} c user user' :
  effect c user user' →
  stock_line_ok c →
  Forall (λ m, 0 ≤ Medicine.stock m) (User.medicines user) →
  Forall (λ m, 0 ≤ Medicine.stock m) (User.medicines user').
Proof.
  intros He Hc Hall. apply Forall_lookup_2. intros i m' Hm'.
  destruct (decide (i < length (User.medicines user))%nat) as [Hi|Hi].
  - apply lookup_lt_is_Some_2 in Hi as [m Hm].
    destruct (effect_stock _ _ _ _ _ He Hm) as (m1 & Hm1 & _ & Hpos & _).
    assert (m1 = m') as -> by congruence.
    apply Hpos. by eapply (Forall_lookup_1 _ _ _ _ Hall).
  - destruct (effect_new_medicine _ _ _ _ _ He Hm') as [(? & ? & ? & ? & stock & -> & ->) _];
      [lia|]. exact Hc.
Qed.

Lemma effects_stock_nonneg `{Text} choices user user' :
  effects choices user user' →
  Forall stock_line_ok choices →
  Forall (λ m, 0 ≤ Medicine.stock m) (User.medicines user) →
  Forall (λ m, 0 ≤ Medicine.stock m) (User.medicines user').
Proof.
  induction 1 as [|c choices user user1 user2 He _ IH]; [done|].
  intros [Hc Hchoices]%Forall_cons_1 Hall.
  apply IH; [done|]. by eapply effect_stock_nonneg.
Qed.

End stock_facts.

(** C3 (as stated, refuted). Adding a medicine with the stock line [-5]
    creates a medicine with stock [-5]. *)
Lemma add_medicine_accepts_negative_stock :
  let run :=
    @MediTrackApp.main_menu example_clock example_json example_text
      [MediTrackApp.AddMedicine "Aspirin" "100mg" "2" "" "-5"] alice ∅ in
  run = (run.1,
         Ok (User.set_medicines [aspirin (-5)] alice,
             [MedicineAdded "Aspirin" "100mg" "Twice daily" (-5)]))
  ∧ Forall (λ m, 0 ≤ Medicine.stock m) (User.medicines alice)
  ∧ ¬ Forall (λ m, 0 ≤ Medicine.stock m)
        (User.medicines (User.set_medicines [aspirin (-5)] alice)).
Proof.
  intros run. split; [vm_compute; reflexivity|].
  split; [constructor|].
  intros Hall. apply Forall_cons_1 in Hall as [Hneg _]. cbn in Hneg. lia.
Qed.

(** What [add_medicine] reads from its stock line: the number [int]
    reads from the stripped line, whatever its sign, and 30 when the line
    is empty or [int] rejects it. *)
Lemma initial_stock_cases `{Text} (stock : string) :
  (strip stock = "" → int "30" = Ok 30 → initial_stock stock = 30)
  ∧ (∀ e, int (str_or (strip stock) "30") = Raise e → initial_stock stock = 30)
  ∧ (∀ n, strip stock ≠ "" → int (strip stock) = Ok n → initial_stock stock = n).
Proof.
  unfold initial_stock, str_or. split; [|split].
  - intros -> Hthirty. rewrite bool_decide_eq_true_2 by done. by rewrite Hthirty.
  - intros e He. by rewrite He.
  - intros n Hsome Hn. by rewrite bool_decide_eq_false_2, Hn.
Qed.

(** C3 (amended). Through every sequence of menu choices the stock of a
    medicine never grows and never passes from non-negative to negative;
    one choice changes it only by a dose taken from a medicine that has
    stock, which lowers it by 1; a medicine that appears was added by
    [add_medicine] with the stock its stock line reads as: the number
    [int] reads from the stripped line, whatever its sign, and 30 when
    the line is empty or [int] rejects it.  So when no stock line reads
    as a negative number, medicines whose stocks are all non-negative
    stay so. *)
Theorem stock_never_negative `{Clock} `{Json} `{Text} :
  (∀ c user fs fs' user' out i m,
     MediTrackApp.dispatch c user fs = (fs', Ok (user', out)) →
     User.medicines user !! i = Some m →
     User.medicines user' !! i = Some m
     ∨ (∃ index, c = MediTrackApp.MarkMedicineTaken index)
       ∧ 0 < Medicine.stock m
       ∧ ∃ m', User.medicines user' !! i = Some m'
               ∧ Medicine.stock m' = Medicine.stock m - 1)
  ∧ (∀ c user fs fs' user' out i m',
       MediTrackApp.dispatch c user fs = (fs', Ok (user', out)) →
       User.medicines user' !! i = Some m' →
       (length (User.medicines user) ≤ i)%nat →
       ∃ name dosage frequency end_date stock,
         c = MediTrackApp.AddMedicine name dosage frequency end_date stock
         ∧ Medicine.stock m' = initial_stock stock)
  ∧ (∀ choices user fs fs' user' out,
       MediTrackApp.main_menu choices user fs = (fs', Ok (user', out)) →
       (∀ i m,
          User.medicines user !! i = Some m →
          ∃ m', User.medicines user' !! i = Some m'
                ∧ Medicine.stock m' ≤ Medicine.stock m
                ∧ (0 ≤ Medicine.stock m → 0 ≤ Medicine.stock m'))
       ∧ (Forall stock_line_ok choices →
          Forall (λ m, 0 ≤ Medicine.stock m) (User.medicines user) →
          Forall (λ m, 0 ≤ Medicine.stock m) (User.medicines user')))
  ∧ (∀ stock,
       (strip stock = "" → int "30" = Ok 30 → initial_stock stock = 30)
       ∧ (∀ e, int (str_or (strip stock) "30") = Raise e → initial_stock stock = 30)
       ∧ (∀ n, strip stock ≠ "" → int (strip stock) = Ok n → initial_stock stock = n)).
Proof.
  split; [|split; [|split; [|exact initial_stock_cases]]].
  - intros c user fs fs' user' out i m Hrun Hm.
    apply dispatch_effect in Hrun.
    destruct (effect_medicine _ _ _ _ _ Hrun Hm) as [Hsame|(Hc & Hs & Hdose)];
      [by left|right].
    split; [done|]. split; [done|].
    eexists. split; [done|]. by apply take_dose_stock.
  - intros c user fs fs' user' out i m' Hrun Hm' Hi.
    apply dispatch_effect in Hrun.
    by destruct (effect_new_medicine _ _ _ _ _ Hrun Hm' Hi) as [Hc _].
  - intros choices user fs fs' user' out Hrun.
    apply main_menu_effects in Hrun. split.
    + intros i m Hm.
      destruct (effects_stock _ _ _ _ _ Hrun Hm) as (m' & ? & ? & ? & _). eauto.
    + by apply effects_stock_nonneg.
Qed.

(** * Service layer: what the operations print *)

Lemma sum_from (a : Z) (l : list Z) : foldl Z.add a l = a + sum l.
Proof.
  unfold sum. revert a. induction l as [|x l IH]; intros a; cbn [foldl]; [lia|].
  rewrite (IH (a + x)), (IH (0 + x)). lia.
Qed.

Lemma sum_cons (x : Z) (l : list Z) : sum (x :: l) = x + sum l.
Proof. unfold sum at 1. cbn. apply sum_from. Qed.


Lemma sum_zero {A : Type} (f : A → Z) (l : list A) :
  Forall (λ x, f x = 0) l → sum (f <$> l) = 0.
Proof.
  induction 1 as [|x l Hx _ IH]; [done|].
  rewrite fmap_cons, sum_cons. lia.
Qed.

Lemma select_total {A : Type} (p : A → result bool) (l : list A) :
  Forall (λ x, ∃ b, p x = Ok b) l → ∃ xs, select p l = Ok xs.
Proof.
  induction 1 as [|x l [b Hb] _ [xs IH]]; [by eexists|].
  cbn. rewrite Hb, IH. cbn. by eexists.
Qed.

Lemma rates_no_rate (out : list line) : Forall no_rate out → rates out = [].
Proof.
  induction 1 as [|l out Hl _ IH]; [done|].
  unfold rates in *. cbn. rewrite IH. by destruct l.
Qed.

Lemma rates_app (out1 out2 : list line) : rates (out1 ++ out2) = rates out1 ++ rates out2.
Proof. apply omap_app. Qed.

Lemma adherence_all_taken (taken : Z) : taken ≠ 0 → (MediTrackApp.adherence taken taken == 100)%Q.
Proof.
  intros Ht. unfold MediTrackApp.adherence, Qdiv.
  rewrite Qmult_inv_r; [apply Qmult_1_l|].
  intros Hq. apply Ht. by apply (eq_trans (eq_sym (Z.mul_1_r _))) in Hq.
Qed.


Section output_facts.
Context `{Clock}.
Import MediTrackApp.

Lemma days_until_parsed (a : Appointment.t) :
  is_Some (strptime (Appointment.date a)) → ∃ days, Appointment.days_until a = Ok days.
Proof. intros [d Hd]. unfold Appointment.days_until. rewrite Hd. by eexists. Qed.

Lemma is_upcoming_parsed (a : Appointment.t) :
  is_Some (strptime (Appointment.date a)) → ∃ b, is_upcoming a = Ok b.
Proof.
  intros [days Hd]%days_until_parsed. unfold is_upcoming. rewrite Hd. by eexists.
Qed.

Lemma view_weekly_summary_rates (user : User.t) (out : list line) :
  view_weekly_summary user = Ok out →
  let taken := sum (Medicine.taken_today <$> User.medicines user) in
  let missed := sum (Medicine.missed_today <$> User.medicines user) in
  rates out =
    if bool_decide (0 < length (User.medicines user))%nat
       && bool_decide (0 < taken + missed)
    then [adherence taken (taken + missed)] else [].
Proof.
  unfold view_weekly_summary. intros Hrun. result_steps Hrun.
  injection Hrun as <-. cbn zeta.
  match goal with
  | |- rates (_ :: _ :: _ :: _ :: ?rest) = ?rhs => change (rates rest = rhs)
  end.
  rewrite rates_app.
  replace (rates (if bool_decide (0 < _)%nat then [LowStockMedicines _] else []))
    with (@nil Q) by (by case_bool_decide).
  rewrite app_nil_l.
  by repeat case_bool_decide.
Qed.


End output_facts.

Section notification_facts.
Context `{Clock}.
Import MediTrackApp.

Lemma notify_appointment_notes (notifications : list line) (a : Appointment.t) (days : Z) :
  Appointment.days_until a = Ok days →
  notify_appointment notifications a = Ok (notifications ++ appointment_notes days a).
Proof.
  intros Hdays. unfold notify_appointment, appointment_notes. rewrite Hdays. cbn.
  destruct (Appointment.completed a); cbn;
    rewrite ?andb_false_r, ?andb_true_r, ?app_nil_r; [done|].
  repeat case_bool_decide; by rewrite ?app_nil_r.
Qed.

Lemma for_loop_notify_appointment (appointments : list Appointment.t) (notifications : list line) :
  Forall (λ a, is_Some (strptime (Appointment.date a))) appointments →
  for_loop notify_appointment appointments notifications
  = Ok (notifications ++ (appointments ≫= notes_of)).
Proof.
  intros Hdates. revert notifications.
  induction Hdates as [|a appointments Ha _ IH]; intros notifications; cbn.
  - by rewrite app_nil_r.
  - destruct (days_until_parsed a Ha) as [days Hdays].
    rewrite (notify_appointment_notes _ _ _ Hdays). cbn.
    rewrite IH. unfold notes_of at 2. rewrite Hdays. by rewrite app_assoc.
Qed.

Lemma notify_medicine_notes (notifications : list line) (m : Medicine.t) :
  notify_medicine notifications m = Ok (notifications ++ low_stock_notes [m]).
Proof.
  unfold notify_medicine, low_stock_notes. rewrite filter_cons, filter_nil.
  case_bool_decide.
  - by rewrite decide_True.
  - by rewrite decide_False, app_nil_r.
Qed.

Lemma low_stock_notes_cons (m : Medicine.t) (medicines : list Medicine.t) :
  low_stock_notes (m :: medicines) = low_stock_notes [m] ++ low_stock_notes medicines.
Proof.
  unfold low_stock_notes. rewrite !filter_cons, filter_nil.
  by destruct (decide (Medicine.stock m ≤ 5)).
Qed.

Lemma for_loop_notify_medicine (medicines : list Medicine.t) (notifications : list line) :
  for_loop notify_medicine medicines notifications
  = Ok (notifications ++ low_stock_notes medicines).
Proof.
  revert notifications.
  induction medicines as [|m medicines IH]; intros notifications; cbn [for_loop].
  - by rewrite app_nil_r.
  - rewrite notify_medicine_notes. cbn [mbind result_bind].
    rewrite IH, <- app_assoc. by rewrite (low_stock_notes_cons m medicines).
Qed.

Lemma check_notifications_notes (user : User.t) :
  Forall (λ a, is_Some (strptime (Appointment.date a))) (User.appointments user) →
  check_notifications (Some user)
  = Ok ((User.appointments user ≫= notes_of) ++ low_stock_notes (User.medicines user)).
Proof.
  intros Hdates. unfold check_notifications.
  rewrite for_loop_notify_appointment by done. cbn.
  by rewrite for_loop_notify_medicine.
Qed.

(** A notification about an appointment comes from an appointment of the
    list that is not completed and is due today or in 1 to 3 days. *)
Lemma notes_of_incomplete (appointments : list Appointment.t) (note : line) :
  note ∈ appointments ≫= notes_of →
  ∃ a days,
    a ∈ appointments
    ∧ Appointment.completed a = false
    ∧ Appointment.days_until a = Ok days
    ∧ (days = 0 ∧ note = NoteToday (Appointment.title a) (Appointment.doctor a)
       ∨ 1 ≤ days ≤ 3
         ∧ note = NoteUpcoming (Appointment.title a) (Appointment.doctor a) days).
Proof.
  intros (a & Hnote & Ha)%list_elem_of_bind.
  unfold notes_of, appointment_notes in Hnote.
  destruct (Appointment.days_until a) as [days|e] eqn:Hdays;
    [|by apply elem_of_nil in Hnote].
  exists a, days.
  destruct (Appointment.completed a) eqn:Hdone; [by apply elem_of_nil in Hnote|].
  repeat case_bool_decide;
    try (by apply elem_of_nil in Hnote);
    apply list_elem_of_singleton in Hnote as ->; eauto 10.
Qed.

End notification_facts.

(** C9. For a user whose appointment dates parse and for every reference
    date, [check_notifications] prints the appointment notifications
    first, in list order, then the low-stock notifications of the
    medicines with [stock <= 5], in list order.  The appointment
    notifications are those of the specification; each of them comes from
    an appointment of the user that is not completed, "today" from one
    with [days_until = 0] and "upcoming" from one with
    [1 <= days_until <= 3], so a completed appointment is never
    notified. *)
Theorem check_notifications_spec `{Clock} (user : User.t) :
  Forall (λ a, is_Some (strptime (Appointment.date a))) (User.appointments user) →
  ∃ appointment_part medicine_part,
    MediTrackApp.check_notifications (Some user) = Ok (appointment_part ++ medicine_part)
    ∧ appointment_part = (User.appointments user ≫= notes_of)
    ∧ medicine_part = low_stock_notes (User.medicines user)
    ∧ Forall (λ note,
        ∃ a days,
          a ∈ User.appointments user
          ∧ Appointment.completed a = false
          ∧ Appointment.days_until a = Ok days
          ∧ (days = 0
             ∧ note = NoteToday (Appointment.title a) (Appointment.doctor a)
             ∨ 1 ≤ days ≤ 3
               ∧ note = NoteUpcoming (Appointment.title a) (Appointment.doctor a) days))
        appointment_part
    ∧ Forall (λ note, ∃ name stock, note = NoteLowStock name stock ∧ stock ≤ 5)
        medicine_part.
Proof.
  intros Hdates. eexists _, _.
  split; [by apply check_notifications_notes|].
  split; [done|]. split; [done|]. split.
  - apply Forall_forall. intros note. apply notes_of_incomplete.
  - unfold low_stock_notes. apply Forall_fmap, Forall_forall.
    intros m [Hlow _]%list_elem_of_filter. cbn. eauto.
Qed.

(** Closes the case of an operation that returns after printing its lines. *)
Ltac one_line run := io_steps run; injection run as _ ->; by repeat constructor.

Section rate_facts.
Context `{Clock} `{Json} `{Text}.
Import MediTrackApp.

Lemma for_loop_notify_appointment_no_rate appointments notifications out :
  for_loop notify_appointment appointments notifications = Ok out →
  Forall no_rate notifications → Forall no_rate out.
Proof.
  revert notifications.
  induction appointments as [|a appointments IH]; intros notifications; cbn [for_loop].
  - by intros [= ->].
  - intros Hrun Hacc. apply result_bind_ok in Hrun as (acc & Ha & Hrun).
    apply (IH _ Hrun). unfold notify_appointment in Ha.
    apply result_bind_ok in Ha as (days & _ & Ha).
    repeat case_match; injection Ha as <-; try done;
      apply Forall_app; split; by repeat constructor.
Qed.

Lemma check_notifications_no_rate user out :
  check_notifications (Some user) = Ok out → Forall no_rate out.
Proof.
  unfold check_notifications. intros Hrun.
  apply result_bind_ok in Hrun as (notes & Hnotes & Hrun).
  rewrite for_loop_notify_medicine in Hrun. injection Hrun as <-.
  apply Forall_app. split.
  - by eapply for_loop_notify_appointment_no_rate.
  - unfold low_stock_notes. apply Forall_fmap, Forall_forall. by intros m _.
Qed.

Lemma emergency_mode_no_rate user out :
  emergency_mode user = Ok out → Forall no_rate out.
Proof.
  unfold emergency_mode. intros Hrun.
  apply result_bind_ok in Hrun as (urgent & _ & Hrun). injection Hrun as <-.
  apply Forall_cons. split; [done|].
  repeat (apply Forall_app; split).
  - case_bool_decide; by repeat constructor.
  - apply Forall_fmap, Forall_forall. by intros m _.
  - apply Forall_fmap, Forall_forall. by intros a _.
Qed.

Lemma add_medicine_no_rate name dosage frequency end_date stock user fs fs' user' out :
  add_medicine name dosage frequency end_date stock user fs = (fs', Ok (user', out)) →
  Forall no_rate out.
Proof.
  unfold add_medicine. intros Hrun.
  do 2 (case_bool_decide; [one_line Hrun|]). one_line Hrun.
Qed.

Lemma add_appointment_no_rate title doctor date time location user fs fs' user' out :
  add_appointment title doctor date time location user fs = (fs', Ok (user', out)) →
  Forall no_rate out.
Proof.
  unfold add_appointment. intros Hrun.
  do 2 (case_bool_decide; [one_line Hrun|]). one_line Hrun.
Qed.

Lemma mark_medicine_taken_no_rate index user fs fs' user' out :
  mark_medicine_taken index user fs = (fs', Ok (user', out)) →
  Forall no_rate out.
Proof.
  unfold mark_medicine_taken. intros Hrun.
  case_bool_decide; [one_line Hrun|].
  destruct (int (strip index)) as [c|e]; [|one_line Hrun].
  case_bool_decide; [|one_line Hrun].
  destruct (User.medicines user !! Z.to_nat (c - 1)) as [m|]; [|done].
  destruct (Medicine.take_dose m) as [m' [|]]; [|one_line Hrun].
  io_steps Hrun. injection Hrun as _ ->.
  case_bool_decide; by repeat constructor.
Qed.

Lemma mark_appointment_completed_no_rate index user fs fs' user' out :
  mark_appointment_completed index user fs = (fs', Ok (user', out)) →
  Forall no_rate out.
Proof.
  unfold mark_appointment_completed. intros Hrun.
  case_bool_decide; [one_line Hrun|].
  apply io_bind_ok in Hrun as (upcoming & fs1 & _ & Hrun).
  case_bool_decide; [one_line Hrun|].
  destruct (int (strip index)) as [c|e]; [|one_line Hrun].
  case_bool_decide; [|one_line Hrun].
  destruct (upcoming !! Z.to_nat (c - 1)) as [[i appointment]|]; [|done].
  one_line Hrun.
Qed.

Lemma change_password_no_rate current new_password confirm user fs fs' user' out :
  change_password current new_password confirm user fs = (fs', Ok (user', out)) →
  Forall no_rate out.
Proof.
  unfold change_password. intros Hrun.
  do 3 (case_bool_decide; [one_line Hrun|]). one_line Hrun.
Qed.

Lemma view_weekly_summary_all_taken user out :
  view_weekly_summary user = Ok out →
  Forall (λ m, Medicine.missed_today m = 0) (User.medicines user) →
  Forall (λ rate, (rate == 100)%Q) (rates out).
Proof.
  intros Hrun Hmissed. rewrite (view_weekly_summary_rates _ _ Hrun).
  rewrite (sum_zero Medicine.missed_today) by done. rewrite Z.add_0_r.
  repeat case_bool_decide; cbn; repeat constructor.
  apply adherence_all_taken. lia.
Qed.

Lemma dispatch_rates c user fs fs' user' out :
  dispatch c user fs = (fs', Ok (user', out)) →
  Forall (λ m, Medicine.missed_today m = 0) (User.medicines user) →
  Forall (λ rate, (rate == 100)%Q) (rates out).
Proof.
  intros Hrun Hmissed.
  destruct c; cbn [dispatch] in Hrun;
    [ apply io_bind_ok in Hrun as (lines & fs1 & [-> Hlines]%io_pure_ok & Hrun);
      apply io_ret_ok in Hrun as [-> [= _ ->]];
      by apply (view_weekly_summary_all_taken user)
    | rewrite rates_no_rate; [by constructor|] .. ].
  - apply io_bind_ok in Hrun as (lines & fs1 & [-> Hlines]%io_pure_ok & Hrun).
    apply io_ret_ok in Hrun as [-> [= _ ->]].
    by apply (check_notifications_no_rate user).
  - by eapply add_medicine_no_rate.
  - by eapply mark_medicine_taken_no_rate.
  - by eapply add_appointment_no_rate.
  - by eapply mark_appointment_completed_no_rate.
  - by eapply change_password_no_rate.
  - apply io_bind_ok in Hrun as (lines & fs1 & [-> Hlines]%io_pure_ok & Hrun).
    apply io_ret_ok in Hrun as [-> [= _ ->]].
    by apply (emergency_mode_no_rate user).
Qed.

End rate_facts.

Section missed_facts.

Lemma effect_missed_zero `{Text} c user user' :
  effect c user user' →
  Forall (λ m, Medicine.missed_today m = 0) (User.medicines user) →
  Forall (λ m, Medicine.missed_today m = 0) (User.medicines user').
Proof.
  intros He Hall. apply Forall_lookup_2. intros i m' Hm'.
  destruct (decide (i < length (User.medicines user))%nat) as [Hi|Hi].
  - apply lookup_lt_is_Some_2 in Hi as [m Hm].
    destruct (effect_stock _ _ _ _ _ He Hm) as (m1 & Hm1 & _ & _ & Hmiss).
    assert (m1 = m') as -> by congruence.
    rewrite Hmiss. by eapply (Forall_lookup_1 _ _ _ _ Hall).
  - by destruct (effect_new_medicine _ _ _ _ _ He Hm') as (_ & _ & ?); [lia|].
Qed.

Lemma effects_new_medicine `{Text} choices user user' i m' :
  effects choices user user' →
  User.medicines user' !! i = Some m' →
  (length (User.medicines user) ≤ i)%nat →
  Medicine.missed_today m' = 0.
Proof.
  induction 1 as [user|c choices user user1 user2 He Hrest IH]; intros Hm' Hi.
  - apply lookup_lt_Some in Hm'. lia.
  - destruct (decide (i < length (User.medicines user1))%nat) as [Hi1|Hi1].
    + apply lookup_lt_is_Some_2 in Hi1 as [m1 Hm1].
      destruct (effect_new_medicine _ _ _ _ _ He Hm1 Hi) as (_ & _ & Hzero).
      destruct (effects_stock _ _ _ _ _ Hrest Hm1) as (m2 & Hm2 & _ & _ & Hmiss).
      assert (m2 = m') as -> by congruence. congruence.
    + apply IH; [done|lia].
Qed.

End missed_facts.

(** C10. Nothing increments [missed_today].  Through every sequence of
    menu choices a medicine keeps the [missed_today] it had, and a
    medicine added on the way has [missed_today = 0]; the constructor sets
    it to 0, [take_dose] leaves it alone and [from_dict] takes it from the
    record (0 when the record has none).  So for a user whose medicines
    all have [missed_today = 0], as every medicine created in the
    application has, every adherence rate the session prints is 100. *)
Theorem missed_today_never_incremented `{Clock} `{Json} `{Text} :
  (∀ choices user fs fs' user' out,
     MediTrackApp.main_menu choices user fs = (fs', Ok (user', out)) →
     (∀ i m,
        User.medicines user !! i = Some m →
        ∃ m', User.medicines user' !! i = Some m'
              ∧ Medicine.missed_today m' = Medicine.missed_today m)
     ∧ (∀ i m',
          User.medicines user' !! i = Some m' →
          (length (User.medicines user) ≤ i)%nat →
          Medicine.missed_today m' = 0)
     ∧ (Forall (λ m, Medicine.missed_today m = 0) (User.medicines user) →
        Forall (λ rate, (rate == 100)%Q) (rates out)))
  ∧ (∀ name dosage frequency start_date end_date stock,
       Medicine.missed_today
         (Medicine.init name dosage frequency start_date end_date stock) = 0)
  ∧ (∀ m, Medicine.missed_today (Medicine.take_dose m).1 = Medicine.missed_today m)
  ∧ (∀ data m,
       Medicine.from_dict data = Ok m →
       get data "missed_today" (PInt 0) = PInt (Medicine.missed_today m)).
Proof.
  split; [|split; [done|split]].
  - intros choices user fs fs' user' out Hrun. split; [|split].
    + intros i m Hm. apply main_menu_effects in Hrun.
      destruct (effects_stock _ _ _ _ _ Hrun Hm) as (m' & ? & _ & _ & ?). eauto.
    + intros i m' Hm' Hi. apply main_menu_effects in Hrun.
      by eapply effects_new_medicine.
    + revert user fs out Hrun.
      induction choices as [|c choices IH]; intros user fs out Hrun Hmissed.
      * apply io_ret_ok in Hrun as [-> [= _ ->]]. constructor.
      * apply main_menu_cons in Hrun as (user1 & out1 & fs1 & out2 & Hc & Hrest & ->).
        rewrite rates_app. apply Forall_app. split.
        -- by eapply dispatch_rates.
        -- eapply IH; [done|].
           eapply effect_missed_zero; [by eapply dispatch_effect|done].
  - intros m. unfold Medicine.take_dose. by case_bool_decide.
  - exact medicine_from_dict_missed_today.
Qed.

(** * Service layer: selecting by position *)

(** The references a filtering comprehension keeps: their objects are the
    filtered list, and the reference at position [n] points to the object
    of the source list that has exactly [n] kept objects before it. *)
Lemma select_refs {A : Type} (p : A → result bool) (P : A → Prop)
    `{!∀ a, Decision (P a)} (l : list A) :
  (∀ a b, p a = Ok b → (b = true ↔ P a)) →
  ∀ (k : nat) (refs : list (nat * A)),
    select (λ ref, p ref.2) (imap (λ j a, ((k + j)%nat, a)) l) = Ok refs →
    refs.*2 = filter P l
    ∧ ∀ n i a,
        refs !! n = Some (i, a) →
        ∃ j, i = (k + j)%nat
             ∧ l !! j = Some a
             ∧ length (filter P (take j l)) = n.
Proof.
  intros Hp. induction l as [|x l IH]; intros k refs Hsel.
  - injection Hsel as <-. split; [done|]. by intros n i a.
  - rewrite imap_cons in Hsel.
    rewrite (imap_ext _ (λ j a, ((S k + j)%nat, a))) in Hsel
      by (intros; cbn; f_equal; lia).
    cbn [select] in Hsel.
    apply result_bind_ok in Hsel as (keep & Hkeep & Hsel).
    apply result_bind_ok in Hsel as (xs & Hxs & Hsel).
    injection Hsel as <-. cbn in Hkeep.
    destruct (IH _ _ Hxs) as [Hobjects Hposition].
    rewrite filter_cons.
    destruct keep.
    + rewrite decide_True by by apply (Hp x true).
      split; [cbn; by rewrite Hobjects|].
      intros [|n] i a Hn.
      * injection Hn as <- <-. exists 0%nat. by rewrite Nat.add_0_r.
      * destruct (Hposition _ _ _ Hn) as (j & -> & Hj & Hcount).
        exists (S j). split; [lia|]. split; [done|].
        cbn [take]. rewrite filter_cons, decide_True by by apply (Hp x true).
        cbn. by rewrite Hcount.
    + assert (¬ P x) as Hx by (intros Hx; by apply (Hp x false) in Hx).
      rewrite decide_False by done.
      split; [done|].
      intros n i a Hn.
      destruct (Hposition _ _ _ Hn) as (j & -> & Hj & Hcount).
      exists (S j). split; [lia|]. split; [done|].
      cbn [take]. by rewrite filter_cons, decide_False.
Qed.

Lemma select_refs_total {A : Type} (p : A → result bool) (l : list A) :
  Forall (λ a, ∃ b, p a = Ok b) l →
  ∃ refs, select (λ ref, p ref.2) (imap pair l) = Ok refs.
Proof.
  intros Hall. apply select_total, Forall_lookup_2.
  intros i [j a] Href. rewrite list_lookup_imap in Href.
  destruct (l !! i) as [x|] eqn:Hx; [|done]. injection Href as <- <-.
  by apply (Forall_lookup_1 _ _ _ _ Hall Hx).
Qed.

Section completion_facts.
Context `{Clock} `{Json} `{Text}.
Import MediTrackApp.

Lemma is_upcoming_incomplete (a : Appointment.t) (b : bool) :
  is_upcoming a = Ok b → (b = true ↔ upcoming_incomplete a).
Proof.
  unfold is_upcoming, upcoming_incomplete. intros Hb.
  apply result_bind_ok in Hb as (days & Hdays & [= <-]).
  rewrite andb_true_iff, bool_decide_eq_true, negb_true_iff. split.
  - intros [? ?]. by exists days.
  - intros (days' & Hdays' & ? & ?). by assert (days' = days) as -> by congruence.
Qed.

Lemma upcoming_refs (user : User.t) :
  Forall (λ a, is_Some (strptime (Appointment.date a))) (User.appointments user) →
  ∃ refs,
    select (λ ref, is_upcoming ref.2) (imap pair (User.appointments user)) = Ok refs
    ∧ refs.*2 = filter upcoming_incomplete (User.appointments user)
    ∧ ∀ n i a,
        refs !! n = Some (i, a) →
        User.appointments user !! i = Some a
        ∧ length (filter upcoming_incomplete (take i (User.appointments user))) = n.
Proof.
  intros Hdates.
  destruct (select_refs_total is_upcoming (User.appointments user)) as [refs Hrefs].
  { eapply Forall_impl; [done|]. intros a. apply is_upcoming_parsed. }
  exists refs. split; [done|].
  destruct (select_refs is_upcoming upcoming_incomplete (User.appointments user)
              is_upcoming_incomplete 0%nat refs Hrefs) as [Hobjects Hposition].
  split; [done|]. intros n i a Hn.
  by destruct (Hposition _ _ _ Hn) as (j & -> & ? & ?).
Qed.

End completion_facts.
(** C6. [mark_appointment_completed] reads its index against the upcoming
    incomplete appointments of the user (those with [days_until >= 0] that
    are not completed, in list order), not against the whole list.  For a
    user whose appointment dates parse: an index [choice] within
    [1 .. number of upcoming appointments] selects the [choice]-th of
    them, sets [completed] to [True] on that object of the user's list
    (the one with exactly [choice - 1] upcoming appointments before it),
    leaves everything else of the user as it was, and saves the user: on
    a well-formed store document the database file then holds the
    document with the updated user's record, and with a codec that reads
    back what it wrote, loading the user gives the updated user, the
    appointment completed.  An index outside that range, or an empty set
    of upcoming appointments, is reported as a failure that changes
    neither the user nor the file system. *)
Theorem mark_appointment_completed_spec `{Clock} `{Json} `{Text}
    (index : string) (user : User.t) (fs : filesystem) :
  let appointments := User.appointments user in
  let upcoming := filter upcoming_incomplete appointments in
  Forall (λ a, is_Some (strptime (Appointment.date a))) appointments →
  (∀ choice,
     int (strip index) = Ok choice →
     1 ≤ choice ≤ Z.of_nat (length upcoming) →
     ∃ i appointment,
       upcoming !! Z.to_nat (choice - 1) = Some appointment
       ∧ appointments !! i = Some appointment
       ∧ length (filter upcoming_incomplete (take i appointments)) = Z.to_nat (choice - 1)
       ∧ let completed :=
           Appointment.mk (Appointment.title appointment) (Appointment.doctor appointment)
             (Appointment.date appointment) (Appointment.time appointment)
             (Appointment.location appointment) true in
         let user' :=
           User.mk (User.username user) (User.password user) (User.name user)
             (User.medicines user) (<[i := completed]> appointments)
             (User.emergency_contact user) (User.emergency_phone user) in
         User.appointments user' !! i = Some completed
         ∧ (∀ j, j ≠ i → User.appointments user' !! j = appointments !! j)
         ∧ MediTrackApp.mark_appointment_completed index user fs
           = (Database.save_user user';;
              mret (user', [MarkedCompleted (Appointment.title appointment)])) fs
         ∧ ∀ data users,
             Database.load_data fs = PDict data →
             get data "users" (PDict ∅) = PDict users →
             MediTrackApp.mark_appointment_completed index user fs
             = (<[DATABASE_FILE := json_dump (with_user user' data users)]> fs,
                Ok (user', [MarkedCompleted (Appointment.title appointment)]))
             ∧ (json_load (json_dump (with_user user' data users))
                = Some (with_user user' data users) →
                Database.load_user (User.username user)
                  (MediTrackApp.mark_appointment_completed index user fs).1
                = Ok (Some user')))
  ∧ (∀ choice,
       int (strip index) = Ok choice →
       ¬ 1 ≤ choice ≤ Z.of_nat (length upcoming) →
       ∃ failure,
         MediTrackApp.mark_appointment_completed index user fs = (fs, Ok (user, [failure]))
         ∧ failure ∈ [NoAppointments; NoUpcomingAppointments; InvalidChoice])
  ∧ (upcoming = [] →
     ∃ failure,
       MediTrackApp.mark_appointment_completed index user fs = (fs, Ok (user, [failure]))
       ∧ failure ∈ [NoAppointments; NoUpcomingAppointments]).
Proof.
  intros appointments upcoming Hdates.
  destruct (upcoming_refs user Hdates) as (refs & Hrefs & Hobjects & Hposition).
  fold appointments upcoming in Hrefs, Hobjects, Hposition.
  assert (length refs = length upcoming) as Hlen
    by (by rewrite <- Hobjects, length_fmap).
  assert (upcoming = [] →
          ∃ failure,
            MediTrackApp.mark_appointment_completed index user fs
            = (fs, Ok (user, [failure]))
            ∧ failure ∈ [NoAppointments; NoUpcomingAppointments]) as Hempty.
  { intros Hnone. unfold MediTrackApp.mark_appointment_completed.
    fold appointments. case_bool_decide.
    - eexists. split; [done|]. by repeat constructor.
    - unfold mbind at 1, io_bind, pure. rewrite Hrefs.
      rewrite bool_decide_eq_true_2.
      + eexists. split; [done|]. by repeat constructor.
      + apply length_zero_iff_nil. rewrite Hlen, Hnone. done. }
  split; [|split; [|done]].
  - intros choice Hchoice Hrange.
    destruct (lookup_lt_is_Some_2 refs (Z.to_nat (choice - 1))) as [[i a] Href];
      [lia|].
    destruct (Hposition _ _ _ Href) as [Ha Hcount].
    exists i, a. split; [|split; [done|split; [done|]]].
    + by rewrite <- Hobjects, list_lookup_fmap, Href.
    + cbn zeta.
      set (user' := User.mk _ _ _ _ (<[i := _]> appointments) _ _).
      assert (MediTrackApp.mark_appointment_completed index user fs
              = (Database.save_user user';;
                 mret (user', [MarkedCompleted (Appointment.title a)])) fs) as Hrun.
      { unfold MediTrackApp.mark_appointment_completed.
        fold appointments.
        rewrite bool_decide_eq_false_2
          by (intros Hnil; by rewrite Hnil in Ha).
        unfold mbind at 1, io_bind, pure. rewrite Hrefs.
        rewrite bool_decide_eq_false_2
          by (intros Hnil; by rewrite Hnil in Href).
        rewrite Hchoice, Hlen. rewrite bool_decide_eq_true_2 by done.
        rewrite Href.
        replace (alter (Appointment.set_completed true) i appointments)
          with (<[i := Appointment.set_completed true a]> appointments); [done|].
        apply list_eq. intros j. destruct (decide (i = j)) as [<-|Hne].
        * rewrite list_lookup_alter_eq, Ha.
          by rewrite list_lookup_insert_eq by by eapply lookup_lt_Some.
        * by rewrite list_lookup_alter_ne, list_lookup_insert_ne. }
      split; [by apply list_lookup_insert_eq; eapply lookup_lt_Some|].
      split; [intros j Hj; by apply list_lookup_insert_ne|].
      split; [exact Hrun|].
      intros data users Hdata Husers.
      assert (MediTrackApp.mark_appointment_completed index user fs
              = (<[DATABASE_FILE := json_dump (with_user user' data users)]> fs,
                 Ok (user', [MarkedCompleted (Appointment.title a)]))) as Hsaved.
      { rewrite Hrun. unfold mbind, io_bind. by erewrite save_user_ok. }
      split; [exact Hsaved|].
      intros Hcodec. rewrite Hsaved. cbn [fst].
      destruct (saved_user_loads user' fs data users Hdata Husers Hcodec) as [Hload _].
      by rewrite (save_user_ok user' fs data users Hdata Husers) in Hload.
  - intros choice Hchoice Hrange.
    destruct (decide (upcoming = [])) as [Hnone|Hsome].
    { destruct (Hempty Hnone) as (failure & ? & ?).
      exists failure. split; [done|].
      rewrite !elem_of_cons in *. tauto. }
    unfold MediTrackApp.mark_appointment_completed. fold appointments.
    rewrite bool_decide_eq_false_2.
    2:{ intros Hnil. apply Hsome. subst upcoming. by rewrite Hnil. }
    unfold mbind at 1, io_bind, pure. rewrite Hrefs.
    rewrite bool_decide_eq_false_2.
    2:{ intros Hnil. apply Hsome. apply length_zero_iff_nil.
        by rewrite <- Hlen, Hnil. }
    rewrite Hchoice, Hlen. rewrite bool_decide_eq_false_2 by done.
    eexists. split; [done|]. by repeat constructor.
Qed.

(** C7. For a valid index, [mark_medicine_taken] lets the selected
    medicine take a dose.  When the medicine is out of stock it prints the
    out-of-stock failure and leaves the user and the file system as they
    were: nothing is saved.  When the dose is taken the medicine has one
    dose less in stock and one more taken, nothing else of the user
    changes, and the updated user is saved: on a well-formed store
    document the database file then holds the document with the updated
    user's record, and with a codec that reads back what it wrote,
    loading the user gives the updated user, the stock lowered.  It
    prints the remaining stock, followed by the low-stock warning exactly
    when the remaining stock is at most 5. *)
Theorem mark_medicine_taken_spec `{Json} `{Text}
    (index : string) (user : User.t) (fs : filesystem) (choice : Z) (medicine : Medicine.t) :
  int (strip index) = Ok choice →
  1 ≤ choice ≤ Z.of_nat (length (User.medicines user)) →
  User.medicines user !! Z.to_nat (choice - 1) = Some medicine →
  (Medicine.stock medicine ≤ 0 →
     MediTrackApp.mark_medicine_taken index user fs = (fs, Ok (user, [OutOfStock])))
  ∧ (0 < Medicine.stock medicine →
     let remaining := Medicine.stock medicine - 1 in
     let medicine' :=
       Medicine.mk (Medicine.name medicine) (Medicine.dosage medicine)
         (Medicine.frequency medicine) (Medicine.start_date medicine)
         (Medicine.end_date medicine) remaining (Medicine.taken_today medicine + 1)
         (Medicine.missed_today medicine) in
     let user' :=
       User.mk (User.username user) (User.password user) (User.name user)
         (<[Z.to_nat (choice - 1) := medicine']> (User.medicines user))
         (User.appointments user) (User.emergency_contact user)
         (User.emergency_phone user) in
     ∃ out,
       (Medicine.take_dose medicine).1 = medicine'
       ∧ User.medicines user' !! Z.to_nat (choice - 1) = Some medicine'
       ∧ (∀ j, j ≠ Z.to_nat (choice - 1) →
               User.medicines user' !! j = User.medicines user !! j)
       ∧ MediTrackApp.mark_medicine_taken index user fs
         = (Database.save_user user';; mret (user', out)) fs
       ∧ out = [MarkedTaken (Medicine.name medicine); RemainingStock remaining]
               ++ (if bool_decide (remaining ≤ 5) then [LowStockRefill] else [])
       ∧ (LowStockRefill ∈ out ↔ remaining ≤ 5)
       ∧ ∀ data users,
           Database.load_data fs = PDict data →
           get data "users" (PDict ∅) = PDict users →
           MediTrackApp.mark_medicine_taken index user fs
           = (<[DATABASE_FILE := json_dump (with_user user' data users)]> fs,
              Ok (user', out))
           ∧ (json_load (json_dump (with_user user' data users))
              = Some (with_user user' data users) →
              Database.load_user (User.username user)
                (MediTrackApp.mark_medicine_taken index user fs).1
              = Ok (Some user'))).
Proof.
  intros Hchoice Hrange Hmedicine.
  assert (User.medicines user ≠ []) as Hsome
    by (intros Hnil; by rewrite Hnil in Hmedicine).
  split; intros Hstock.
  - unfold MediTrackApp.mark_medicine_taken.
    rewrite bool_decide_eq_false_2 by done.
    rewrite Hchoice, bool_decide_eq_true_2 by done.
    rewrite Hmedicine, take_dose_no_stock by done.
    by rewrite list_insert_id, set_medicines_same.
  - cbn zeta.
    set (medicine' := Medicine.mk _ _ _ _ _ (Medicine.stock medicine - 1) _ _).
    set (user' := User.mk _ _ _ (<[_ := medicine']> _) _ _ _).
    eexists.
    assert (Z.to_nat (choice - 1) < length (User.medicines user))%nat as Hlt
      by by eapply lookup_lt_Some.
    assert (MediTrackApp.mark_medicine_taken index user fs
            = (Database.save_user user';;
               mret (user',
                     [MarkedTaken (Medicine.name medicine);
                      RemainingStock (Medicine.stock medicine - 1)]
                     ++ (if bool_decide (Medicine.stock medicine - 1 ≤ 5)
                         then [LowStockRefill] else []))) fs) as Hrun.
    { unfold MediTrackApp.mark_medicine_taken.
      rewrite bool_decide_eq_false_2 by done.
      rewrite Hchoice, bool_decide_eq_true_2 by done.
      rewrite Hmedicine, take_dose_in_stock by done. done. }
    split; [by rewrite take_dose_in_stock|].
    split; [by apply list_lookup_insert_eq|].
    split; [intros j Hj; by apply list_lookup_insert_ne|].
    split; [exact Hrun|].
    split; [done|]. split.
    + case_bool_decide; cbn; rewrite !elem_of_cons, elem_of_nil; [tauto|].
      split; [|lia]. by intros [|[|]].
    + intros data users Hdata Husers.
      assert (MediTrackApp.mark_medicine_taken index user fs
              = (<[DATABASE_FILE := json_dump (with_user user' data users)]> fs,
                 Ok (user',
                     [MarkedTaken (Medicine.name medicine);
                      RemainingStock (Medicine.stock medicine - 1)]
                     ++ (if bool_decide (Medicine.stock medicine - 1 ≤ 5)
                         then [LowStockRefill] else [])))) as Hsaved.
      { rewrite Hrun. unfold mbind, io_bind. by erewrite save_user_ok. }
      split; [exact Hsaved|].
      intros Hcodec. rewrite Hsaved. cbn [fst].
      destruct (saved_user_loads user' fs data users Hdata Husers Hcodec) as [Hload _].
      by rewrite (save_user_ok user' fs data users Hdata Husers) in Hload.
Qed.
(** * More of the entity layer *)

Lemma take_dose_same_medicine (m : Medicine.t) :
  same_medicine m (Medicine.take_dose m).1
  ∧ Medicine.stock (Medicine.take_dose m).1 + Medicine.taken_today (Medicine.take_dose m).1
    = Medicine.stock m + Medicine.taken_today m
  ∧ Medicine.taken_today m ≤ Medicine.taken_today (Medicine.take_dose m).1.
Proof.
  unfold Medicine.take_dose, same_medicine. case_bool_decide; cbn; repeat split; lia.
Qed.

(** X1. Through every sequence of menu choices a medicine stays the same
    medicine at the same position (name, dosage, frequency, dates), its
    [taken_today] never goes down, and [stock + taken_today] keeps its
    value: every dose that leaves the stock is counted as taken. *)
Theorem session_counts_every_dose `{Clock} `{Json} `{Text}
    (choices : list MediTrackApp.choice) (user user' : User.t) (fs fs' : filesystem)
    (out : list line) (i : nat) (m : Medicine.t) :
  MediTrackApp.main_menu choices user fs = (fs', Ok (user', out)) →
  User.medicines user !! i = Some m →
  ∃ m', User.medicines user' !! i = Some m'
        ∧ same_medicine m m'
        ∧ Medicine.stock m' + Medicine.taken_today m'
          = Medicine.stock m + Medicine.taken_today m
        ∧ Medicine.taken_today m ≤ Medicine.taken_today m'.
Proof.
  intros Hrun%main_menu_effects. revert m.
  induction Hrun as [user|c choices user user1 user2 He _ IH]; intros m Hm.
  - exists m. by repeat split.
  - assert (∃ m1, User.medicines user1 !! i = Some m1
                  ∧ same_medicine m m1
                  ∧ Medicine.stock m1 + Medicine.taken_today m1
                    = Medicine.stock m + Medicine.taken_today m
                  ∧ Medicine.taken_today m ≤ Medicine.taken_today m1)
      as (m1 & Hm1 & Hsame1 & Hsum1 & Hle1).
    { destruct (effect_medicine _ _ _ _ _ He Hm) as [Hkept|(_ & _ & Hdose)].
      - exists m. by repeat split.
      - eexists. split; [done|]. apply take_dose_same_medicine. }
    destruct (IH _ Hm1) as (m2 & Hm2 & Hsame2 & Hsum2 & Hle2).
    exists m2. split; [done|]. split; [|split; lia].
    unfold same_medicine in *. intuition congruence.
Qed.

Lemma take_doses_S (n : nat) (m : Medicine.t) :
  take_doses (S n) m = (Medicine.take_dose (take_doses n m)).1.
Proof. reflexivity. Qed.

(** X2. Doses in a row.  From a stock [s >= 0], [n] calls of [take_dose]
    leave the stock at [max 0 (s - n)] and add [min n s] to
    [taken_today]: the first [s] calls succeed, every later one fails and
    changes nothing. *)
Theorem take_doses_spec (n : nat) (m : Medicine.t) :
  0 ≤ Medicine.stock m →
  Medicine.stock (take_doses n m) = Z.max 0 (Medicine.stock m - Z.of_nat n)
  ∧ Medicine.taken_today (take_doses n m)
    = Medicine.taken_today m + Z.min (Z.of_nat n) (Medicine.stock m)
  ∧ (Medicine.stock m ≤ Z.of_nat n →
     Medicine.take_dose (take_doses n m) = (take_doses n m, false)).
Proof.
  intros Hs.
  assert (Medicine.stock (take_doses n m) = Z.max 0 (Medicine.stock m - Z.of_nat n)
          ∧ Medicine.taken_today (take_doses n m)
            = Medicine.taken_today m + Z.min (Z.of_nat n) (Medicine.stock m))
    as [Hstock Htaken].
  { induction n as [|n [IHs IHt]]; [cbn; lia|].
    rewrite take_doses_S.
    destruct (decide (0 < Medicine.stock (take_doses n m))) as [Hpos|Hzero].
    - rewrite take_dose_in_stock by done. cbn. lia.
    - rewrite take_dose_no_stock by lia. cbn. lia. }
  split; [done|]. split; [done|].
  intros Hn. apply take_dose_no_stock. lia.
Qed.

Lemma take_doses_spec_witness :
  0 ≤ Medicine.stock (aspirin 3)
  ∧ Medicine.stock (aspirin 3) ≤ Z.of_nat 4
  ∧ Medicine.stock (take_doses 4 (aspirin 3)) = 0
  ∧ Medicine.taken_today (take_doses 4 (aspirin 3)) = 3
  ∧ Medicine.take_dose (take_doses 4 (aspirin 3)) = (take_doses 4 (aspirin 3), false).
Proof.
  assert (0 ≤ Medicine.stock (aspirin 3)) as Hs by (vm_compute; discriminate).
  assert (Medicine.stock (aspirin 3) ≤ Z.of_nat 4) as Hn by (vm_compute; discriminate).
  destruct (take_doses_spec 4 (aspirin 3) Hs) as (Hstock & Htaken & Hfail).
  split; [exact Hs|]. split; [exact Hn|].
  split; [by rewrite Hstock|]. split; [by rewrite Htaken|].
  exact (Hfail Hn).
Defined.

(** * More invariants of a session *)

Lemma set_completed_twice (a : Appointment.t) :
  Appointment.set_completed true (Appointment.set_completed true a)
  = Appointment.set_completed true a.
Proof. done. Qed.

Lemma effect_keeps_account `{Text} c user user' :
  effect c user user' →
  User.username user' = User.username user
  ∧ User.name user' = User.name user
  ∧ User.emergency_contact user' = User.emergency_contact user
  ∧ User.emergency_phone user' = User.emergency_phone user
  ∧ (length (User.medicines user) ≤ length (User.medicines user'))%nat
  ∧ (length (User.appointments user) ≤ length (User.appointments user'))%nat.
Proof.
  destruct 1; cbn; rewrite ?length_app, ?length_insert, ?length_alter;
    repeat split; lia.
Qed.

Lemma effect_keeps_appointment `{Text} c user user' i a :
  effect c user user' →
  User.appointments user !! i = Some a →
  ∃ a', User.appointments user' !! i = Some a'
        ∧ (a' = a ∨ a' = Appointment.set_completed true a).
Proof.
  intros He Ha.
  destruct He as [| | | |index user j|]; cbn; try (exists a; by eauto).
  - exists a. split; [by apply lookup_app_l_Some|by left].
  - destruct (decide (j = i)) as [->|Hne].
    + eexists. rewrite list_lookup_alter_eq, Ha. split; [done|by right].
    + exists a. rewrite list_lookup_alter_ne by done. by eauto.
Qed.

(** X3. No menu choice deletes, reorders or renames.  Through every
    sequence of choices the user keeps username, name and emergency
    contact; the lists of medicines and appointments never get shorter;
    and the appointment at a position is the one that was there, changed
    at most by being marked completed. *)
Theorem session_never_deletes `{Clock} `{Json} `{Text}
    (choices : list MediTrackApp.choice) (user user' : User.t) (fs fs' : filesystem)
    (out : list line) :
  MediTrackApp.main_menu choices user fs = (fs', Ok (user', out)) →
  User.username user' = User.username user
  ∧ User.name user' = User.name user
  ∧ User.emergency_contact user' = User.emergency_contact user
  ∧ User.emergency_phone user' = User.emergency_phone user
  ∧ (length (User.medicines user) ≤ length (User.medicines user'))%nat
  ∧ (length (User.appointments user) ≤ length (User.appointments user'))%nat
  ∧ ∀ i a,
      User.appointments user !! i = Some a →
      ∃ a', User.appointments user' !! i = Some a'
            ∧ (a' = a ∨ a' = Appointment.set_completed true a).
Proof.
  intros Hrun%main_menu_effects.
  induction Hrun as [user|c choices user user1 user2 He _ IH].
  - repeat split; try done. intros i a Ha. exists a. eauto.
  - destruct (effect_keeps_account _ _ _ He) as (? & ? & ? & ? & ? & ?).
    destruct IH as (? & ? & ? & ? & ? & ? & IH).
    repeat split; try congruence; try lia.
    intros i a Ha.
    destruct (effect_keeps_appointment _ _ _ _ _ He Ha) as (a1 & Ha1 & Hchange1).
    destruct (IH _ _ Ha1) as (a2 & Ha2 & Hchange2).
    exists a2. split; [done|].
    destruct Hchange1 as [->| ->], Hchange2 as [->| ->]; eauto.
Qed.

(** * Memory and disk *)


Lemma save_user_raise `{Json} (user : User.t) fs fs' (e : exn) :
  Database.save_user user fs = (fs', Raise e) → fs' = fs.
Proof. unfold Database.save_user. repeat case_match; by intros [= <-]. Qed.

(** Opens every step of an operation: each branch, each call that may
    raise, each save. *)
Ltac run_cases :=
  unfold mbind, io_bind, mret, io_ret, pure, reading in *;
  repeat (case_bool_decide || case_match);
  simplify_eq/=;
  repeat match goal with u : () |- _ => destruct u end.

Lemma take_dose_refused (m m' : Medicine.t) :
  Medicine.take_dose m = (m', false) → m' = m.
Proof. unfold Medicine.take_dose. case_bool_decide; by intros [= <-]. Qed.

Section persistence_facts.
Context `{Clock} `{Json} `{Text}.
Import MediTrackApp.

Lemma dispatch_ok_saved c user fs fs' user' out :
  dispatch c user fs = (fs', Ok (user', out)) →
  fs' = fs ∧ user' = user
  ∨ Database.save_user user' fs = (fs', Ok ()).
Proof.
  destruct c; cbn [dispatch];
    unfold add_medicine, add_appointment, mark_medicine_taken,
           mark_appointment_completed, change_password;
    intros Hrun; run_cases; eauto.
  all: left; split; [done|].
  all: match goal with
       | Hdose : Medicine.take_dose _ = (_, false) |- _ =>
           apply take_dose_refused in Hdose as ->
       end.
  all: rewrite list_insert_id by done; apply set_medicines_same.
Qed.


End persistence_facts.

(** X4. An operation saves what it changes.  After a menu choice that
    returns, either the user in memory and the file system are both as
    before, or the file system is the result of saving the user now in
    memory; the same holds of a whole session, for some save of the final
    user. *)
Theorem operation_saves_what_it_changes `{Clock} `{Json} `{Text} :
  (∀ c user fs fs' user' out,
     MediTrackApp.dispatch c user fs = (fs', Ok (user', out)) →
     fs' = fs ∧ user' = user
     ∨ Database.save_user user' fs = (fs', Ok ()))
  ∧ (∀ choices user fs fs' user' out,
       MediTrackApp.main_menu choices user fs = (fs', Ok (user', out)) →
       fs' = fs ∧ user' = user
       ∨ ∃ fs0, Database.save_user user' fs0 = (fs', Ok ())).
Proof.
  split; [exact dispatch_ok_saved|].
  induction choices as [|c choices IH]; intros user fs fs' user' out Hrun.
  - apply io_ret_ok in Hrun as [-> [= -> ->]]. by left.
  - apply main_menu_cons in Hrun as (user1 & out1 & fs1 & out2 & Hc & Hrest & ->).
    destruct (IH _ _ _ _ _ Hrest) as [[-> ->]|[fs0 Hsaved]]; [|by eauto].
    destruct (dispatch_ok_saved _ _ _ _ _ _ Hc) as [[-> ->]|Hsaved]; eauto.
Qed.


(** * More of the service layer: what the operations refuse *)

Lemma frequency_in_range (c : Z) :
  1 ≤ c ≤ 4 → ∃ f, frequencies !! Z.to_nat (c - 1) = Some f ∧ f ∈ frequencies.
Proof.
  intros Hc.
  destruct (lookup_lt_is_Some_2 frequencies (Z.to_nat (c - 1))) as [f Hf]; [cbn; lia|].
  exists f. split; [done|]. by eapply list_elem_of_lookup_2.
Qed.

(** X6. [mark_medicine_taken] refuses an empty list of medicines, an
    index that is not a number and an index outside [1 .. number of
    medicines]; each refusal prints its message and leaves the user and
    the file system as they were. *)
Theorem mark_medicine_taken_rejects `{Json} `{Text}
    (index : string) (user : User.t) (fs : filesystem) :
  (User.medicines user = [] →
     MediTrackApp.mark_medicine_taken index user fs = (fs, Ok (user, [NoMedicines])))
  ∧ (User.medicines user ≠ [] →
     ∀ e, int (strip index) = Raise e →
     MediTrackApp.mark_medicine_taken index user fs = (fs, Ok (user, [InvalidInput])))
  ∧ (User.medicines user ≠ [] →
     ∀ choice, int (strip index) = Ok choice →
     ¬ 1 ≤ choice ≤ Z.of_nat (length (User.medicines user)) →
     MediTrackApp.mark_medicine_taken index user fs = (fs, Ok (user, [InvalidChoice]))).
Proof.
  unfold MediTrackApp.mark_medicine_taken. split; [|split].
  - intros Hnone. by rewrite bool_decide_eq_true_2.
  - intros Hsome e He. by rewrite bool_decide_eq_false_2, He.
  - intros Hsome choice Hchoice Hrange.
    by rewrite bool_decide_eq_false_2, Hchoice, bool_decide_eq_false_2.
Qed.

(** X7. [add_medicine] refuses an empty name and an empty dosage without
    touching anything.  A frequency line that [isdigit] accepts and [int]
    rejects raises [ValueError]: nothing is appended and nothing saved.
    Otherwise it appends one medicine, with both counters at 0 and today
    as start date, and saves the user.  The frequency is then one of the
    four options: the one numbered by a line that [isdigit] accepts and
    [int] reads as 1 to 4, "Once daily" for any other line.  The end date
    defaults to today + 30 days.  The stock is 30 for an empty line or
    one [int] rejects, and otherwise the number read, whatever its
    sign. *)
Theorem add_medicine_spec `{Clock} `{Json} `{Text}
    (name dosage choice end_date stock : string) (user : User.t) (fs : filesystem) :
  (strip name = "" →
     MediTrackApp.add_medicine name dosage choice end_date stock user fs
     = (fs, Ok (user, [NameRequired])))
  ∧ (strip name ≠ "" → strip dosage = "" →
     MediTrackApp.add_medicine name dosage choice end_date stock user fs
     = (fs, Ok (user, [DosageRequired])))
  ∧ (strip name ≠ "" → strip dosage ≠ "" →
     isdigit (strip choice) = true →
     ∀ e, int (strip choice) = Raise e →
     MediTrackApp.add_medicine name dosage choice end_date stock user fs
     = (fs, Raise e))
  ∧ (strip name ≠ "" → strip dosage ≠ "" →
     (isdigit (strip choice) = true → ∃ c, int (strip choice) = Ok c) →
     ∃ frequency,
       frequency ∈ frequencies
       ∧ (isdigit (strip choice) = false → frequency = "Once daily")
       ∧ (∀ c, int (strip choice) = Ok c → ¬ 1 ≤ c ≤ 4 → frequency = "Once daily")
       ∧ (∀ c, isdigit (strip choice) = true → int (strip choice) = Ok c → 1 ≤ c ≤ 4 →
            frequencies !! Z.to_nat (c - 1) = Some frequency)
       ∧ let medicine :=
           Medicine.mk (strip name) (strip dosage) frequency (strftime today)
             (if bool_decide (strip end_date = "") then strftime (today + 30)
              else strip end_date)
             (initial_stock stock) 0 0 in
         let user' :=
           User.mk (User.username user) (User.password user) (User.name user)
             (User.medicines user ++ [medicine]) (User.appointments user)
             (User.emergency_contact user) (User.emergency_phone user) in
         MediTrackApp.add_medicine name dosage choice end_date stock user fs
         = (Database.save_user user';;
            mret (user', [MedicineAdded (strip name) (strip dosage) frequency
                            (initial_stock stock)])) fs)
  ∧ (strip stock = "" → int "30" = Ok 30 → initial_stock stock = 30)
  ∧ (∀ e, int (str_or (strip stock) "30") = Raise e → initial_stock stock = 30)
  ∧ (∀ n, strip stock ≠ "" → int (strip stock) = Ok n → initial_stock stock = n).
Proof.
  split; [|split; [|split; [|split; [|apply initial_stock_cases]]]].
  - intros Hname. unfold MediTrackApp.add_medicine.
    by rewrite bool_decide_eq_true_2.
  - intros Hname Hdosage. unfold MediTrackApp.add_medicine.
    by rewrite bool_decide_eq_false_2, bool_decide_eq_true_2.
  - intros Hname Hdosage Hdigits e He. unfold MediTrackApp.add_medicine.
    rewrite !bool_decide_eq_false_2 by done.
    by rewrite Hdigits, He.
  - intros Hname Hdosage Hread. unfold MediTrackApp.add_medicine.
    rewrite !bool_decide_eq_false_2 by done.
    destruct (isdigit (strip choice)) eqn:Hdigits.
    + destruct (Hread eq_refl) as [c Hc]. rewrite Hc. cbn.
      destruct (decide (1 ≤ c ≤ 4)) as [Hrange|Hrange].
      * rewrite (bool_decide_eq_true_2 (1 ≤ c ≤ 4)) by done.
        destruct (frequency_in_range c Hrange) as (f & Hf & Hin).
        rewrite Hf. exists f.
        split; [done|]. split; [done|].
        split; [by intros ? [= <-]|]. split; [by intros ? _ [= <-]|]. done.
      * rewrite (bool_decide_eq_false_2 (1 ≤ c ≤ 4)) by done.
        exists "Once daily".
        split; [by repeat constructor|]. split; [done|]. split; [done|].
        split; [by intros ? _ [= <-]|]. done.
    + exists "Once daily".
      split; [by repeat constructor|]. split; [done|]. split; [done|].
      split; [done|]. done.
Qed.

(** X8. [add_appointment] refuses an empty title and an empty doctor
    without touching anything.  Otherwise it appends one appointment that
    is not completed, with time "10:00" when none is given, and saves the
    user before it looks at the date: for a date that parses it then
    reports the days until the appointment, for any other date (the empty
    one included) it then raises [ValueError], the appointment already
    saved. *)
Theorem add_appointment_spec `{Clock} `{Json} `{Text}
    (title doctor date time location : string) (user : User.t) (fs : filesystem) :
  (strip title = "" →
     MediTrackApp.add_appointment title doctor date time location user fs
     = (fs, Ok (user, [TitleRequired])))
  ∧ (strip title ≠ "" → strip doctor = "" →
     MediTrackApp.add_appointment title doctor date time location user fs
     = (fs, Ok (user, [DoctorRequired])))
  ∧ (strip title ≠ "" → strip doctor ≠ "" →
     let appointment :=
       Appointment.mk (strip title) (strip doctor) (strip date)
         (if bool_decide (strip time = "") then "10:00" else strip time)
         (strip location) false in
     let user' := User.set_appointments (User.appointments user ++ [appointment]) user in
     (∀ fs1 e,
        Database.save_user user' fs = (fs1, Raise e) →
        MediTrackApp.add_appointment title doctor date time location user fs
        = (fs, Raise e))
     ∧ (∀ fs1,
          Database.save_user user' fs = (fs1, Ok ()) →
          (∀ d, strptime (strip date) = Some d →
             MediTrackApp.add_appointment title doctor date time location user fs
             = (fs1, Ok (user', [AppointmentAdded (strip title) (strip doctor) (strip date)
                                   (d - today) (Appointment.time appointment)])))
          ∧ (strptime (strip date) = None →
             MediTrackApp.add_appointment title doctor date time location user fs
             = (fs1, Raise ValueError)))).
Proof.
  split; [|split].
  - intros Htitle. unfold MediTrackApp.add_appointment.
    by rewrite bool_decide_eq_true_2.
  - intros Htitle Hdoctor. unfold MediTrackApp.add_appointment.
    by rewrite bool_decide_eq_false_2, bool_decide_eq_true_2.
  - intros Htitle Hdoctor. cbn zeta. unfold MediTrackApp.add_appointment.
    rewrite (bool_decide_eq_false_2 (strip title = "")) by done.
    rewrite (bool_decide_eq_false_2 (strip doctor = "")) by done.
    unfold str_or, Appointment.init, Appointment.days_until, mbind, io_bind, pure. cbn.
    split.
    + intros fs1 e Hsave. rewrite Hsave.
      by apply save_user_raise in Hsave as ->.
    + intros fs1 Hsave. rewrite Hsave. split.
      * intros d Hd. by rewrite Hd.
      * intros Hd. by rewrite Hd.
Qed.

(** X9. [change_password] refuses a wrong current password, an empty new
    password and a confirmation that differs, in this order; a refusal
    leaves the user and the file system as they were.  Otherwise the
    password becomes the new one, stripped of surrounding blanks, nothing
    else of the user changes, and the user is saved. *)
Theorem change_password_spec `{Json} `{Text}
    (current new_password confirm : string) (user : User.t) (fs : filesystem) :
  (strip current ≠ User.password user →
     MediTrackApp.change_password current new_password confirm user fs
     = (fs, Ok (user, [PasswordIncorrect])))
  ∧ (strip current = User.password user → strip new_password = "" →
     MediTrackApp.change_password current new_password confirm user fs
     = (fs, Ok (user, [PasswordEmpty])))
  ∧ (strip current = User.password user → strip new_password ≠ "" →
     strip new_password ≠ strip confirm →
     MediTrackApp.change_password current new_password confirm user fs
     = (fs, Ok (user, [PasswordMismatch])))
  ∧ (strip current = User.password user → strip new_password ≠ "" →
     strip new_password = strip confirm →
     let user' :=
       User.mk (User.username user) (strip new_password) (User.name user)
         (User.medicines user) (User.appointments user)
         (User.emergency_contact user) (User.emergency_phone user) in
     MediTrackApp.change_password current new_password confirm user fs
     = (Database.save_user user';; mret (user', [PasswordChanged])) fs).
Proof.
  unfold MediTrackApp.change_password. split; [|split; [|split]].
  - intros Hcurrent. by rewrite bool_decide_eq_true_2.
  - intros Hcurrent Hnew. by rewrite bool_decide_eq_false_2, bool_decide_eq_true_2 by auto.
  - intros Hcurrent Hnew Hconfirm.
    rewrite (bool_decide_eq_false_2 (strip current ≠ _)) by auto.
    by rewrite bool_decide_eq_false_2, bool_decide_eq_true_2.
  - intros Hcurrent Hnew Hconfirm.
    rewrite (bool_decide_eq_false_2 (strip current ≠ _)) by auto.
    rewrite (bool_decide_eq_false_2 (strip new_password = _)) by auto.
    by rewrite bool_decide_eq_false_2 by auto.
Qed.

(** * Dates that do not parse, and listings *)

Lemma select_raise {A : Type} (p : A → result bool) (l : list A) (x : A) :
  (∀ y e, p y = Raise e → e = ValueError) →
  x ∈ l → p x = Raise ValueError → select p l = Raise ValueError.
Proof.
  intros Honly Hx Hraise.
  induction l as [|y l IH]; [by apply elem_of_nil in Hx|].
  cbn [select]. destruct (p y) as [b|e] eqn:Hy.
  - apply elem_of_cons in Hx as [->|Hx]; [congruence|].
    cbn. by rewrite IH.
  - cbn. by rewrite (Honly _ _ Hy).
Qed.

Lemma select_filter {A : Type} (p : A → result bool) (P : A → Prop)
    `{!∀ a, Decision (P a)} (l : list A) :
  Forall (λ a, p a = Ok (bool_decide (P a))) l → select p l = Ok (filter P l).
Proof.
  induction 1 as [|x l Hx _ IH]; [done|].
  cbn [select]. rewrite Hx, IH. cbn [mbind result_bind]. rewrite filter_cons.
  by destruct (decide (P x)); [rewrite bool_decide_eq_true_2|rewrite bool_decide_eq_false_2].
Qed.

Lemma for_each_ok {A B : Type} (f : A → result B) (g : A → B) (l : list A) :
  Forall (λ x, f x = Ok (g x)) l → for_each f l = Ok (g <$> l).
Proof.
  induction 1 as [|x l Hx _ IH]; [done|].
  cbn [for_each]. by rewrite Hx, IH.
Qed.

Section date_facts.
Context `{Clock}.
Import MediTrackApp.

Lemma days_until_raise (a : Appointment.t) (e : exn) :
  Appointment.days_until a = Raise e →
  e = ValueError ∧ strptime (Appointment.date a) = None.
Proof. unfold Appointment.days_until. case_match; [done|]. by intros [= <-]. Qed.

Lemma days_until_unparsed (a : Appointment.t) :
  strptime (Appointment.date a) = None → Appointment.days_until a = Raise ValueError.
Proof. unfold Appointment.days_until. by intros ->. Qed.

Lemma days_until_days_of (a : Appointment.t) :
  is_Some (strptime (Appointment.date a)) → Appointment.days_until a = Ok (days_of a).
Proof.
  intros [days Hdays]%days_until_parsed. unfold days_of. by rewrite Hdays.
Qed.

(** A test of the days until an appointment raises [ValueError] or
    nothing. *)
Lemma days_test_raise (test : Appointment.t → Z → bool) (a : Appointment.t) (e : exn) :
  (days ← Appointment.days_until a; Ok (test a days)) = Raise e → e = ValueError.
Proof.
  destruct (Appointment.days_until a) as [days|e'] eqn:Hdays; [done|].
  intros [= <-]. by apply days_until_raise in Hdays as [-> _].
Qed.

Lemma select_days_raise (test : Appointment.t → Z → bool)
    (appointments : list Appointment.t) (a : Appointment.t) :
  a ∈ appointments → strptime (Appointment.date a) = None →
  select (λ a, days ← Appointment.days_until a; Ok (test a days)) appointments
  = Raise ValueError.
Proof.
  intros Ha Hdate. apply select_raise with a; [|done|].
  - intros y e. apply days_test_raise.
  - by rewrite days_until_unparsed.
Qed.

Lemma select_days_filter (test : Appointment.t → Z → bool) (P : Appointment.t → Prop)
    `{!∀ a, Decision (P a)} (appointments : list Appointment.t) :
  Forall (λ a, is_Some (strptime (Appointment.date a))) appointments →
  (∀ a, test a (days_of a) = bool_decide (P a)) →
  select (λ a, days ← Appointment.days_until a; Ok (test a days)) appointments
  = Ok (filter P appointments).
Proof.
  intros Hdates Htest. apply select_filter.
  eapply Forall_impl; [done|]. intros a Ha. cbn beta.
  rewrite days_until_days_of by done. cbn. by rewrite Htest.
Qed.

Lemma for_loop_notify_appointment_raise appointments notifications a :
  a ∈ appointments → strptime (Appointment.date a) = None →
  for_loop notify_appointment appointments notifications = Raise ValueError.
Proof.
  intros Ha Hdate. revert notifications.
  induction appointments as [|y l IH]; intros notifications;
    [by apply elem_of_nil in Ha|].
  cbn [for_loop]. unfold notify_appointment at 2.
  destruct (Appointment.days_until y) as [days|e] eqn:Hy.
  - apply elem_of_cons in Ha as [->|Ha];
      [by rewrite days_until_unparsed in Hy|].
    cbn. repeat case_match; cbn; by apply IH.
  - cbn. by apply days_until_raise in Hy as [-> _].
Qed.

End date_facts.

(** X10. One date that does not parse breaks every view of the dates.
    When some appointment of the user has such a date, the notifications,
    the weekly summary, the emergency view and the list of appointments
    raise [ValueError], marking an appointment completed raises it before
    changing anything, and so does a login as this user: the account can
    no longer be opened. *)
Theorem unparsable_date_breaks `{Clock} `{Json} `{Text} (user : User.t) (a : Appointment.t) :
  a ∈ User.appointments user →
  strptime (Appointment.date a) = None →
  MediTrackApp.check_notifications (Some user) = Raise ValueError
  ∧ MediTrackApp.view_weekly_summary user = Raise ValueError
  ∧ MediTrackApp.emergency_mode user = Raise ValueError
  ∧ MediTrackApp.view_appointments user = Raise ValueError
  ∧ (∀ index fs,
       MediTrackApp.mark_appointment_completed index user fs = (fs, Raise ValueError))
  ∧ (∀ username password current_user fs,
       Database.load_user (strip username) fs = Ok (Some user) →
       User.password user = strip password →
       MediTrackApp.login_user username password current_user fs
       = (fs, Raise ValueError)).
Proof.
  intros Ha Hdate.
  assert (User.appointments user ≠ []) as Hsome
    by (intros Hnil; rewrite Hnil in Ha; by apply elem_of_nil in Ha).
  assert (MediTrackApp.check_notifications (Some user) = Raise ValueError) as Hnotes.
  { unfold MediTrackApp.check_notifications.
    by rewrite (for_loop_notify_appointment_raise _ _ a). }
  split; [done|]. split; [|split; [|split; [|split]]].
  - unfold MediTrackApp.view_weekly_summary, MediTrackApp.is_upcoming.
    by rewrite (select_days_raise (λ a days, bool_decide (0 ≤ days)
                                             && negb (Appointment.completed a)) _ a).
  - unfold MediTrackApp.emergency_mode.
    by rewrite (select_days_raise (λ a days, bool_decide (days ≤ 3)
                                             && negb (Appointment.completed a)) _ a).
  - unfold MediTrackApp.view_appointments.
    rewrite bool_decide_eq_false_2 by done.
    by rewrite (select_days_raise (λ _ days, bool_decide (0 ≤ days)) _ a).
  - intros index fs. unfold MediTrackApp.mark_appointment_completed.
    rewrite bool_decide_eq_false_2 by done.
    unfold mbind at 1, io_bind, pure.
    apply list_elem_of_lookup in Ha as [i Hi].
    rewrite (select_raise _ _ (i, a)); [done| | |].
    + intros [j y] e. apply (days_test_raise
        (λ a days, bool_decide (0 ≤ days) && negb (Appointment.completed a))).
    + apply list_elem_of_lookup. exists i. by rewrite list_lookup_imap, Hi.
    + unfold MediTrackApp.is_upcoming. cbn. by rewrite days_until_unparsed.
  - intros username password current_user fs Hload Hpassword.
    unfold MediTrackApp.login_user, mbind, io_bind, reading, pure.
    rewrite Hload, bool_decide_eq_true_2 by done. by rewrite Hnotes.
Qed.
Section listing_facts.
Context `{Clock}.
Import MediTrackApp.

Lemma emergency_mode_parsed (user : User.t) :
  Forall (λ a, is_Some (strptime (Appointment.date a))) (User.appointments user) →
  emergency_mode user
  = Ok ([PatientName (User.name user)]
        ++ (if bool_decide (User.emergency_contact user = "") then [NoEmergencyContact]
            else [EmergencyContact (User.emergency_contact user)
                    (User.emergency_phone user)])
        ++ ((λ m, CriticalMedication (Medicine.name m) (Medicine.stock m))
              <$> filter (λ m, Medicine.stock m ≤ 2) (User.medicines user))
        ++ ((λ a, UrgentAppointment (Appointment.title a) (Appointment.doctor a))
              <$> filter urgent (User.appointments user))).
Proof.
  intros Hdates. unfold emergency_mode.
  assert (∀ a, bool_decide (days_of a ≤ 3) && negb (Appointment.completed a)
               = bool_decide (urgent a)) as Htest.
  { intros a. apply eq_true_iff_eq.
    by rewrite andb_true_iff, !bool_decide_eq_true, negb_true_iff. }
  assert (select (λ a, days ← Appointment.days_until a;
                       Ok (bool_decide (days ≤ 3) && negb (Appointment.completed a)))
                 (User.appointments user)
          = Ok (filter urgent (User.appointments user))) as ->; [|done].
  by apply (select_days_filter
              (λ a days, bool_decide (days ≤ 3) && negb (Appointment.completed a))
              urgent).
Qed.

Lemma notes_of_urgent (a : Appointment.t) (note : line) :
  is_Some (strptime (Appointment.date a)) →
  note ∈ notes_of a →
  urgent a
  ∧ (note = NoteToday (Appointment.title a) (Appointment.doctor a)
     ∨ ∃ days, note = NoteUpcoming (Appointment.title a) (Appointment.doctor a) days).
Proof.
  intros Ha. unfold notes_of, urgent, appointment_notes.
  rewrite days_until_days_of by done.
  destruct (Appointment.completed a); [by intros ?%elem_of_nil|].
  case_bool_decide; [|case_bool_decide]; [| |by intros ?%elem_of_nil].
  - intros ->%list_elem_of_singleton. split; [split; [lia|done]|by left].
  - intros ->%list_elem_of_singleton. split; [split; [lia|done]|right; by eexists].
Qed.

End listing_facts.

(** X11. The emergency view of a user whose appointment dates parse
    shows the name, the emergency contact or a note that none is set, the
    medicines with [stock <= 2] and the urgent appointments: those not
    completed and at most 3 days ahead, overdue ones included.  Whatever
    [check_notifications] announces is in it: every appointment notified
    as today or upcoming is shown as urgent, and every medicine shown as
    critical is also notified as low on stock. *)
Theorem emergency_mode_spec `{Clock} (user : User.t) :
  Forall (λ a, is_Some (strptime (Appointment.date a))) (User.appointments user) →
  ∃ out notes,
    MediTrackApp.emergency_mode user = Ok out
    ∧ MediTrackApp.check_notifications (Some user) = Ok notes
    ∧ out = [PatientName (User.name user)]
            ++ (if bool_decide (User.emergency_contact user = "") then [NoEmergencyContact]
                else [EmergencyContact (User.emergency_contact user)
                        (User.emergency_phone user)])
            ++ ((λ m, CriticalMedication (Medicine.name m) (Medicine.stock m))
                  <$> filter (λ m, Medicine.stock m ≤ 2) (User.medicines user))
            ++ ((λ a, UrgentAppointment (Appointment.title a) (Appointment.doctor a))
                  <$> filter urgent (User.appointments user))
    ∧ (∀ title doctor,
         NoteToday title doctor ∈ notes → UrgentAppointment title doctor ∈ out)
    ∧ (∀ title doctor days,
         NoteUpcoming title doctor days ∈ notes → UrgentAppointment title doctor ∈ out)
    ∧ (∀ name stock,
         CriticalMedication name stock ∈ out → NoteLowStock name stock ∈ notes).
Proof.
  intros Hdates. eexists _, _.
  split; [by apply emergency_mode_parsed|].
  split; [by apply check_notifications_notes|].
  split; [done|].
  assert (∀ note a,
            a ∈ User.appointments user → note ∈ notes_of a →
            UrgentAppointment (Appointment.title a) (Appointment.doctor a)
            ∈ (λ a, UrgentAppointment (Appointment.title a) (Appointment.doctor a))
                <$> filter urgent (User.appointments user)) as Hurgent.
  { intros note a Ha Hnote.
    apply (list_elem_of_fmap_2
             (λ a, UrgentAppointment (Appointment.title a) (Appointment.doctor a))).
    apply list_elem_of_filter. split; [|done].
    eapply notes_of_urgent; [|done].
    by apply (Forall_forall _ _ ) with (x := a) in Hdates. }
  assert (∀ note,
            note ∈ (User.appointments user ≫= notes_of)
                   ++ low_stock_notes (User.medicines user) →
            (∀ name stock, note ≠ NoteLowStock name stock) →
            ∃ a, a ∈ User.appointments user ∧ note ∈ notes_of a) as Hfrom.
  { intros note [Hnote|Hnote]%elem_of_app Hkind.
    - apply list_elem_of_bind in Hnote as (a & ? & ?). eauto.
    - unfold low_stock_notes in Hnote.
      apply list_elem_of_fmap in Hnote as (m & -> & _).
      by destruct (Hkind (Medicine.name m) (Medicine.stock m)). }
  split; [|split].
  - intros title doctor Hnote.
    destruct (Hfrom _ Hnote) as (a & Ha & Hin); [done|].
    rewrite !elem_of_app. right. right. right.
    destruct (notes_of_urgent a _ (proj1 (Forall_forall _ _) Hdates a Ha) Hin)
      as [_ [[= -> ->]|[days [=]]]].
    by eapply Hurgent.
  - intros title doctor days Hnote.
    destruct (Hfrom _ Hnote) as (a & Ha & Hin); [done|].
    rewrite !elem_of_app. right. right. right.
    destruct (notes_of_urgent a _ (proj1 (Forall_forall _ _) Hdates a Ha) Hin)
      as [_ [[=]|[days' [= -> -> _]]]].
    by eapply Hurgent.
  - intros name stock Hcritical.
    rewrite !elem_of_app in Hcritical.
    destruct Hcritical as [Hc|[Hc|[Hc|Hc]]].
    + by apply list_elem_of_singleton in Hc.
    + case_bool_decide; by apply list_elem_of_singleton in Hc.
    + apply list_elem_of_fmap in Hc as (m & [= -> ->] & [Hlow Hm]%list_elem_of_filter).
      apply elem_of_app. right. unfold low_stock_notes.
      apply (list_elem_of_fmap_2 (λ m, NoteLowStock (Medicine.name m) (Medicine.stock m))).
      apply list_elem_of_filter. split; [lia|done].
    + by apply list_elem_of_fmap in Hc as (a & [=] & _).
Qed.

Lemma stock_status_cases (stock : Z) :
  (MediTrackApp.stock_status stock = Red ↔ stock ≤ 5)
  ∧ (MediTrackApp.stock_status stock = Yellow ↔ 5 < stock ≤ 10)
  ∧ (MediTrackApp.stock_status stock = Green ↔ 10 < stock).
Proof.
  unfold MediTrackApp.stock_status. repeat case_bool_decide; repeat split; try done; lia.
Qed.

(** Counting the lines of one kind in a listing built row by row. *)
Lemma count_rows {A B : Type} (P : B → Prop) (Q : A → Prop)
    `{!∀ b, Decision (P b)} `{!∀ a, Decision (Q a)}
    (rows : nat → A → list B) (l : list A) :
  (∀ i x, length (filter P (rows i x)) = if decide (Q x) then 1%nat else 0%nat) →
  length (filter P (mjoin (imap rows l))) = length (filter Q l).
Proof.
  revert rows. induction l as [|x l IH]; intros rows Hrows; [done|].
  rewrite imap_cons. cbn [mjoin list_join].
  rewrite filter_app, length_app, Hrows, filter_cons, IH by (intros; apply Hrows).
  by destruct (decide (Q x)).
Qed.

(** X12. [view_medicines] says so when there is no medicine; otherwise
    it shows one row per medicine, in list order and numbered from 1,
    coloured green above 10 doses, yellow from 6 to 10 and red at 5 or
    fewer, and the refill warning stands under the red rows and under no
    other.  Red is the low-stock threshold of the notifications: there
    are as many refill warnings as low-stock notifications. *)
Theorem view_medicines_spec (user : User.t) :
  (User.medicines user = [] → MediTrackApp.view_medicines user = [NoMedicinesYet])
  ∧ (User.medicines user ≠ [] →
     MediTrackApp.view_medicines user
     = mjoin (imap (λ i m,
                MedicineRow (S i) (Medicine.name m) (Medicine.dosage m)
                  (Medicine.frequency m) (MediTrackApp.stock_status (Medicine.stock m))
                  (Medicine.stock m)
                :: match MediTrackApp.stock_status (Medicine.stock m) with
                   | Red => [RefillSoon]
                   | _ => []
                   end)
              (User.medicines user)))
  ∧ (∀ stock,
       (MediTrackApp.stock_status stock = Red ↔ stock ≤ 5)
       ∧ (MediTrackApp.stock_status stock = Yellow ↔ 5 < stock ≤ 10)
       ∧ (MediTrackApp.stock_status stock = Green ↔ 10 < stock))
  ∧ length (filter is_refill (MediTrackApp.view_medicines user))
    = length (low_stock_notes (User.medicines user)).
Proof.
  split; [|split; [|split; [exact stock_status_cases|]]].
  - intros Hnone. unfold MediTrackApp.view_medicines. by rewrite bool_decide_eq_true_2.
  - intros Hsome. unfold MediTrackApp.view_medicines.
    rewrite bool_decide_eq_false_2 by done. f_equal. apply imap_ext.
    intros i m _. cbn. f_equal. unfold MediTrackApp.stock_status.
    repeat case_bool_decide; try done; lia.
  - unfold MediTrackApp.view_medicines, low_stock_notes. rewrite length_fmap.
    case_bool_decide as Hmeds; [by rewrite Hmeds|].
    apply (count_rows is_refill (λ m, Medicine.stock m ≤ 5)).
    intros i m. cbn beta. rewrite filter_app, length_app.
    rewrite (filter_cons _ (MedicineRow _ _ _ _ _ _)), decide_False by done.
    case_bool_decide; [by rewrite decide_True|by rewrite decide_False].
Qed.

Section appointment_listing.
Context `{Clock}.
Import MediTrackApp.

Lemma filter_parsed (P : Appointment.t → Prop) `{!∀ a, Decision (P a)}
    (appointments : list Appointment.t) :
  Forall (λ a, is_Some (strptime (Appointment.date a))) appointments →
  Forall (λ a, is_Some (strptime (Appointment.date a))) (filter P appointments).
Proof.
  intros Hdates. apply Forall_forall. intros a [_ Ha]%list_elem_of_filter.
  by apply (proj1 (Forall_forall _ _) Hdates).
Qed.

Lemma view_appointments_parsed (user : User.t) :
  User.appointments user ≠ [] →
  Forall (λ a, is_Some (strptime (Appointment.date a))) (User.appointments user) →
  let upcoming := filter (λ a, 0 ≤ days_of a) (User.appointments user) in
  let past := filter (λ a, days_of a < 0) (User.appointments user) in
  view_appointments user
  = Ok ((if bool_decide (upcoming = []) then []
         else UpcomingHeader :: upcoming_rows upcoming)
        ++ (if bool_decide (past = []) then [] else PastHeader :: past_rows past)).
Proof.
  intros Hsome Hdates upcoming past. unfold view_appointments.
  rewrite bool_decide_eq_false_2 by done.
  assert (select (λ a, days ← Appointment.days_until a; Ok (bool_decide (0 ≤ days)))
                 (User.appointments user) = Ok upcoming) as ->.
  { by apply (select_days_filter (λ _ days, bool_decide (0 ≤ days))
                (λ a, 0 ≤ days_of a)). }
  cbn [mbind result_bind].
  assert (select (λ a, days ← Appointment.days_until a; Ok (bool_decide (days < 0)))
                 (User.appointments user) = Ok past) as ->.
  { by apply (select_days_filter (λ _ days, bool_decide (days < 0))
                (λ a, days_of a < 0)). }
  cbn [mbind result_bind].
  assert (∀ l : list Appointment.t,
            Forall (λ a, is_Some (strptime (Appointment.date a))) l →
            Forall (λ a, is_Some (strptime (Appointment.date a.2))) (imap pair l))
    as Hpairs.
  { intros l Hl. apply Forall_forall. intros [i a] Hin.
    apply list_elem_of_lookup in Hin as [j Hj].
    rewrite list_lookup_imap in Hj.
    destruct (l !! j) as [x|] eqn:Hx; [|done]. injection Hj as <- <-.
    by apply (Forall_lookup_1 _ _ _ _ Hl Hx). }
  rewrite (for_each_ok _
             (λ '(i, a),
                [UpcomingRow (S i) (Appointment.completed a) (Appointment.title a)
                   (Appointment.doctor a) (Appointment.date a) (days_of a)]
                ++ (if bool_decide (Appointment.location a = "") then []
                    else [LocationRow (Appointment.location a)]))).
  2:{ eapply Forall_impl; [apply Hpairs, filter_parsed, Hdates|].
      intros [i a] Ha. cbn in *. by rewrite days_until_days_of. }
  rewrite (for_each_ok _
             (λ '(i, a),
                PastRow (S i) (Appointment.completed a) (Appointment.title a)
                  (Appointment.doctor a) (Appointment.date a) (Z.abs (days_of a)))).
  2:{ eapply Forall_impl; [apply Hpairs, filter_parsed, Hdates|].
      intros [i a] Ha. cbn in *. by rewrite days_until_days_of. }
  unfold upcoming_rows, past_rows. rewrite !fmap_imap.
  by repeat case_bool_decide.
Qed.

Lemma filter_sign (appointments : list Appointment.t) :
  (length (filter (λ a, (0 ≤ days_of a)%Z) appointments)
   + length (filter (λ a, (days_of a < 0)%Z) appointments))%nat
  = length appointments.
Proof.
  induction appointments as [|a l IH]; [done|].
  rewrite !filter_cons.
  destruct (decide (0 ≤ days_of a)), (decide (days_of a < 0)); cbn; lia.
Qed.

Lemma filter_upcoming_incomplete (appointments : list Appointment.t) :
  Forall (λ a, is_Some (strptime (Appointment.date a))) appointments →
  filter upcoming_incomplete appointments
  = filter (λ a, Appointment.completed a = false)
      (filter (λ a, 0 ≤ days_of a) appointments).
Proof.
  induction 1 as [|a l Ha _ IH]; [done|].
  rewrite !filter_cons, IH.
  assert (upcoming_incomplete a
          ↔ 0 ≤ days_of a ∧ Appointment.completed a = false) as Hiff.
  { unfold upcoming_incomplete. rewrite days_until_days_of by done. split.
    - by intros (days & [= <-] & ? & ?).
    - intros [? ?]. by eexists. }
  destruct (decide (upcoming_incomplete a)) as [Hu|Hu];
    destruct (decide (0 ≤ days_of a)) as [Hd|Hd];
    rewrite ?filter_cons;
    destruct (decide (Appointment.completed a = false));
    first [done | exfalso; tauto].
Qed.

End appointment_listing.

(** X13. [view_appointments] of a user who has appointments, all with
    dates that parse, lists every appointment exactly once: those with
    [days_until >= 0] under "upcoming" and the others under "past", each
    list in list order and numbered from 1 on its own, completed
    appointments included.  The list [mark_appointment_completed] numbers
    is the upcoming list without the completed ones, so a number in it
    need not be the number shown here. *)
Theorem view_appointments_spec `{Clock} (user : User.t) :
  User.appointments user ≠ [] →
  Forall (λ a, is_Some (strptime (Appointment.date a))) (User.appointments user) →
  let upcoming := filter (λ a, 0 ≤ days_of a) (User.appointments user) in
  let past := filter (λ a, days_of a < 0) (User.appointments user) in
  MediTrackApp.view_appointments user
  = Ok ((if bool_decide (upcoming = []) then []
         else UpcomingHeader :: upcoming_rows upcoming)
        ++ (if bool_decide (past = []) then [] else PastHeader :: past_rows past))
  ∧ (length upcoming + length past)%nat = length (User.appointments user)
  ∧ filter upcoming_incomplete (User.appointments user)
    = filter (λ a, Appointment.completed a = false) upcoming.
Proof.
  intros Hsome Hdates upcoming past.
  split; [by apply view_appointments_parsed|].
  split; [apply filter_sign|by apply filter_upcoming_incomplete].
Qed.

Section summary_facts.
Context `{Clock}.
Import MediTrackApp.

Lemma select_is_upcoming (appointments : list Appointment.t) :
  Forall (λ a, is_Some (strptime (Appointment.date a))) appointments →
  select is_upcoming appointments = Ok (filter upcoming_incomplete appointments).
Proof.
  intros Hdates. apply select_filter.
  eapply Forall_impl; [done|]. intros a [b Hb]%is_upcoming_parsed. rewrite Hb. f_equal.
  apply eq_true_iff_eq. rewrite bool_decide_eq_true.
  by apply (is_upcoming_incomplete a).
Qed.

Lemma notes_of_length (a : Appointment.t) :
  is_Some (strptime (Appointment.date a)) →
  (length (notes_of a) ≤ if decide (upcoming_incomplete a) then 1 else 0)%nat.
Proof.
  intros Ha. unfold notes_of, appointment_notes.
  rewrite (days_until_days_of a) by done.
  destruct (Appointment.completed a) eqn:Hdone; [cbn; lia|].
  assert (0 ≤ days_of a → upcoming_incomplete a) as Hupcoming.
  { intros Hdays. exists (days_of a). by rewrite (days_until_days_of a). }
  case_bool_decide as Hzero; [|case_bool_decide as Hsoon]; [| |cbn; lia].
  - rewrite decide_True; [done|]. apply Hupcoming. lia.
  - rewrite decide_True; [done|]. apply Hupcoming. lia.
Qed.

Lemma notes_of_count (appointments : list Appointment.t) :
  Forall (λ a, is_Some (strptime (Appointment.date a))) appointments →
  (length (appointments ≫= notes_of) ≤ length (filter upcoming_incomplete appointments))%nat.
Proof.
  induction 1 as [|a l Ha _ IH]; [done|].
  rewrite bind_cons, length_app, filter_cons.
  pose proof (notes_of_length a Ha).
  destruct (decide (upcoming_incomplete a)); cbn [length]; lia.
Qed.

End summary_facts.

(** X14. The weekly summary and the notifications count the same things.
    For a user whose appointment dates parse, the summary opens with the
    doses taken and missed, the number of medicines and the number of
    upcoming incomplete appointments, which is the number of appointments
    [mark_appointment_completed] offers; the notifications about
    appointments never outnumber it; and the low-stock line shows the
    number of low-stock notifications, and is left out when there is
    none. *)
Theorem weekly_summary_counts `{Clock} (user : User.t) :
  Forall (λ a, is_Some (strptime (Appointment.date a))) (User.appointments user) →
  let upcoming := length (filter upcoming_incomplete (User.appointments user)) in
  let low := length (low_stock_notes (User.medicines user)) in
  ∃ summary rest,
    MediTrackApp.view_weekly_summary user = Ok summary
    ∧ MediTrackApp.check_notifications (Some user)
      = Ok ((User.appointments user ≫= notes_of) ++ low_stock_notes (User.medicines user))
    ∧ summary
      = [DosesTaken (sum (Medicine.taken_today <$> User.medicines user));
         DosesMissed (sum (Medicine.missed_today <$> User.medicines user));
         ActiveMedicines (length (User.medicines user));
         UpcomingAppointments upcoming] ++ rest
    ∧ (length (User.appointments user ≫= notes_of) ≤ upcoming)%nat
    ∧ ((0 < low)%nat → LowStockMedicines low ∈ rest)
    ∧ (low = 0%nat → ∀ k, LowStockMedicines k ∉ rest).
Proof.
  intros Hdates upcoming low.
  unfold MediTrackApp.view_weekly_summary.
  rewrite select_is_upcoming by done. cbn [mbind result_bind].
  eexists _, _. split; [reflexivity|].
  split; [by apply check_notifications_notes|].
  split; [reflexivity|].
  split; [by apply notes_of_count|].
  assert (length (filter (λ m, Medicine.stock m ≤ 5) (User.medicines user)) = low)
    as -> by (subst low; unfold low_stock_notes; by rewrite length_fmap).
  split.
  - intros Hlow. rewrite bool_decide_eq_true_2 by done.
    apply elem_of_app. left. by apply list_elem_of_singleton.
  - intros Hlow k. rewrite Hlow.
    rewrite (bool_decide_eq_false_2 (0 < 0)%nat) by lia. cbn [app].
    intros Hin. repeat case_bool_decide;
      repeat (apply elem_of_cons in Hin as [Hin|Hin]; [done|]);
      by apply elem_of_nil in Hin.
Qed.

(** * More of the persistence layer *)

Section store_facts.
Context `{Json}.

Lemma load_data_unreadable (fs : filesystem) :
  fs !! DATABASE_FILE = None
  ∨ (∃ text, fs !! DATABASE_FILE = Some text ∧ json_load text = None) →
  Database.load_data fs = PDict ∅.
Proof.
  unfold Database.load_data. intros [->|(text & -> & ->)]; done.
Qed.

End store_facts.

(** X15. What [save_user] does with the document it finds.  On a
    dictionary whose ['users'] is a dictionary, or absent, it writes the
    document back with the user's record stored under the user's name.
    On a dictionary whose ['users'] is anything else it raises
    [TypeError], on a document that is no dictionary [AttributeError],
    and writes nothing.  A file that is missing or cannot be read counts
    as the empty document: the save replaces it by a document holding
    this one user. *)
Theorem save_user_spec `{Json} (user : User.t) (fs : filesystem) :
  (∀ data users,
     Database.load_data fs = PDict data →
     get data "users" (PDict ∅) = PDict users →
     Database.save_user user fs
     = (<[DATABASE_FILE := json_dump (with_user user data users)]> fs, Ok ()))
  ∧ (∀ data,
       Database.load_data fs = PDict data →
       (∀ users, get data "users" (PDict ∅) ≠ PDict users) →
       Database.save_user user fs = (fs, Raise TypeError))
  ∧ ((∀ data, Database.load_data fs ≠ PDict data) →
     Database.save_user user fs = (fs, Raise AttributeError))
  ∧ (fs !! DATABASE_FILE = None
     ∨ (∃ text, fs !! DATABASE_FILE = Some text ∧ json_load text = None) →
     Database.save_user user fs
     = (<[DATABASE_FILE := json_dump (with_user user ∅ ∅)]> fs, Ok ())).
Proof.
  split; [|split; [|split]].
  - intros data users. apply save_user_ok.
  - intros data Hdata Husers. unfold Database.save_user. rewrite Hdata.
    destruct (get data "users" (PDict ∅)) as [| | | | |users]; try done.
    by destruct (Husers users).
  - intros Hdata. unfold Database.save_user.
    destruct (Database.load_data fs) as [| | | | |data]; try done.
    by destruct (Hdata data).
  - intros Hfile. apply save_user_ok; [by apply load_data_unreadable|done].
Qed.

Lemma saved_user_keeps_others `{Json}
    (user : User.t) (fs : filesystem) (data users : gmap string pyval) :
  Database.load_data fs = PDict data →
  get data "users" (PDict ∅) = PDict users →
  json_load (json_dump (with_user user data users)) = Some (with_user user data users) →
  ∀ other,
    other ≠ User.username user →
    Database.load_user other (Database.save_user user fs).1 = Database.load_user other fs
    ∧ Database.user_exists other (Database.save_user user fs).1
      = Database.user_exists other fs.
Proof.
  intros Hdata Husers Hcodec other Hother.
  rewrite (save_user_ok _ _ _ _ Hdata Husers). cbn [fst].
  unfold Database.load_user, Database.user_exists.
  rewrite (load_data_saved _ _ _ _ Hcodec), Hdata. unfold with_user.
  rewrite !get_insert_eq, Husers. cbn [contains subscript]. unfold getitem.
  by rewrite !lookup_insert_ne by done.
Qed.

(** X16. Saved users can be loaded.  On a store document that is well
    formed, with a codec that reads back the document written, a user
    saved is the user loaded under that name, the name then exists, and
    what the store says of every other name is unchanged. *)
Theorem save_user_load_user `{Json}
    (user : User.t) (fs : filesystem) (data users : gmap string pyval) :
  Database.load_data fs = PDict data →
  get data "users" (PDict ∅) = PDict users →
  json_load (json_dump (with_user user data users)) = Some (with_user user data users) →
  let fs' := (Database.save_user user fs).1 in
  Database.load_user (User.username user) fs' = Ok (Some user)
  ∧ Database.user_exists (User.username user) fs' = Ok true
  ∧ ∀ other,
      other ≠ User.username user →
      Database.load_user other fs' = Database.load_user other fs
      ∧ Database.user_exists other fs' = Database.user_exists other fs.
Proof.
  intros Hdata Husers Hcodec fs'. subst fs'.
  destruct (saved_user_loads user fs data users Hdata Husers Hcodec) as [? ?].
  split; [done|]. split; [done|].
  intros other Hother.
  by apply (saved_user_keeps_others user fs data users).
Qed.

(** X17. What [load_user] and [user_exists] find.  With no file, or a
    file that cannot be read, no user exists.  On a document that is no
    dictionary both raise [AttributeError].  On a store whose ['users'] is
    a dictionary, a name that is not a key is not found, and a name that
    is a key is loaded from its record by [User.from_dict], whose
    exceptions pass through. *)
Theorem load_user_spec `{Json} (username : string) (fs : filesystem) :
  (fs !! DATABASE_FILE = None
   ∨ (∃ text, fs !! DATABASE_FILE = Some text ∧ json_load text = None) →
   Database.load_user username fs = Ok None
   ∧ Database.user_exists username fs = Ok false)
  ∧ ((∀ data, Database.load_data fs ≠ PDict data) →
     Database.load_user username fs = Raise AttributeError
     ∧ Database.user_exists username fs = Raise AttributeError)
  ∧ (∀ data users,
       Database.load_data fs = PDict data →
       get data "users" (PDict ∅) = PDict users →
       (users !! username = None →
        Database.load_user username fs = Ok None
        ∧ Database.user_exists username fs = Ok false)
       ∧ (∀ record,
            users !! username = Some record →
            Database.load_user username fs
            = (user ← expect_dict record ≫= User.from_dict; Ok (Some user))
            ∧ Database.user_exists username fs = Ok true)).
Proof.
  unfold Database.load_user, Database.user_exists. split; [|split].
  - intros Hfile. by rewrite (load_data_unreadable _ Hfile).
  - intros Hdata.
    destruct (Database.load_data fs) as [| | | | |data]; try done.
    by destruct (Hdata data).
  - intros data users -> ->. cbn [contains subscript]. unfold getitem. split.
    + intros ->. by rewrite bool_decide_eq_false_2 by by intros [? ?].
    + intros record ->. by rewrite bool_decide_eq_true_2 by by eexists.
Qed.

(** * Accounts: registration and login *)

Section account_facts.
Context `{Clock} `{Json} `{Text}.

(** The user [register_user] builds from its input. *)
Lemma register_user_run
    (username name password confirm contact phone : string) (fs : filesystem) :
  strip username ≠ "" →
  Database.user_exists (strip username) fs = Ok false →
  strip name ≠ "" → strip password ≠ "" → strip password = strip confirm →
  MediTrackApp.register_user username name password confirm contact phone fs
  = (Database.save_user
       (User.mk (strip username) (strip password) (strip name) [] []
          (strip contact) (strip phone));;
     mret [RegistrationSuccessful (strip name)]) fs.
Proof.
  intros Husername Hfree Hname Hpassword Hconfirm.
  unfold MediTrackApp.register_user.
  rewrite (bool_decide_eq_false_2 (strip username = "")) by done.
  unfold mbind at 1, io_bind at 1, reading at 1. rewrite Hfree.
  rewrite (bool_decide_eq_false_2 (strip name = "")) by done.
  rewrite (bool_decide_eq_false_2 (strip password = "")) by done.
  by rewrite (bool_decide_eq_false_2 (strip password ≠ strip confirm)) by auto.
Qed.

(** Registration writes nothing, or saves a user under a name the store
    did not have. *)
Lemma register_user_writes
    (username name password confirm contact phone : string) (fs : filesystem) :
  (MediTrackApp.register_user username name password confirm contact phone fs).1 = fs
  ∨ Database.user_exists (strip username) fs = Ok false
    ∧ (MediTrackApp.register_user username name password confirm contact phone fs).1
      = (Database.save_user
           (User.mk (strip username) (strip password) (strip name) [] []
              (strip contact) (strip phone)) fs).1.
Proof.
  destruct (decide (strip username = "")) as [Husername|Husername].
  { left. unfold MediTrackApp.register_user. by rewrite bool_decide_eq_true_2. }
  destruct (Database.user_exists (strip username) fs) as [[|]|e] eqn:Hexists.
  - left. unfold MediTrackApp.register_user.
    rewrite bool_decide_eq_false_2 by done.
    unfold mbind, io_bind, reading. by rewrite Hexists.
  - destruct (decide (strip name = "")) as [Hname|Hname].
    { left. unfold MediTrackApp.register_user.
      rewrite bool_decide_eq_false_2 by done.
      unfold mbind at 1, io_bind at 1, reading at 1. rewrite Hexists.
      by rewrite bool_decide_eq_true_2. }
    destruct (decide (strip password = "")) as [Hpassword|Hpassword].
    { left. unfold MediTrackApp.register_user.
      rewrite bool_decide_eq_false_2 by done.
      unfold mbind at 1, io_bind at 1, reading at 1. rewrite Hexists.
      rewrite (bool_decide_eq_false_2 (strip name = "")) by done.
      by rewrite bool_decide_eq_true_2. }
    destruct (decide (strip password = strip confirm)) as [Hconfirm|Hconfirm].
    + right. split; [done|].
      rewrite register_user_run by done.
      unfold mbind, io_bind, mret, io_ret.
      by destruct (Database.save_user _ fs) as [fs1 [[]|e]].
    + left. unfold MediTrackApp.register_user.
      rewrite bool_decide_eq_false_2 by done.
      unfold mbind at 1, io_bind at 1, reading at 1. rewrite Hexists.
      rewrite (bool_decide_eq_false_2 (strip name = "")) by done.
      rewrite (bool_decide_eq_false_2 (strip password = "")) by done.
      by rewrite bool_decide_eq_true_2.
  - left. unfold MediTrackApp.register_user.
    rewrite bool_decide_eq_false_2 by done.
    unfold mbind, io_bind, reading. by rewrite Hexists.
Qed.

End account_facts.

(** X18. [register_user] checks its input in the order of the prompts: an
    empty username, a username that exists, an empty name, an empty
    password, a confirmation that differs.  Each refusal prints its
    message and writes nothing; an exception of the lookup passes
    through.  Otherwise the user saved has the stripped input, no
    medicines and no appointments. *)
Theorem register_user_spec `{Clock} `{Json} `{Text}
    (username name password confirm contact phone : string) (fs : filesystem) :
  let run := MediTrackApp.register_user username name password confirm contact phone fs in
  (strip username = "" → run = (fs, Ok [UsernameEmpty]))
  ∧ (strip username ≠ "" →
     (∀ e, Database.user_exists (strip username) fs = Raise e → run = (fs, Raise e))
     ∧ (Database.user_exists (strip username) fs = Ok true →
        run = (fs, Ok [UsernameExists]))
     ∧ (Database.user_exists (strip username) fs = Ok false →
        (strip name = "" → run = (fs, Ok [NameEmpty]))
        ∧ (strip name ≠ "" → strip password = "" → run = (fs, Ok [NewPasswordEmpty]))
        ∧ (strip name ≠ "" → strip password ≠ "" → strip password ≠ strip confirm →
           run = (fs, Ok [NewPasswordMismatch]))
        ∧ (strip name ≠ "" → strip password ≠ "" → strip password = strip confirm →
           run = (Database.save_user
                    (User.mk (strip username) (strip password) (strip name) [] []
                       (strip contact) (strip phone));;
                  mret [RegistrationSuccessful (strip name)]) fs))).
Proof.
  cbn zeta. split.
  { intros Husername. unfold MediTrackApp.register_user.
    by rewrite bool_decide_eq_true_2. }
  intros Husername. split; [|split].
  - intros e Hexists. unfold MediTrackApp.register_user.
    rewrite bool_decide_eq_false_2 by done.
    unfold mbind, io_bind, reading. by rewrite Hexists.
  - intros Hexists. unfold MediTrackApp.register_user.
    rewrite bool_decide_eq_false_2 by done.
    unfold mbind, io_bind, reading. by rewrite Hexists.
  - intros Hexists. split; [|split; [|split]].
    + intros Hname. unfold MediTrackApp.register_user.
      rewrite bool_decide_eq_false_2 by done.
      unfold mbind at 1, io_bind at 1, reading at 1. rewrite Hexists.
      by rewrite bool_decide_eq_true_2.
    + intros Hname Hpassword. unfold MediTrackApp.register_user.
      rewrite bool_decide_eq_false_2 by done.
      unfold mbind at 1, io_bind at 1, reading at 1. rewrite Hexists.
      rewrite (bool_decide_eq_false_2 (strip name = "")) by done.
      by rewrite bool_decide_eq_true_2.
    + intros Hname Hpassword Hconfirm. unfold MediTrackApp.register_user.
      rewrite bool_decide_eq_false_2 by done.
      unfold mbind at 1, io_bind at 1, reading at 1. rewrite Hexists.
      rewrite (bool_decide_eq_false_2 (strip name = "")) by done.
      rewrite (bool_decide_eq_false_2 (strip password = "")) by done.
      by rewrite bool_decide_eq_true_2.
    + intros Hname Hpassword Hconfirm. by apply register_user_run.
Qed.

(** X19. Registration never touches an account that exists.  On a well
    formed store, with a codec that reads back the document written,
    every name the store had before loads after [register_user] what it
    loaded before, whatever was typed. *)
Theorem register_user_keeps_accounts `{Clock} `{Json} `{Text}
    (username name password confirm contact phone : string)
    (fs : filesystem) (data users : gmap string pyval) :
  Database.load_data fs = PDict data →
  get data "users" (PDict ∅) = PDict users →
  (let user := User.mk (strip username) (strip password) (strip name) [] []
                 (strip contact) (strip phone) in
   json_load (json_dump (with_user user data users)) = Some (with_user user data users)) →
  let fs' := (MediTrackApp.register_user username name password confirm contact phone fs).1 in
  ∀ other,
    is_Some (users !! other) →
    Database.load_user other fs' = Database.load_user other fs
    ∧ Database.user_exists other fs' = Ok true.
Proof.
  intros Hdata Husers Hcodec fs' other Hother. subst fs'.
  assert (Database.user_exists other fs = Ok true) as Hexists.
  { unfold Database.user_exists. rewrite Hdata, Husers. cbn.
    by rewrite bool_decide_eq_true_2. }
  destruct (register_user_writes username name password confirm contact phone fs)
    as [->|[Hfree ->]]; [done|].
  assert (other ≠ strip username) as Hne by (intros ->; congruence).
  destruct (saved_user_keeps_others _ fs data users Hdata Husers Hcodec other Hne)
    as [-> ->].
  done.
Qed.

(** X20. A registered user can log in.  After a registration that
    succeeds on a well formed store, with a codec that reads back the
    document written, a login under the same name with the same password
    makes the registered user the current one, with no notification; a
    login with another password is refused and keeps the current user;
    and a second registration under the name is refused and writes
    nothing. *)
Theorem register_then_login `{Clock} `{Json} `{Text}
    (username name password confirm contact phone : string)
    (fs : filesystem) (data users : gmap string pyval) :
  Database.load_data fs = PDict data →
  get data "users" (PDict ∅) = PDict users →
  users !! strip username = None →
  strip username ≠ "" → strip name ≠ "" → strip password ≠ "" →
  strip password = strip confirm →
  let user := User.mk (strip username) (strip password) (strip name) [] []
                (strip contact) (strip phone) in
  json_load (json_dump (with_user user data users)) = Some (with_user user data users) →
  let run := MediTrackApp.register_user username name password confirm contact phone fs in
  run.2 = Ok [RegistrationSuccessful (strip name)]
  ∧ (∀ typed current,
       strip typed = strip password →
       MediTrackApp.login_user username typed current run.1
       = (run.1, Ok (Some user, [WelcomeBack (strip name)])))
  ∧ (∀ typed current,
       strip typed ≠ strip password →
       MediTrackApp.login_user username typed current run.1
       = (run.1, Ok (current, [InvalidLogin])))
  ∧ (∀ name' password' confirm' contact' phone',
       MediTrackApp.register_user username name' password' confirm' contact' phone' run.1
       = (run.1, Ok [UsernameExists])).
Proof.
  intros Hdata Husers Hfresh Husername Hname Hpassword Hconfirm user Hcodec run.
  assert (Database.user_exists (strip username) fs = Ok false) as Hfree.
  { unfold Database.user_exists. rewrite Hdata, Husers. cbn.
    rewrite bool_decide_eq_false_2; [done|]. rewrite Hfresh. by intros [? ?]. }
  assert (run = (<[DATABASE_FILE := json_dump (with_user user data users)]> fs,
                 Ok [RegistrationSuccessful (strip name)])) as ->.
  { subst run. rewrite register_user_run by done.
    unfold mbind, io_bind, mret, io_ret. fold user.
    by rewrite (save_user_ok user fs data users Hdata Husers). }
  cbn [fst snd].
  set (fs' := <[DATABASE_FILE := _]> fs).
  destruct (saved_user_loads user fs data users Hdata Husers Hcodec)
    as [Hload Hexists].
  rewrite (save_user_ok user fs data users Hdata Husers) in Hload, Hexists.
  cbn [fst] in Hload, Hexists. fold fs' in Hload, Hexists.
  change (User.username user) with (strip username) in Hload, Hexists.
  split; [done|]. split; [|split].
  - intros typed current Htyped. unfold MediTrackApp.login_user.
    unfold mbind at 1, io_bind at 1, reading at 1. rewrite Hload.
    rewrite bool_decide_eq_true_2 by done. done.
  - intros typed current Htyped. unfold MediTrackApp.login_user.
    unfold mbind at 1, io_bind at 1, reading at 1. rewrite Hload.
    rewrite bool_decide_eq_false_2; [done|]. cbn. congruence.
  - intros name' password' confirm' contact' phone'.
    unfold MediTrackApp.register_user.
    rewrite bool_decide_eq_false_2 by done.
    unfold mbind, io_bind, reading. by rewrite Hexists.
Qed.

(** X21. [login_user] only reads: the file system after a login is the one
    before, whatever happens.  A name that is not in the store and a
    password that does not match get the same answer, and the current
    user stays.  A match makes the stored user the current one and shows
    the notifications of [check_notifications] for that user.  An
    exception of the load or of the notifications passes through. *)
Theorem login_user_spec `{Clock} `{Json} `{Text}
    (username password : string) (current : option User.t) (fs : filesystem) :
  let run := MediTrackApp.login_user username password current fs in
  run.1 = fs
  ∧ (Database.load_user (strip username) fs = Ok None →
     run = (fs, Ok (current, [InvalidLogin])))
  ∧ (∀ e, Database.load_user (strip username) fs = Raise e → run = (fs, Raise e))
  ∧ (∀ user,
       Database.load_user (strip username) fs = Ok (Some user) →
       (User.password user ≠ strip password → run = (fs, Ok (current, [InvalidLogin])))
       ∧ (User.password user = strip password →
          (∀ notes,
             MediTrackApp.check_notifications (Some user) = Ok notes →
             run = (fs, Ok (Some user,
                            WelcomeBack (User.name user) :: (Notification <$> notes))))
          ∧ (∀ e,
               MediTrackApp.check_notifications (Some user) = Raise e →
               run = (fs, Raise e)))).
Proof.
  cbn zeta.
  assert (MediTrackApp.login_user username password current fs
          = (fs, match Database.load_user (strip username) fs with
                 | Ok (Some user) =>
                     if bool_decide (User.password user = strip password) then
                       match MediTrackApp.check_notifications (Some user) with
                       | Ok notes =>
                           Ok (Some user,
                               WelcomeBack (User.name user) :: (Notification <$> notes))
                       | Raise e => Raise e
                       end
                     else Ok (current, [InvalidLogin])
                 | Ok None => Ok (current, [InvalidLogin])
                 | Raise e => Raise e
                 end)) as ->.
  { unfold MediTrackApp.login_user, mbind, io_bind, mret, io_ret, reading, pure.
    destruct (Database.load_user (strip username) fs) as [[user|]|e]; [|done..].
    case_bool_decide; [|done].
    by destruct (MediTrackApp.check_notifications (Some user)). }
  split; [done|]. split; [by intros ->|]. split; [by intros e ->|].
  intros user ->. split.
  - intros Hpassword. by rewrite bool_decide_eq_false_2.
  - intros Hpassword. rewrite bool_decide_eq_true_2 by done. split.
    + by intros notes ->.
    + by intros e ->.
Qed.

(** * Records that lack a key *)

(** One key that a successful [from_dict] has read by subscript. *)
Ltac read_key Hread data key :=
  destruct (data !! key) as [[]|] eqn:?; cbn in Hread; try discriminate Hread.

Ltac key_cases Hkey :=
  rewrite ?elem_of_cons, elem_of_nil in Hkey;
  repeat (destruct Hkey as [->|Hkey]; [by eexists|]); destruct Hkey.

Ltac strings_before Hbefore :=
  cbn in Hbefore;
  repeat (let s := fresh "s" in let Hs := fresh "Hs" in
          apply Forall_cons in Hbefore as [[s Hs] Hbefore]; rewrite Hs).

(** X22. The keys a stored record must have.  [from_dict] returns an
    appointment only from a record with the keys title, doctor, date and
    time, a medicine only from one with name, dosage, frequency,
    start_date, end_date and stock, a user only from one with username,
    password and name.  A record that lacks one of them, the keys before
    it holding strings, raises [KeyError] for the first key that is
    missing. *)
Theorem from_dict_missing_key (data : gmap string pyval) :
  (∀ a k, Appointment.from_dict data = Ok a → k ∈ appointment_keys → is_Some (data !! k))
  ∧ (∀ m k, Medicine.from_dict data = Ok m → k ∈ medicine_keys → is_Some (data !! k))
  ∧ (∀ u k, User.from_dict data = Ok u → k ∈ user_keys → is_Some (data !! k))
  ∧ (∀ i k,
       data !! k = None →
       (appointment_keys !! i = Some k →
        Forall (λ k', ∃ s, data !! k' = Some (PStr s)) (take i appointment_keys) →
        Appointment.from_dict data = Raise (KeyError k))
       ∧ (medicine_keys !! i = Some k →
          Forall (λ k', ∃ s, data !! k' = Some (PStr s)) (take i medicine_keys) →
          Medicine.from_dict data = Raise (KeyError k))
       ∧ (user_keys !! i = Some k →
          Forall (λ k', ∃ s, data !! k' = Some (PStr s)) (take i user_keys) →
          User.from_dict data = Raise (KeyError k))).
Proof.
  split; [|split; [|split]].
  - intros a k Hread Hkey. unfold Appointment.from_dict, getitem in Hread.
    unfold appointment_keys in Hkey.
    read_key Hread data "title". read_key Hread data "doctor".
    read_key Hread data "date". read_key Hread data "time".
    key_cases Hkey.
  - intros m k Hread Hkey. unfold Medicine.from_dict, getitem in Hread.
    unfold medicine_keys in Hkey.
    read_key Hread data "name". read_key Hread data "dosage".
    read_key Hread data "frequency". read_key Hread data "start_date".
    read_key Hread data "end_date". read_key Hread data "stock".
    key_cases Hkey.
  - intros u k Hread Hkey. unfold User.from_dict, getitem in Hread.
    unfold user_keys in Hkey.
    read_key Hread data "username". read_key Hread data "password".
    read_key Hread data "name".
    key_cases Hkey.
  - intros i k Hnone. split; [|split].
    + intros Hkey Hbefore. unfold Appointment.from_dict, getitem.
      do 4 (destruct i as [|i];
            [injection Hkey as <-; strings_before Hbefore; by rewrite Hnone|]).
      done.
    + intros Hkey Hbefore. unfold Medicine.from_dict, getitem.
      do 6 (destruct i as [|i];
            [injection Hkey as <-; strings_before Hbefore; by rewrite Hnone|]).
      done.
    + intros Hkey Hbefore. unfold User.from_dict, getitem.
      do 3 (destruct i as [|i];
            [injection Hkey as <-; strings_before Hbefore; by rewrite Hnone|]).
      done.
Qed.

(** * Memory and store *)

(** X23. What is in memory is in the store.  On a well formed store, with
    a codec that reads back the document written, a menu choice that
    returns leaves in the store the user it leaves in memory: if the user
    was the stored one before the choice, loading the name afterwards
    gives the user in memory. *)
Theorem operation_is_durable `{Clock} `{Json} `{Text}
    (c : MediTrackApp.choice) (user user' : User.t) (out : list line)
    (fs fs' : filesystem) (data users : gmap string pyval) :
  Database.load_data fs = PDict data →
  get data "users" (PDict ∅) = PDict users →
  json_load (json_dump (with_user user' data users)) = Some (with_user user' data users) →
  Database.load_user (User.username user) fs = Ok (Some user) →
  MediTrackApp.dispatch c user fs = (fs', Ok (user', out)) →
  Database.load_user (User.username user') fs' = Ok (Some user').
Proof.
  intros Hdata Husers Hcodec Hstored Hrun.
  destruct (dispatch_ok_saved _ _ _ _ _ _ Hrun) as [[-> ->]|Hsaved]; [done|].
  destruct (saved_user_loads user' fs data users Hdata Husers Hcodec)
    as [Hload _].
  by rewrite Hsaved in Hload.
Qed.

(** X24. A changed password is the one that logs in.  After
    [change_password] has succeeded on a well formed store, with a codec
    that reads back the document written, a login under the user's name
    is accepted with the new password, and with it only: any other
    password, the old one included, is refused. *)
Theorem change_password_then_login `{Clock} `{Json} `{Text}
    (current new_password confirm : string) (user : User.t)
    (fs : filesystem) (data users : gmap string pyval) :
  Database.load_data fs = PDict data →
  get data "users" (PDict ∅) = PDict users →
  strip current = User.password user →
  strip new_password ≠ "" →
  strip new_password = strip confirm →
  let user' := User.set_password (strip new_password) user in
  json_load (json_dump (with_user user' data users)) = Some (with_user user' data users) →
  let run := MediTrackApp.change_password current new_password confirm user fs in
  run.2 = Ok (user', [PasswordChanged])
  ∧ ∀ username typed logged,
      strip username = User.username user →
      (strip typed ≠ strip new_password →
       MediTrackApp.login_user username typed logged run.1
       = (run.1, Ok (logged, [InvalidLogin])))
      ∧ (strip typed = strip new_password →
         ∀ notes,
           MediTrackApp.check_notifications (Some user') = Ok notes →
           MediTrackApp.login_user username typed logged run.1
           = (run.1, Ok (Some user',
                         WelcomeBack (User.name user) :: (Notification <$> notes)))).
Proof.
  intros Hdata Husers Hcurrent Hnew Hconfirm user' Hcodec run.
  assert (run = (<[DATABASE_FILE := json_dump (with_user user' data users)]> fs,
                 Ok (user', [PasswordChanged]))) as ->.
  { subst run. unfold MediTrackApp.change_password.
    rewrite (bool_decide_eq_false_2 (strip current ≠ _)) by auto.
    rewrite (bool_decide_eq_false_2 (strip new_password = _)) by auto.
    rewrite bool_decide_eq_false_2 by auto.
    unfold mbind, io_bind, mret, io_ret. fold user'.
    by rewrite (save_user_ok user' fs data users Hdata Husers). }
  cbn [fst snd]. split; [done|].
  destruct (saved_user_loads user' fs data users Hdata Husers Hcodec)
    as [Hload _].
  rewrite (save_user_ok user' fs data users Hdata Husers) in Hload. cbn [fst] in Hload.
  change (User.username user') with (User.username user) in Hload.
  intros username typed logged Husername.
  unfold MediTrackApp.login_user, mbind, io_bind, mret, io_ret, reading, pure.
  rewrite Husername, Hload. split.
  - intros Htyped. rewrite bool_decide_eq_false_2; [done|]. cbn. congruence.
  - intros Htyped notes Hnotes.
    rewrite bool_decide_eq_true_2 by (cbn; congruence). by rewrite Hnotes.
Qed.

(** * The theorems at work

    The examples run on ASCII text and the calendar of 2024-03-10.  They
    start from an empty file system, or from a store written in the
    compact notation where something is read back. *)

Section examples.
#[local] Existing Instance example_clock.
#[local] Existing Instance example_json.
#[local] Existing Instance example_text.

Ltac parsed_dates :=
  repeat (apply Forall_cons_2; [eexists; vm_compute; reflexivity|]);
  apply Forall_nil_2.

Lemma stock_never_negative_witness :
  let run :=
    @MediTrackApp.main_menu example_clock example_json example_text dose_session alice ∅ in
  run = (run.1, Ok (alice_after_doses, dose_session_lines))
  ∧ Forall stock_line_ok dose_session
  ∧ Forall (λ m, 0 ≤ Medicine.stock m) (User.medicines alice)
  ∧ Forall (λ m, 0 ≤ Medicine.stock m) (User.medicines alice_after_doses)
  ∧ (strip "3" ≠ "" ∧ int (strip "3") = Ok 3 ∧ initial_stock "3" = 3)
  ∧ (int (str_or (strip "a few") "30") = Raise ValueError ∧ initial_stock "a few" = 30).
Proof.
  intros run.
  assert (run = (run.1, Ok (alice_after_doses, dose_session_lines))) as Hrun
    by (vm_compute; reflexivity).
  assert (Forall stock_line_ok dose_session) as Hlines
    by (repeat constructor; vm_compute; discriminate).
  assert (strip "3" ≠ "") as Hthree by (vm_compute; discriminate).
  pose proof (@stock_never_negative example_clock example_json example_text)
    as (_ & _ & Hsession & Hline).
  split; [exact Hrun|]. split; [exact Hlines|]. split; [constructor|].
  split; [|split].
  - exact (proj2 (Hsession dose_session alice ∅ run.1 alice_after_doses
                    dose_session_lines Hrun)
             Hlines (Forall_nil_2 _)).
  - split; [exact Hthree|]. split; [reflexivity|].
    exact (proj2 (proj2 (Hline "3")) 3 Hthree eq_refl).
  - split; [reflexivity|].
    exact (proj1 (proj2 (Hline "a few")) ValueError eq_refl).
Defined.

Lemma completed_never_reset_witness :
  let run :=
    @MediTrackApp.main_menu example_clock example_json example_text
          visit_session alice_with_visits ∅ in
  run = (run.1, Ok (alice_after_visits, visit_session_lines))
  ∧ User.appointments alice_with_visits !! 0%nat
    = Some (Appointment.set_completed true (checkup "2024-03-10"))
  ∧ User.appointments alice_after_visits !! 0%nat
    = Some (Appointment.set_completed true (checkup "2024-03-10")).
Proof.
  intros run.
  assert (run = (run.1, Ok (alice_after_visits, visit_session_lines))) as Hrun
    by (vm_compute; reflexivity).
  split; [exact Hrun|]. split; [reflexivity|].
  exact (proj1 (@completed_never_reset example_clock example_json example_text)
           visit_session alice_with_visits ∅ run.1 alice_after_visits visit_session_lines
           0%nat (Appointment.set_completed true (checkup "2024-03-10"))
           Hrun eq_refl eq_refl).
Defined.

Lemma missed_today_never_incremented_witness :
  let run := @MediTrackApp.main_menu example_clock example_json example_text dose_session alice ∅ in
  run = (run.1, Ok (alice_after_doses, dose_session_lines))
  ∧ Forall (λ m, Medicine.missed_today m = 0) (User.medicines alice)
  ∧ rates dose_session_lines = [MediTrackApp.adherence 1 1]
  ∧ Forall (λ rate, (rate == 100)%Q) (rates dose_session_lines).
Proof.
  intros run.
  assert (run = (run.1, Ok (alice_after_doses, dose_session_lines))) as Hrun
    by (vm_compute; reflexivity).
  split; [exact Hrun|]. split; [constructor|]. split; [reflexivity|].
  exact (proj2 (proj2 (proj1 (@missed_today_never_incremented example_clock example_json example_text)
                         dose_session alice ∅ run.1 alice_after_doses dose_session_lines
                         Hrun))
           (Forall_nil_2 _)).
Defined.

Lemma mark_appointment_completed_spec_witness :
  let fs := store [bob; alice_with_visits] in
  let appointments := User.appointments alice_with_visits in
  let upcoming := filter upcoming_incomplete appointments in
  let dentist := Appointment.init "Dentist" "Jones" "2024-03-12" "09:30" "Main Street" in
  let completed := Appointment.mk "Dentist" "Jones" "2024-03-12" "09:30" "Main Street" true in
  let user' :=
    User.mk "alice" "pw1" "Alice A" []
      [Appointment.set_completed true (checkup "2024-03-10");
       completed;
       Appointment.init "Eye test" "Lee" "2024-03-03" "10:00" ""]
      "" "" in
  Forall (λ a, is_Some (strptime (Appointment.date a))) appointments
  ∧ int (strip " 1 ") = Ok 1
  ∧ 1 ≤ 1 ≤ Z.of_nat (length upcoming)
  ∧ @Database.load_data compact_json fs = PDict (store_data [bob; alice_with_visits])
  ∧ upcoming !! Z.to_nat (1 - 1) = Some dentist
  ∧ appointments !! 1%nat = Some dentist
  ∧ @MediTrackApp.mark_appointment_completed example_clock compact_json example_text
      " 1 " alice_with_visits fs
    = (store [bob; user'], Ok (user', [MarkedCompleted "Dentist"]))
  ∧ @Database.load_user compact_json "alice"
      (@MediTrackApp.mark_appointment_completed example_clock compact_json example_text
         " 1 " alice_with_visits fs).1
    = Ok (Some user').
Proof.
  intros fs appointments upcoming dentist completed user'.
  assert (Forall (λ a, is_Some (strptime (Appointment.date a))) appointments)
    as Hdates by parsed_dates.
  assert (1 ≤ 1 ≤ Z.of_nat (length upcoming)) as Hrange
    by (split; vm_compute; discriminate).
  assert (@Database.load_data compact_json fs
          = PDict (store_data [bob; alice_with_visits])) as Hdata
    by (vm_compute; reflexivity).
  assert (json_load (Json := compact_json)
            (json_dump (Json := compact_json)
               (with_user user' (store_data [bob; alice_with_visits])
                  (store_users [bob; alice_with_visits])))
          = Some (with_user user' (store_data [bob; alice_with_visits])
                    (store_users [bob; alice_with_visits]))) as Hcodec
    by (vm_compute; reflexivity).
  destruct (proj1 (@mark_appointment_completed_spec example_clock compact_json
                     example_text " 1 " alice_with_visits fs Hdates)
              1 eq_refl Hrange)
    as (i & appointment & Hupcoming & Hi & _ & Hspec).
  assert (appointment = dentist) as ->
    by (vm_compute in Hupcoming; by injection Hupcoming as <-).
  assert (i = 1%nat) as ->
    by (destruct i as [|[|[|i]]]; vm_compute in Hi; (discriminate Hi || reflexivity)).
  cbn zeta in Hspec. destruct Hspec as (_ & _ & _ & Hstore).
  destruct (Hstore (store_data [bob; alice_with_visits])
              (store_users [bob; alice_with_visits]) Hdata eq_refl)
    as [Hsaved Hread].
  split; [exact Hdates|]. split; [reflexivity|]. split; [exact Hrange|].
  split; [exact Hdata|]. split; [vm_compute; reflexivity|]. split; [reflexivity|].
  split.
  - rewrite Hsaved. vm_compute. reflexivity.
  - exact (Hread Hcodec).
Defined.

Lemma mark_medicine_taken_spec_witness :
  let fs := store [bob; alice_with_medicines] in
  let user' :=
    User.mk "alice" "pw1" "Alice A"
      [Medicine.mk "Aspirin" "100mg" "Twice daily" "2024-03-10" "2024-04-09" 2 1 0;
       Medicine.init "Vitamin D" "10ug" "Once daily" "2024-03-10" "2024-04-09" 30]
      [] "" "" in
  let run :=
    @MediTrackApp.mark_medicine_taken compact_json example_text "1"
      alice_with_medicines fs in
  int (strip "1") = Ok 1
  ∧ 1 ≤ 1 ≤ Z.of_nat (length (User.medicines alice_with_medicines))
  ∧ User.medicines alice_with_medicines !! Z.to_nat (1 - 1) = Some (aspirin 3)
  ∧ 0 < Medicine.stock (aspirin 3)
  ∧ @Database.load_data compact_json fs = PDict (store_data [bob; alice_with_medicines])
  ∧ run = (store [bob; user'],
           Ok (user', [MarkedTaken "Aspirin"; RemainingStock 2; LowStockRefill]))
  ∧ @Database.load_user compact_json "alice" run.1 = Ok (Some user')
  ∧ (Medicine.stock (aspirin 0) ≤ 0
     ∧ @MediTrackApp.mark_medicine_taken compact_json example_text "1"
         (User.set_medicines [aspirin 0] alice) fs
       = (fs, Ok (User.set_medicines [aspirin 0] alice, [OutOfStock]))).
Proof.
  intros fs user' run.
  assert (1 ≤ 1 ≤ Z.of_nat (length (User.medicines alice_with_medicines))) as Hrange
    by (split; vm_compute; discriminate).
  assert (1 ≤ 1 ≤ Z.of_nat (length (User.medicines (User.set_medicines [aspirin 0] alice))))
    as Hone by (split; vm_compute; discriminate).
  assert (Medicine.stock (aspirin 0) ≤ 0) as Hempty by (vm_compute; discriminate).
  assert (@Database.load_data compact_json fs
          = PDict (store_data [bob; alice_with_medicines])) as Hdata
    by (vm_compute; reflexivity).
  assert (json_load (Json := compact_json)
            (json_dump (Json := compact_json)
               (with_user user' (store_data [bob; alice_with_medicines])
                  (store_users [bob; alice_with_medicines])))
          = Some (with_user user' (store_data [bob; alice_with_medicines])
                    (store_users [bob; alice_with_medicines]))) as Hcodec
    by (vm_compute; reflexivity).
  destruct (proj2 (@mark_medicine_taken_spec compact_json example_text "1"
                     alice_with_medicines fs 1 (aspirin 3) eq_refl Hrange eq_refl)
              eq_refl)
    as (out & _ & _ & _ & _ & Hout & _ & Hstore).
  destruct (Hstore (store_data [bob; alice_with_medicines])
              (store_users [bob; alice_with_medicines]) Hdata eq_refl)
    as [Hsaved Hread].
  split; [reflexivity|]. split; [exact Hrange|]. split; [reflexivity|].
  split; [reflexivity|]. split; [exact Hdata|].
  split; [|split].
  - subst run. rewrite Hsaved, Hout. vm_compute. reflexivity.
  - exact (Hread Hcodec).
  - split; [exact Hempty|].
    exact (proj1 (@mark_medicine_taken_spec compact_json example_text "1"
                    (User.set_medicines [aspirin 0] alice) fs 1 (aspirin 0)
                    eq_refl Hone eq_refl)
             Hempty).
Defined.


Lemma check_notifications_spec_witness :
  Forall (λ a, is_Some (Calendar.parse (Appointment.date a)))
         (User.appointments alice_with_visits)
  ∧ @MediTrackApp.check_notifications example_clock (Some alice_with_visits)
    = Ok [NoteUpcoming "Dentist" "Jones" 2]
  ∧ ∃ appointment_part medicine_part,
      @MediTrackApp.check_notifications example_clock (Some alice_with_visits)
      = Ok (appointment_part ++ medicine_part)
      ∧ appointment_part = (User.appointments alice_with_visits ≫= @notes_of example_clock)
      ∧ medicine_part = low_stock_notes (User.medicines alice_with_visits).
Proof.
  assert (Forall (λ a, is_Some (Calendar.parse (Appointment.date a)))
                 (User.appointments alice_with_visits)) as Hdates by parsed_dates.
  split; [exact Hdates|]. split; [vm_compute; reflexivity|].
  destruct (@check_notifications_spec example_clock alice_with_visits Hdates)
    as (appointment_part & medicine_part & Hrun & Ha & Hm & _).
  by exists appointment_part, medicine_part.
Defined.
Lemma session_counts_every_dose_witness :
  let run := MediTrackApp.main_menu [MediTrackApp.MarkMedicineTaken "1";
                                     MediTrackApp.MarkMedicineTaken "1"]
               alice_with_medicines ∅ in
  ∃ user' out,
    run = (run.1, Ok (user', out))
    ∧ User.medicines alice_with_medicines !! 0%nat = Some (aspirin 3)
    ∧ ∃ m', User.medicines user' !! 0%nat = Some m'
            ∧ same_medicine (aspirin 3) m'
            ∧ Medicine.stock m' + Medicine.taken_today m' = 3 + 0
            ∧ 0 ≤ Medicine.taken_today m'.
Proof.
  intros run.
  exists (User.set_medicines
            (<[0%nat := take_doses 2 (aspirin 3)]> (User.medicines alice_with_medicines))
            alice_with_medicines),
         [MarkedTaken "Aspirin"; RemainingStock 2; LowStockRefill;
          MarkedTaken "Aspirin"; RemainingStock 1; LowStockRefill].
  assert (run = (run.1,
                 Ok (User.set_medicines
                       (<[0%nat := take_doses 2 (aspirin 3)]>
                          (User.medicines alice_with_medicines))
                       alice_with_medicines,
                     [MarkedTaken "Aspirin"; RemainingStock 2; LowStockRefill;
                      MarkedTaken "Aspirin"; RemainingStock 1; LowStockRefill])))
    as Hrun by (vm_compute; reflexivity).
  split; [exact Hrun|]. split; [reflexivity|].
  exact (session_counts_every_dose _ _ _ _ _ _ 0%nat (aspirin 3) Hrun eq_refl).
Defined.


Lemma session_never_deletes_witness :
  let run :=
    @MediTrackApp.main_menu example_clock example_json example_text
          visit_session alice_with_visits ∅ in
  run = (run.1, Ok (alice_after_visits, visit_session_lines))
  ∧ User.username alice_after_visits = "alice"
  ∧ (length (User.appointments alice_with_visits)
     ≤ length (User.appointments alice_after_visits))%nat
  ∧ User.appointments alice_with_visits !! 1%nat
    = Some (Appointment.init "Dentist" "Jones" "2024-03-12" "09:30" "Main Street")
  ∧ ∃ a', User.appointments alice_after_visits !! 1%nat = Some a'
          ∧ (a' = Appointment.init "Dentist" "Jones" "2024-03-12" "09:30" "Main Street"
             ∨ a' = Appointment.set_completed true
                      (Appointment.init "Dentist" "Jones" "2024-03-12" "09:30"
                         "Main Street")).
Proof.
  intros run.
  assert (run = (run.1, Ok (alice_after_visits, visit_session_lines))) as Hrun
    by (vm_compute; reflexivity).
  destruct (@session_never_deletes example_clock example_json example_text visit_session
              alice_with_visits alice_after_visits ∅ run.1 visit_session_lines Hrun)
    as (Husername & _ & _ & _ & _ & Hlength & Hkept).
  split; [exact Hrun|]. split; [exact Husername|]. split; [exact Hlength|].
  split; [reflexivity|].
  exact (Hkept 1%nat _ eq_refl).
Defined.

Lemma operation_saves_what_it_changes_witness :
  let user' :=
    User.set_medicines
      (<[0%nat := take_doses 1 (aspirin 3)]> (User.medicines alice_with_medicines))
      alice_with_medicines in
  let out := [MarkedTaken "Aspirin"; RemainingStock 2; LowStockRefill] in
  let run := @MediTrackApp.dispatch example_clock example_json example_text
               (MediTrackApp.MarkMedicineTaken "1") alice_with_medicines ∅ in
  let session := @MediTrackApp.main_menu example_clock example_json example_text
        dose_session alice ∅ in
  run = (run.1, Ok (user', out))
  ∧ (run.1 = ∅ ∧ user' = alice_with_medicines
     ∨ @Database.save_user example_json user' ∅ = (run.1, Ok ()))
  ∧ session = (session.1, Ok (alice_after_doses, dose_session_lines))
  ∧ (session.1 = ∅ ∧ alice_after_doses = alice
     ∨ ∃ fs0, @Database.save_user example_json alice_after_doses fs0 = (session.1, Ok ())).
Proof.
  intros user' out run session.
  assert (run = (run.1, Ok (user', out))) as Hrun by (vm_compute; reflexivity).
  assert (session = (session.1, Ok (alice_after_doses, dose_session_lines))) as Hsession
    by (vm_compute; reflexivity).
  split; [exact Hrun|].
  split; [exact (proj1 (@operation_saves_what_it_changes example_clock example_json example_text)
                   (MediTrackApp.MarkMedicineTaken "1") alice_with_medicines ∅ run.1
                   user' out Hrun)|].
  split; [exact Hsession|].
  exact (proj2 (@operation_saves_what_it_changes example_clock example_json example_text)
           dose_session alice ∅ session.1 alice_after_doses dose_session_lines Hsession).
Defined.

Lemma mark_medicine_taken_rejects_witness :
  (User.medicines alice = []
   ∧ @MediTrackApp.mark_medicine_taken example_json example_text "1" alice ∅
     = (∅, Ok (alice, [NoMedicines])))
  ∧ (User.medicines alice_with_medicines ≠ []
     ∧ int (strip "one") = Raise ValueError
     ∧ @MediTrackApp.mark_medicine_taken example_json example_text "one" alice_with_medicines ∅
       = (∅, Ok (alice_with_medicines, [InvalidInput])))
  ∧ (int (strip "3") = Ok 3
     ∧ ¬ 1 ≤ 3 ≤ Z.of_nat (length (User.medicines alice_with_medicines))
     ∧ @MediTrackApp.mark_medicine_taken example_json example_text "3" alice_with_medicines ∅
       = (∅, Ok (alice_with_medicines, [InvalidChoice]))).
Proof.
  assert (User.medicines alice_with_medicines ≠ []) as Hsome by discriminate.
  assert (¬ 1 ≤ 3 ≤ Z.of_nat (length (User.medicines alice_with_medicines))) as Hrange
    by (vm_compute; intros [_ Hle]; by apply Hle).
  split; [|split].
  - split; [reflexivity|].
    exact (proj1 (@mark_medicine_taken_rejects example_json example_text "1" alice ∅) eq_refl).
  - split; [exact Hsome|]. split; [reflexivity|].
    exact (proj1 (proj2 (@mark_medicine_taken_rejects example_json example_text "one"
                           alice_with_medicines ∅))
             Hsome ValueError eq_refl).
  - split; [reflexivity|]. split; [exact Hrange|].
    exact (proj2 (proj2 (@mark_medicine_taken_rejects example_json example_text "3"
                           alice_with_medicines ∅))
             Hsome 3 eq_refl Hrange).
Defined.

Lemma add_medicine_spec_witness :
  (strip "  " = ""
   ∧ @MediTrackApp.add_medicine example_clock example_json example_text
       "  " "100mg" "2" "" "3" alice ∅
     = (∅, Ok (alice, [NameRequired])))
  ∧ (strip "Aspirin" ≠ "" ∧ strip "" = ""
     ∧ @MediTrackApp.add_medicine example_clock example_json example_text
         "Aspirin" "" "2" "" "3" alice ∅
       = (∅, Ok (alice, [DosageRequired])))
  ∧ (@isdigit superscript_text (@strip superscript_text superscript_two) = true
     ∧ @int superscript_text (@strip superscript_text superscript_two) = Raise ValueError
     ∧ @MediTrackApp.add_medicine example_clock example_json superscript_text
         "Aspirin" "100mg" superscript_two "" "3" alice ∅
       = (∅, Raise ValueError))
  ∧ (strip "100mg" ≠ ""
     ∧ isdigit (strip "2") = true
     ∧ int (strip "2") = Ok 2
     ∧ ∃ frequency,
         frequencies !! Z.to_nat (2 - 1) = Some frequency
         ∧ @MediTrackApp.add_medicine example_clock example_json example_text
             "Aspirin" "100mg" "2" "" "-5" alice ∅
           = (let user' :=
                User.set_medicines
                  [Medicine.init "Aspirin" "100mg" frequency "2024-03-10" "2024-04-09" (-5)]
                  alice in
              @Database.save_user example_json user';;
              mret (user', [MedicineAdded "Aspirin" "100mg" frequency (-5)])) ∅)
  ∧ (strip "" = "" ∧ int "30" = Ok 30 ∧ initial_stock "" = 30)
  ∧ (int (str_or (strip "many") "30") = Raise ValueError ∧ initial_stock "many" = 30)
  ∧ (strip "-5" ≠ "" ∧ int (strip "-5") = Ok (-5) ∧ initial_stock "-5" = -5).
Proof.
  assert (strip "Aspirin" ≠ "") as Hname by (vm_compute; discriminate).
  assert (strip "100mg" ≠ "") as Hdosage by (vm_compute; discriminate).
  assert (strip "-5" ≠ "") as Hstock by (vm_compute; discriminate).
  assert (@strip superscript_text "Aspirin" ≠ "") as Hname' by (vm_compute; discriminate).
  assert (@strip superscript_text "100mg" ≠ "") as Hdosage' by (vm_compute; discriminate).
  assert (isdigit (strip "2") = true → ∃ c, int (strip "2") = Ok c) as Hread
    by (intros _; exists 2; reflexivity).
  split; [|split; [|split; [|split; [|split; [|split]]]]].
  - split; [reflexivity|].
    exact (proj1 (@add_medicine_spec example_clock example_json example_text
                    "  " "100mg" "2" "" "3" alice ∅) eq_refl).
  - split; [exact Hname|]. split; [reflexivity|].
    exact (proj1 (proj2 (@add_medicine_spec example_clock example_json example_text
                           "Aspirin" "" "2" "" "3" alice ∅)) Hname eq_refl).
  - split; [reflexivity|]. split; [reflexivity|].
    exact (proj1 (proj2 (proj2 (@add_medicine_spec example_clock example_json
                                  superscript_text
                                  "Aspirin" "100mg" superscript_two "" "3" alice ∅)))
             Hname' Hdosage' eq_refl ValueError eq_refl).
  - split; [exact Hdosage|]. split; [reflexivity|]. split; [reflexivity|].
    destruct (proj1 (proj2 (proj2 (proj2 (@add_medicine_spec example_clock example_json
                                            example_text
                                            "Aspirin" "100mg" "2" "" "-5" alice ∅))))
                Hname Hdosage Hread)
      as (frequency & _ & _ & _ & Hchoice & Hrun).
    exists frequency.
    split; [exact (Hchoice 2 eq_refl eq_refl ltac:(split; vm_compute; discriminate))|].
    exact Hrun.
  - split; [reflexivity|]. split; [reflexivity|].
    exact (proj1 (proj2 (proj2 (proj2 (proj2 (@add_medicine_spec example_clock example_json
                                                example_text
                                                "Aspirin" "100mg" "2" "" "" alice ∅)))))
             eq_refl eq_refl).
  - split; [reflexivity|].
    exact (proj1 (proj2 (proj2 (proj2 (proj2 (proj2
             (@add_medicine_spec example_clock example_json example_text
                "Aspirin" "100mg" "2" "" "many" alice ∅))))))
             ValueError eq_refl).
  - split; [exact Hstock|]. split; [reflexivity|].
    exact (proj2 (proj2 (proj2 (proj2 (proj2 (proj2
             (@add_medicine_spec example_clock example_json example_text
                "Aspirin" "100mg" "2" "" "-5" alice ∅))))))
             (-5) Hstock eq_refl).
Defined.

Lemma add_appointment_spec_witness :
  let user' :=
    User.set_appointments [Appointment.mk "Blood test" "Khan" "2024-03-11" "10:00" "" false]
      alice in
  let saved := @Database.save_user example_json user' ∅ in
  let unread :=
    User.set_appointments [Appointment.mk "Blood test" "Khan" "tomorrow" "10:00" "" false]
      alice in
  let unread_saved := @Database.save_user example_json unread ∅ in
  (strip " " = ""
   ∧ @MediTrackApp.add_appointment example_clock example_json example_text
         " " "Khan" "" "" "" alice ∅
     = (∅, Ok (alice, [TitleRequired])))
  ∧ (strip "Blood test" ≠ "" ∧ strip "" = ""
     ∧ @MediTrackApp.add_appointment example_clock example_json example_text
         "Blood test" "" "" "" "" alice ∅
       = (∅, Ok (alice, [DoctorRequired])))
  ∧ (strip "Khan" ≠ ""
     ∧ saved = (saved.1, Ok ())
     ∧ strptime (strip "2024-03-11") = Some 738956
     ∧ @MediTrackApp.add_appointment example_clock example_json example_text
         "Blood test" "Khan" "2024-03-11" "" "" alice ∅
       = (saved.1, Ok (user', [AppointmentAdded "Blood test" "Khan" "2024-03-11" 1 "10:00"])))
  ∧ (unread_saved = (unread_saved.1, Ok ())
     ∧ strptime (strip "tomorrow") = None
     ∧ @MediTrackApp.add_appointment example_clock example_json example_text
         "Blood test" "Khan" "tomorrow" "" "" alice ∅
       = (unread_saved.1, Raise ValueError)).
Proof.
  intros user' saved unread unread_saved.
  assert (strip "Blood test" ≠ "") as Htitle by (vm_compute; discriminate).
  assert (strip "Khan" ≠ "") as Hdoctor by (vm_compute; discriminate).
  assert (saved = (saved.1, Ok ())) as Hsaved by (vm_compute; reflexivity).
  assert (unread_saved = (unread_saved.1, Ok ())) as Hunread by (vm_compute; reflexivity).
  split; [|split; [|split]].
  - split; [reflexivity|].
    exact (proj1 (@add_appointment_spec example_clock example_json example_text
                    " " "Khan" "" "" "" alice ∅) eq_refl).
  - split; [exact Htitle|]. split; [reflexivity|].
    exact (proj1 (proj2 (@add_appointment_spec example_clock example_json example_text
                           "Blood test" "" "" "" "" alice ∅)) Htitle eq_refl).
  - split; [exact Hdoctor|]. split; [exact Hsaved|]. split; [reflexivity|].
    pose proof (proj2 (proj2 (@add_appointment_spec example_clock example_json example_text
                                "Blood test" "Khan" "2024-03-11" "" "" alice ∅))
                  Htitle Hdoctor) as Hspec.
    cbn zeta in Hspec. destruct Hspec as [_ Hok].
    exact (proj1 (Hok saved.1 Hsaved) 738956 eq_refl).
  - split; [exact Hunread|]. split; [reflexivity|].
    pose proof (proj2 (proj2 (@add_appointment_spec example_clock example_json example_text
                                "Blood test" "Khan" "tomorrow" "" "" alice ∅))
                  Htitle Hdoctor) as Hspec.
    cbn zeta in Hspec. destruct Hspec as [_ Hok].
    exact (proj2 (Hok unread_saved.1 Hunread) eq_refl).
Defined.

Lemma change_password_spec_witness :
  (strip "guess" ≠ User.password alice
   ∧ @MediTrackApp.change_password example_json example_text "guess" "pw2" "pw2" alice ∅
     = (∅, Ok (alice, [PasswordIncorrect])))
  ∧ (strip " pw1 " = User.password alice ∧ strip " " = ""
     ∧ @MediTrackApp.change_password example_json example_text " pw1 " " " " " alice ∅
       = (∅, Ok (alice, [PasswordEmpty])))
  ∧ (strip "pw2" ≠ "" ∧ strip "pw2" ≠ strip "pw3"
     ∧ @MediTrackApp.change_password example_json example_text " pw1 " "pw2" "pw3" alice ∅
       = (∅, Ok (alice, [PasswordMismatch])))
  ∧ (strip "pw2" = strip " pw2"
     ∧ @MediTrackApp.change_password example_json example_text " pw1 " "pw2" " pw2" alice ∅
       = (@Database.save_user example_json (User.mk "alice" "pw2" "Alice A" [] [] "" "");;
          mret (User.mk "alice" "pw2" "Alice A" [] [] "" "", [PasswordChanged])) ∅).
Proof.
  assert (strip "guess" ≠ User.password alice) as Hguess by (vm_compute; discriminate).
  assert (strip "pw2" ≠ "") as Hnew by (vm_compute; discriminate).
  assert (strip "pw2" ≠ strip "pw3") as Hconfirm by (vm_compute; discriminate).
  split; [|split; [|split]].
  - split; [exact Hguess|].
    exact (proj1 (@change_password_spec example_json example_text
          "guess" "pw2" "pw2" alice ∅) Hguess).
  - split; [reflexivity|]. split; [reflexivity|].
    exact (proj1 (proj2 (@change_password_spec example_json example_text " pw1 " " " " " alice ∅))
             eq_refl eq_refl).
  - split; [exact Hnew|]. split; [exact Hconfirm|].
    exact (proj1 (proj2 (proj2 (@change_password_spec example_json example_text
                                  " pw1 " "pw2" "pw3" alice ∅)))
             eq_refl Hnew Hconfirm).
  - split; [reflexivity|].
    exact (proj2 (proj2 (proj2 (@change_password_spec example_json example_text
                                  " pw1 " "pw2" " pw2" alice ∅)))
             eq_refl Hnew eq_refl).
Defined.

Lemma unparsable_date_breaks_witness :
  checkup "tomorrow" ∈ User.appointments alice_bad_date
  ∧ strptime (Appointment.date (checkup "tomorrow")) = None
  ∧ @Database.load_user compact_json (strip "alice") (store [alice_bad_date])
    = Ok (Some alice_bad_date)
  ∧ User.password alice_bad_date = strip "pw1"
  ∧ @MediTrackApp.check_notifications example_clock (Some alice_bad_date)
    = Raise ValueError
  ∧ @MediTrackApp.view_weekly_summary example_clock alice_bad_date = Raise ValueError
  ∧ @MediTrackApp.emergency_mode example_clock alice_bad_date = Raise ValueError
  ∧ @MediTrackApp.view_appointments example_clock alice_bad_date = Raise ValueError
  ∧ @MediTrackApp.mark_appointment_completed example_clock compact_json example_text
        "1" alice_bad_date
      (store [alice_bad_date])
    = (store [alice_bad_date], Raise ValueError)
  ∧ @MediTrackApp.login_user example_clock compact_json example_text "alice" "pw1" None
      (store [alice_bad_date])
    = (store [alice_bad_date], Raise ValueError).
Proof.
  assert (checkup "tomorrow" ∈ User.appointments alice_bad_date) as Hin
    by (change (checkup "tomorrow" ∈ [checkup "2024-03-10"; checkup "tomorrow"]);
        rewrite !elem_of_cons; tauto).
  assert (@Database.load_user compact_json (strip "alice") (store [alice_bad_date])
          = Ok (Some alice_bad_date)) as Hload by (vm_compute; reflexivity).
  destruct (@unparsable_date_breaks example_clock compact_json example_text alice_bad_date
              (checkup "tomorrow") Hin eq_refl)
    as (Hnotes & Hsummary & Hemergency & Hview & Hmark & Hlogin).
  split; [exact Hin|]. split; [reflexivity|]. split; [exact Hload|].
  split; [reflexivity|]. split; [exact Hnotes|]. split; [exact Hsummary|].
  split; [exact Hemergency|]. split; [exact Hview|].
  split; [exact (Hmark "1" (store [alice_bad_date]))|].
  exact (Hlogin "alice" "pw1" None (store [alice_bad_date]) Hload eq_refl).
Defined.

Lemma emergency_mode_spec_witness :
  Forall (λ a, is_Some (Calendar.parse (Appointment.date a)))
         (User.appointments alice_everything)
  ∧ ∃ out notes,
      @MediTrackApp.emergency_mode example_clock alice_everything = Ok out
      ∧ @MediTrackApp.check_notifications example_clock (Some alice_everything) = Ok notes
      ∧ out = [PatientName "Alice A"; NoEmergencyContact;
               UrgentAppointment "Dentist" "Jones"; UrgentAppointment "Eye test" "Lee"]
      ∧ (NoteUpcoming "Dentist" "Jones" 2 ∈ notes
         → UrgentAppointment "Dentist" "Jones" ∈ out).
Proof.
  assert (Forall (λ a, is_Some (Calendar.parse (Appointment.date a)))
                 (User.appointments alice_everything)) as Hdates by parsed_dates.
  split; [exact Hdates|].
  destruct (@emergency_mode_spec example_clock alice_everything Hdates)
    as (out & notes & Hrun & Hnotes & Hout & _ & Hupcoming & _).
  exists out, notes. split; [exact Hrun|]. split; [exact Hnotes|].
  split; [rewrite Hout; vm_compute; reflexivity|].
  exact (Hupcoming "Dentist" "Jones" 2).
Defined.

Lemma view_medicines_spec_witness :
  (User.medicines alice = [] ∧ MediTrackApp.view_medicines alice = [NoMedicinesYet])
  ∧ (User.medicines alice_with_medicines ≠ []
     ∧ MediTrackApp.view_medicines alice_with_medicines
       = [MedicineRow 1 "Aspirin" "100mg" "Twice daily" Red 3; RefillSoon;
          MedicineRow 2 "Vitamin D" "10ug" "Once daily" Green 30])
  ∧ (5 ≤ 5 ∧ MediTrackApp.stock_status 5 = Red)
  ∧ (5 < 10 ≤ 10 ∧ MediTrackApp.stock_status 10 = Yellow)
  ∧ (10 < 11 ∧ MediTrackApp.stock_status 11 = Green).
Proof.
  assert (User.medicines alice_with_medicines ≠ []) as Hsome by discriminate.
  assert (5 ≤ 5) as Hred by (vm_compute; discriminate).
  assert (5 < 10 ≤ 10) as Hyellow by (split; vm_compute; [reflexivity|discriminate]).
  assert (10 < 11) as Hgreen by reflexivity.
  split; [|split; [|split; [|split]]].
  - split; [reflexivity|].
    exact (proj1 (view_medicines_spec alice) eq_refl).
  - split; [exact Hsome|].
    rewrite (proj1 (proj2 (view_medicines_spec alice_with_medicines)) Hsome).
    vm_compute. reflexivity.
  - split; [exact Hred|].
    exact (proj2 (proj1 (proj1 (proj2 (proj2 (view_medicines_spec alice))) 5)) Hred).
  - split; [exact Hyellow|].
    exact (proj2 (proj1 (proj2 (proj1 (proj2 (proj2 (view_medicines_spec alice))) 10)))
             Hyellow).
  - split; [exact Hgreen|].
    exact (proj2 (proj2 (proj2 (proj1 (proj2 (proj2 (view_medicines_spec alice))) 11)))
             Hgreen).
Defined.

Lemma view_appointments_spec_witness :
  User.appointments alice_with_visits ≠ []
  ∧ Forall (λ a, is_Some (Calendar.parse (Appointment.date a)))
           (User.appointments alice_with_visits)
  ∧ @MediTrackApp.view_appointments example_clock alice_with_visits
    = Ok [UpcomingHeader;
          UpcomingRow 1 true "Checkup" "Smith" "2024-03-10" 0;
          UpcomingRow 2 false "Dentist" "Jones" "2024-03-12" 2;
          LocationRow "Main Street";
          PastHeader;
          PastRow 1 false "Eye test" "Lee" "2024-03-03" 7]
  ∧ filter (@upcoming_incomplete example_clock) (User.appointments alice_with_visits)
    = [Appointment.init "Dentist" "Jones" "2024-03-12" "09:30" "Main Street"].
Proof.
  assert (User.appointments alice_with_visits ≠ []) as Hsome by discriminate.
  assert (Forall (λ a, is_Some (Calendar.parse (Appointment.date a)))
                 (User.appointments alice_with_visits)) as Hdates by parsed_dates.
  destruct (@view_appointments_spec example_clock alice_with_visits Hsome Hdates)
    as (Hview & _ & Hnumbered).
  split; [exact Hsome|]. split; [exact Hdates|].
  split; [rewrite Hview; vm_compute; reflexivity|].
  rewrite Hnumbered. vm_compute. reflexivity.
Defined.

Lemma weekly_summary_counts_witness :
  Forall (λ a, is_Some (Calendar.parse (Appointment.date a)))
         (User.appointments alice_everything)
  ∧ (0 < length (low_stock_notes (User.medicines alice_everything)))%nat
  ∧ ∃ summary rest,
      @MediTrackApp.view_weekly_summary example_clock alice_everything = Ok summary
      ∧ summary
        = [DosesTaken 0; DosesMissed 0; ActiveMedicines 2; UpcomingAppointments 1] ++ rest
      ∧ LowStockMedicines 1 ∈ rest.
Proof.
  assert (Forall (λ a, is_Some (Calendar.parse (Appointment.date a)))
                 (User.appointments alice_everything)) as Hdates by parsed_dates.
  assert (0 < length (low_stock_notes (User.medicines alice_everything)))%nat as Hlow
    by (vm_compute; constructor).
  split; [exact Hdates|]. split; [exact Hlow|].
  destruct (@weekly_summary_counts example_clock alice_everything Hdates)
    as (summary & rest & Hrun & _ & Hsummary & _ & Hshown & _).
  exists summary, rest. split; [exact Hrun|]. split; [exact Hsummary|].
  exact (Hshown Hlow).
Defined.

Lemma save_user_spec_witness :
  (@Database.load_data compact_json (store [bob]) = PDict (store_data [bob])
   ∧ get (store_data [bob]) "users" (PDict ∅) = PDict (store_users [bob])
   ∧ (@Database.save_user compact_json alice (store [bob])).1 = store [bob; alice])
  ∧ (@Database.load_data compact_json store_users_list = PDict {["users" := PList []]}
     ∧ @Database.save_user compact_json alice store_users_list
       = (store_users_list, Raise TypeError))
  ∧ (@Database.load_data compact_json store_list = PList []
     ∧ @Database.save_user compact_json alice store_list
       = (store_list, Raise AttributeError))
  ∧ ((∅ : filesystem) !! DATABASE_FILE = None
     ∧ (@Database.save_user compact_json alice ∅).1 = store [alice])
  ∧ (Compact.load "users" = None
     ∧ (@Database.save_user compact_json alice {[DATABASE_FILE := "users"]}).1
       = store [alice]).
Proof.
  assert (@Database.load_data compact_json (store [bob]) = PDict (store_data [bob]))
    as Hdata by (vm_compute; reflexivity).
  assert (@Database.load_data compact_json store_users_list
          = PDict {["users" := PList []]}) as Hlist by (vm_compute; reflexivity).
  assert (∀ users, get {["users" := PList []]} "users" (PDict ∅) ≠ PDict users)
    as Hnone by (intros users; vm_compute; discriminate).
  assert (∀ data, @Database.load_data compact_json store_list ≠ PDict data)
    as Hbare by (intros data; vm_compute; discriminate).
  assert ((∅ : filesystem) !! DATABASE_FILE = None
          ∨ ∃ text, (∅ : filesystem) !! DATABASE_FILE = Some text
                    ∧ json_load (Json := compact_json) text = None)
    as Hmissing by (left; reflexivity).
  assert (({[DATABASE_FILE := "users"]} : filesystem) !! DATABASE_FILE = None
          ∨ ∃ text, ({[DATABASE_FILE := "users"]} : filesystem) !! DATABASE_FILE = Some text
                    ∧ json_load (Json := compact_json) text = None)
    as Hunread by (right; exists "users"; split; vm_compute; reflexivity).
  split; [|split; [|split; [|split]]].
  - split; [exact Hdata|]. split; [reflexivity|].
    rewrite (proj1 (@save_user_spec compact_json alice (store [bob]))
               (store_data [bob]) (store_users [bob]) Hdata eq_refl).
    vm_compute. reflexivity.
  - split; [exact Hlist|].
    exact (proj1 (proj2 (@save_user_spec compact_json alice store_users_list))
             {["users" := PList []]} Hlist Hnone).
  - split; [vm_compute; reflexivity|].
    exact (proj1 (proj2 (proj2 (@save_user_spec compact_json alice store_list))) Hbare).
  - split; [reflexivity|].
    rewrite (proj2 (proj2 (proj2 (@save_user_spec compact_json alice ∅))) Hmissing).
    vm_compute. reflexivity.
  - split; [vm_compute; reflexivity|].
    rewrite (proj2 (proj2 (proj2 (@save_user_spec compact_json alice
                                    {[DATABASE_FILE := "users"]})))
               Hunread).
    vm_compute. reflexivity.
Defined.

Lemma save_user_load_user_witness :
  let fs' := (@Database.save_user compact_json alice_with_medicines (store [bob])).1 in
  @Database.load_data compact_json (store [bob]) = PDict (store_data [bob])
  ∧ get (store_data [bob]) "users" (PDict ∅) = PDict (store_users [bob])
  ∧ Compact.load
      (Compact.dump (with_user alice_with_medicines (store_data [bob]) (store_users [bob])))
    = Some (with_user alice_with_medicines (store_data [bob]) (store_users [bob]))
  ∧ "bob" ≠ User.username alice_with_medicines
  ∧ @Database.load_user compact_json "alice" fs' = Ok (Some alice_with_medicines)
  ∧ @Database.user_exists compact_json "alice" fs' = Ok true
  ∧ @Database.load_user compact_json "bob" fs'
    = @Database.load_user compact_json "bob" (store [bob])
  ∧ @Database.load_user compact_json "bob" (store [bob]) = Ok (Some bob).
Proof.
  intros fs'.
  assert (@Database.load_data compact_json (store [bob]) = PDict (store_data [bob]))
    as Hdata by (vm_compute; reflexivity).
  assert (Compact.load
            (Compact.dump
               (with_user alice_with_medicines (store_data [bob]) (store_users [bob])))
          = Some (with_user alice_with_medicines (store_data [bob]) (store_users [bob])))
    as Hcodec by (vm_compute; reflexivity).
  assert ("bob" ≠ User.username alice_with_medicines) as Hother by discriminate.
  destruct (@save_user_load_user compact_json alice_with_medicines (store [bob])
              (store_data [bob]) (store_users [bob]) Hdata eq_refl Hcodec)
    as (Hload & Hexists & Hkept).
  split; [exact Hdata|]. split; [reflexivity|]. split; [exact Hcodec|].
  split; [exact Hother|]. split; [exact Hload|]. split; [exact Hexists|].
  split; [exact (proj1 (Hkept "bob" Hother))|].
  vm_compute. reflexivity.
Defined.

Lemma load_user_spec_witness :
  ((∅ : filesystem) !! DATABASE_FILE = None
   ∧ @Database.load_user compact_json "bob" ∅ = Ok None
   ∧ @Database.user_exists compact_json "bob" ∅ = Ok false)
  ∧ (@Database.load_data compact_json store_list = PList []
     ∧ @Database.load_user compact_json "bob" store_list = Raise AttributeError
     ∧ @Database.user_exists compact_json "bob" store_list = Raise AttributeError)
  ∧ (@Database.load_data compact_json (store [bob]) = PDict (store_data [bob])
     ∧ store_users [bob] !! "carol" = None
     ∧ @Database.load_user compact_json "carol" (store [bob]) = Ok None
     ∧ @Database.user_exists compact_json "carol" (store [bob]) = Ok false)
  ∧ (store_users [bob] !! "bob" = Some (PDict (User.to_dict bob))
     ∧ @Database.load_user compact_json "bob" (store [bob])
       = (user ← User.from_dict (User.to_dict bob); Ok (Some user))
     ∧ @Database.user_exists compact_json "bob" (store [bob]) = Ok true).
Proof.
  assert (@Database.load_data compact_json (store [bob]) = PDict (store_data [bob]))
    as Hdata by (vm_compute; reflexivity).
  assert (∀ data, @Database.load_data compact_json store_list ≠ PDict data)
    as Hbare by (intros data; vm_compute; discriminate).
  pose proof (proj2 (proj2 (@load_user_spec compact_json "carol" (store [bob])))
                (store_data [bob]) (store_users [bob]) Hdata eq_refl) as Hcarol.
  pose proof (proj2 (proj2 (@load_user_spec compact_json "bob" (store [bob])))
                (store_data [bob]) (store_users [bob]) Hdata eq_refl) as Hbob.
  assert ((∅ : filesystem) !! DATABASE_FILE = None
          ∨ ∃ text, (∅ : filesystem) !! DATABASE_FILE = Some text
                    ∧ json_load (Json := compact_json) text = None)
    as Hmissing by (left; reflexivity).
  split; [|split; [|split]].
  - split; [reflexivity|].
    exact (proj1 (@load_user_spec compact_json "bob" ∅) Hmissing).
  - split; [vm_compute; reflexivity|].
    exact (proj1 (proj2 (@load_user_spec compact_json "bob" store_list)) Hbare).
  - split; [exact Hdata|]. split; [reflexivity|].
    exact (proj1 Hcarol eq_refl).
  - split; [reflexivity|].
    exact (proj2 Hbob (PDict (User.to_dict bob)) eq_refl).
Defined.

Lemma register_user_spec_witness :
  (strip " " = ""
   ∧ @MediTrackApp.register_user compact_json example_text
         " " "Alice A" "pw1" "pw1" "" "" (store [bob])
     = (store [bob], Ok [UsernameEmpty]))
  ∧ (strip "bob" ≠ ""
     ∧ @Database.user_exists compact_json (strip "bob") (store [bob]) = Ok true
     ∧ @MediTrackApp.register_user compact_json example_text
           "bob" "Bob C" "pw1" "pw1" "" "" (store [bob])
       = (store [bob], Ok [UsernameExists]))
  ∧ (@Database.user_exists compact_json (strip "bob") store_list = Raise AttributeError
     ∧ @MediTrackApp.register_user compact_json example_text
           "bob" "Bob C" "pw1" "pw1" "" "" store_list
       = (store_list, Raise AttributeError))
  ∧ (strip "alice" ≠ ""
     ∧ @Database.user_exists compact_json (strip "alice") (store [bob]) = Ok false
     ∧ @MediTrackApp.register_user compact_json example_text
           "alice" "" "pw1" "pw1" "" "" (store [bob])
       = (store [bob], Ok [NameEmpty])
     ∧ @MediTrackApp.register_user compact_json example_text
           "alice" "Alice A" " " "" "" "" (store [bob])
       = (store [bob], Ok [NewPasswordEmpty])
     ∧ @MediTrackApp.register_user compact_json example_text "alice" "Alice A" "pw1" "pw2" "" ""
         (store [bob])
       = (store [bob], Ok [NewPasswordMismatch])
     ∧ @MediTrackApp.register_user compact_json example_text " alice" "Alice A " "pw1" " pw1" "" ""
         (store [bob])
       = (store [bob; alice], Ok [RegistrationSuccessful "Alice A"])).
Proof.
  assert (strip "bob" ≠ "") as Hbob by (vm_compute; discriminate).
  assert (strip "alice" ≠ "") as Halice by (vm_compute; discriminate).
  assert (strip " alice" ≠ "") as Halice' by (vm_compute; discriminate).
  assert (strip "Alice A" ≠ "") as Hname by (vm_compute; discriminate).
  assert (strip "Alice A " ≠ "") as Hname' by (vm_compute; discriminate).
  assert (strip "pw1" ≠ "") as Hpassword by (vm_compute; discriminate).
  assert (strip "pw1" ≠ strip "pw2") as Hconfirm by (vm_compute; discriminate).
  assert (@Database.user_exists compact_json (strip "bob") (store [bob]) = Ok true)
    as Hexists by (vm_compute; reflexivity).
  assert (@Database.user_exists compact_json (strip "alice") (store [bob]) = Ok false)
    as Hfree by (vm_compute; reflexivity).
  assert (@Database.user_exists compact_json (strip "bob") store_list
          = Raise AttributeError) as Hraise by (vm_compute; reflexivity).
  split; [|split; [|split]].
  - split; [reflexivity|].
    exact (proj1 (@register_user_spec example_clock compact_json example_text
                    " " "Alice A" "pw1" "pw1" "" "" (store [bob])) eq_refl).
  - split; [exact Hbob|]. split; [exact Hexists|].
    exact (proj1 (proj2 (proj2 (@register_user_spec example_clock compact_json example_text
                                  "bob" "Bob C" "pw1" "pw1" "" "" (store [bob])) Hbob))
             Hexists).
  - split; [exact Hraise|].
    exact (proj1 (proj2 (@register_user_spec example_clock compact_json example_text
                           "bob" "Bob C" "pw1" "pw1" "" "" store_list) Hbob)
             AttributeError Hraise).
  - split; [exact Halice|]. split; [exact Hfree|].
    split; [|split; [|split]].
    + exact (proj1 (proj2 (proj2 (proj2 (@register_user_spec example_clock compact_json example_text
                                           "alice" "" "pw1" "pw1" "" "" (store [bob]))
                                    Halice)) Hfree) eq_refl).
    + exact (proj1 (proj2 (proj2 (proj2 (proj2 (@register_user_spec example_clock
                                                  compact_json example_text
                                                  "alice" "Alice A" " " "" "" ""
                                                  (store [bob]))
                                           Halice)) Hfree)) Hname eq_refl).
    + exact (proj1 (proj2 (proj2 (proj2 (proj2 (proj2 (@register_user_spec example_clock
                                                         compact_json example_text
                                                         "alice" "Alice A" "pw1" "pw2" "" ""
                                                         (store [bob]))
                                                  Halice)) Hfree)))
               Hname Hpassword Hconfirm).
    + rewrite (proj2 (proj2 (proj2 (proj2 (proj2 (proj2 (@register_user_spec example_clock
                                                           compact_json example_text
                                                           " alice" "Alice A " "pw1" " pw1"
                                                           "" "" (store [bob]))
                                                    Halice')) Hfree)))
                 Hname' Hpassword eq_refl).
      vm_compute. reflexivity.
Defined.

Lemma register_user_keeps_accounts_witness :
  let fs' := (@MediTrackApp.register_user compact_json example_text
                "alice" "Alice A" "pw1" "pw1" "" "" (store [bob])).1 in
  @Database.load_data compact_json (store [bob]) = PDict (store_data [bob])
  ∧ is_Some (store_users [bob] !! "bob")
  ∧ fs' = store [bob; alice]
  ∧ @Database.load_user compact_json "bob" fs'
    = @Database.load_user compact_json "bob" (store [bob])
  ∧ @Database.user_exists compact_json "bob" fs' = Ok true.
Proof.
  intros fs'.
  assert (@Database.load_data compact_json (store [bob]) = PDict (store_data [bob]))
    as Hdata by (vm_compute; reflexivity).
  assert (is_Some (store_users [bob] !! "bob")) as Hbob by (eexists; reflexivity).
  assert (let user := User.mk (strip "alice") (strip "pw1") (strip "Alice A") [] []
                        (strip "") (strip "") in
          json_load (Json := compact_json)
            (json_dump (Json := compact_json)
               (with_user user (store_data [bob]) (store_users [bob])))
          = Some (with_user user (store_data [bob]) (store_users [bob])))
    as Hcodec by (vm_compute; reflexivity).
  split; [exact Hdata|]. split; [exact Hbob|].
  split; [vm_compute; reflexivity|].
  exact (@register_user_keeps_accounts example_clock compact_json example_text
           "alice" "Alice A" "pw1" "pw1" "" "" (store [bob])
           (store_data [bob]) (store_users [bob]) Hdata eq_refl Hcodec "bob" Hbob).
Defined.

Lemma register_then_login_witness :
  let run := @MediTrackApp.register_user compact_json example_text
               "alice" "Alice A" "pw1" "pw1" "" "" (store [bob]) in
  @Database.load_data compact_json (store [bob]) = PDict (store_data [bob])
  ∧ store_users [bob] !! strip "alice" = None
  ∧ run = (store [bob; alice], Ok [RegistrationSuccessful "Alice A"])
  ∧ @MediTrackApp.login_user example_clock compact_json example_text "alice" " pw1" None run.1
    = (run.1, Ok (Some alice, [WelcomeBack "Alice A"]))
  ∧ @MediTrackApp.login_user example_clock compact_json example_text "alice" "pw2" (Some bob) run.1
    = (run.1, Ok (Some bob, [InvalidLogin]))
  ∧ @MediTrackApp.register_user compact_json example_text "alice" "Alice B" "pw3" "pw3" "" "" run.1
    = (run.1, Ok [UsernameExists]).
Proof.
  intros run.
  assert (@Database.load_data compact_json (store [bob]) = PDict (store_data [bob]))
    as Hdata by (vm_compute; reflexivity).
  assert (strip "alice" ≠ "") as Husername by (vm_compute; discriminate).
  assert (strip "Alice A" ≠ "") as Hname by (vm_compute; discriminate).
  assert (strip "pw1" ≠ "") as Hpassword by (vm_compute; discriminate).
  assert (strip "pw2" ≠ strip "pw1") as Hwrong by (vm_compute; discriminate).
  assert (json_load (Json := compact_json)
            (json_dump (Json := compact_json)
               (with_user
                  (User.mk (strip "alice") (strip "pw1") (strip "Alice A") [] []
                     (strip "") (strip ""))
                  (store_data [bob]) (store_users [bob])))
          = Some (with_user
                    (User.mk (strip "alice") (strip "pw1") (strip "Alice A") [] []
                       (strip "") (strip ""))
                    (store_data [bob]) (store_users [bob])))
    as Hcodec by (vm_compute; reflexivity).
  destruct (@register_then_login example_clock compact_json example_text
              "alice" "Alice A" "pw1" "pw1" "" "" (store [bob])
              (store_data [bob]) (store_users [bob])
              Hdata eq_refl eq_refl Husername Hname Hpassword eq_refl Hcodec)
    as (_ & Hlogin & Hrefused & Hagain).
  split; [exact Hdata|]. split; [reflexivity|].
  split; [vm_compute; reflexivity|].
  split; [exact (Hlogin " pw1" None eq_refl)|].
  split; [exact (Hrefused "pw2" (Some bob) Hwrong)|].
  exact (Hagain "Alice B" "pw3" "pw3" "" "").
Defined.

Lemma login_user_spec_witness :
  (@Database.load_user compact_json (strip "carol") (store [bob; alice_everything])
   = Ok None
   ∧ @MediTrackApp.login_user example_clock compact_json example_text "carol" "secret" None
       (store [bob; alice_everything])
     = (store [bob; alice_everything], Ok (None, [InvalidLogin])))
  ∧ (@Database.load_user compact_json (strip "bob") store_list = Raise AttributeError
     ∧ @MediTrackApp.login_user example_clock compact_json example_text
           "bob" "secret" None store_list
       = (store_list, Raise AttributeError))
  ∧ (@Database.load_user compact_json (strip "bob") (store [bob; alice_everything])
     = Ok (Some bob)
     ∧ User.password bob ≠ strip "guess"
     ∧ @MediTrackApp.login_user example_clock compact_json example_text "bob" "guess" None
         (store [bob; alice_everything])
       = (store [bob; alice_everything], Ok (None, [InvalidLogin])))
  ∧ (@Database.load_user compact_json (strip " alice ") (store [bob; alice_everything])
     = Ok (Some alice_everything)
     ∧ User.password alice_everything = strip "pw1"
     ∧ @MediTrackApp.check_notifications example_clock (Some alice_everything)
       = Ok [NoteUpcoming "Dentist" "Jones" 2; NoteLowStock "Aspirin" 3]
     ∧ @MediTrackApp.login_user example_clock compact_json example_text " alice " "pw1" (Some bob)
         (store [bob; alice_everything])
       = (store [bob; alice_everything],
          Ok (Some alice_everything,
              [WelcomeBack "Alice A";
               Notification (NoteUpcoming "Dentist" "Jones" 2);
               Notification (NoteLowStock "Aspirin" 3)])))
  ∧ (@Database.load_user compact_json (strip "alice") (store [alice_bad_date])
     = Ok (Some alice_bad_date)
     ∧ @MediTrackApp.check_notifications example_clock (Some alice_bad_date)
       = Raise ValueError
     ∧ @MediTrackApp.login_user example_clock compact_json example_text "alice" "pw1" None
         (store [alice_bad_date])
       = (store [alice_bad_date], Raise ValueError)).
Proof.
  assert (@Database.load_user compact_json (strip "carol") (store [bob; alice_everything])
          = Ok None) as Hcarol by (vm_compute; reflexivity).
  assert (@Database.load_user compact_json (strip "bob") store_list
          = Raise AttributeError) as Hbare by (vm_compute; reflexivity).
  assert (@Database.load_user compact_json (strip "bob") (store [bob; alice_everything])
          = Ok (Some bob)) as Hbob by (vm_compute; reflexivity).
  assert (User.password bob ≠ strip "guess") as Hguess by (vm_compute; discriminate).
  assert (@Database.load_user compact_json (strip " alice ")
            (store [bob; alice_everything])
          = Ok (Some alice_everything)) as Halice by (vm_compute; reflexivity).
  assert (@MediTrackApp.check_notifications example_clock (Some alice_everything)
          = Ok [NoteUpcoming "Dentist" "Jones" 2; NoteLowStock "Aspirin" 3]) as Hnotes
    by (vm_compute; reflexivity).
  assert (@Database.load_user compact_json (strip "alice") (store [alice_bad_date])
          = Ok (Some alice_bad_date)) as Hbad by (vm_compute; reflexivity).
  assert (@MediTrackApp.check_notifications example_clock (Some alice_bad_date)
          = Raise ValueError) as Hraise by (vm_compute; reflexivity).
  split; [|split; [|split; [|split]]].
  - split; [exact Hcarol|].
    exact (proj1 (proj2 (@login_user_spec example_clock compact_json example_text
          "carol" "secret" None
                           (store [bob; alice_everything]))) Hcarol).
  - split; [exact Hbare|].
    exact (proj1 (proj2 (proj2 (@login_user_spec example_clock compact_json example_text
                                  "bob" "secret" None store_list)))
             AttributeError Hbare).
  - split; [exact Hbob|]. split; [exact Hguess|].
    exact (proj1 (proj2 (proj2 (proj2 (@login_user_spec example_clock compact_json example_text
                                         "bob" "guess" None
                                         (store [bob; alice_everything]))))
                    bob Hbob) Hguess).
  - split; [exact Halice|]. split; [reflexivity|]. split; [exact Hnotes|].
    exact (proj1 (proj2 (proj2 (proj2 (proj2 (@login_user_spec example_clock compact_json example_text
                                                " alice " "pw1" (Some bob)
                                                (store [bob; alice_everything]))))
                           alice_everything Halice) eq_refl)
             _ Hnotes).
  - split; [exact Hbad|]. split; [exact Hraise|].
    exact (proj2 (proj2 (proj2 (proj2 (proj2 (@login_user_spec example_clock compact_json example_text
                                                "alice" "pw1" None
                                                (store [alice_bad_date]))))
                           alice_bad_date Hbad) eq_refl)
             ValueError Hraise).
Defined.

Lemma from_dict_missing_key_witness :
  (Appointment.from_dict bare_appointment = Ok (checkup "2024-03-10")
   ∧ "date" ∈ appointment_keys
   ∧ is_Some (bare_appointment !! "date"))
  ∧ (delete "date" bare_appointment !! "date" = None
     ∧ appointment_keys !! 2%nat = Some "date"
     ∧ Appointment.from_dict (delete "date" bare_appointment) = Raise (KeyError "date"))
  ∧ (delete "stock" bare_medicine !! "stock" = None
     ∧ medicine_keys !! 5%nat = Some "stock"
     ∧ Medicine.from_dict (delete "stock" bare_medicine) = Raise (KeyError "stock"))
  ∧ (delete "password" (User.to_dict alice) !! "password" = None
     ∧ user_keys !! 1%nat = Some "password"
     ∧ User.from_dict (delete "password" (User.to_dict alice))
       = Raise (KeyError "password")).
Proof.
  assert (Appointment.from_dict bare_appointment = Ok (checkup "2024-03-10")) as Hread
    by (vm_compute; reflexivity).
  assert ("date" ∈ appointment_keys) as Hkey
    by (unfold appointment_keys; rewrite !elem_of_cons; tauto).
  assert (Forall (λ k', ∃ s, delete "date" bare_appointment !! k' = Some (PStr s))
                 (take 2 appointment_keys)) as Happointment
    by (repeat (apply Forall_cons_2; [eexists; vm_compute; reflexivity|]);
        apply Forall_nil_2).
  assert (Forall (λ k', ∃ s, delete "stock" bare_medicine !! k' = Some (PStr s))
                 (take 5 medicine_keys)) as Hmedicine
    by (repeat (apply Forall_cons_2; [eexists; vm_compute; reflexivity|]);
        apply Forall_nil_2).
  assert (Forall (λ k', ∃ s, delete "password" (User.to_dict alice) !! k' = Some (PStr s))
                 (take 1 user_keys)) as Huser
    by (repeat (apply Forall_cons_2; [eexists; vm_compute; reflexivity|]);
        apply Forall_nil_2).
  split; [|split; [|split]].
  - split; [exact Hread|]. split; [exact Hkey|].
    exact (proj1 (from_dict_missing_key bare_appointment) _ "date" Hread Hkey).
  - split; [reflexivity|]. split; [reflexivity|].
    exact (proj1 (proj2 (proj2 (proj2 (from_dict_missing_key
                                         (delete "date" bare_appointment))))
                    2%nat "date" eq_refl)
             eq_refl Happointment).
  - split; [reflexivity|]. split; [reflexivity|].
    exact (proj1 (proj2 (proj2 (proj2 (proj2 (from_dict_missing_key
                                                (delete "stock" bare_medicine))))
                           5%nat "stock" eq_refl))
             eq_refl Hmedicine).
  - split; [reflexivity|]. split; [reflexivity|].
    exact (proj2 (proj2 (proj2 (proj2 (proj2 (from_dict_missing_key
                                                (delete "password" (User.to_dict alice)))))
                           1%nat "password" eq_refl))
             eq_refl Huser).
Defined.

Lemma operation_is_durable_witness :
  let user' :=
    User.set_medicines
      (<[0%nat := take_doses 1 (aspirin 3)]> (User.medicines alice_with_medicines))
      alice_with_medicines in
  let out := [MarkedTaken "Aspirin"; RemainingStock 2; LowStockRefill] in
  let fs := store [bob; alice_with_medicines] in
  let run := @MediTrackApp.dispatch example_clock compact_json example_text
               (MediTrackApp.MarkMedicineTaken "1") alice_with_medicines fs in
  @Database.load_data compact_json fs = PDict (store_data [bob; alice_with_medicines])
  ∧ @Database.load_user compact_json (User.username alice_with_medicines) fs
    = Ok (Some alice_with_medicines)
  ∧ run = (run.1, Ok (user', out))
  ∧ @Database.load_user compact_json "alice" run.1 = Ok (Some user').
Proof.
  intros user' out fs run.
  assert (@Database.load_data compact_json fs
          = PDict (store_data [bob; alice_with_medicines])) as Hdata
    by (vm_compute; reflexivity).
  assert (json_load (Json := compact_json)
            (json_dump (Json := compact_json)
               (with_user user' (store_data [bob; alice_with_medicines])
                  (store_users [bob; alice_with_medicines])))
          = Some (with_user user' (store_data [bob; alice_with_medicines])
                    (store_users [bob; alice_with_medicines])))
    as Hcodec by (vm_compute; reflexivity).
  assert (@Database.load_user compact_json (User.username alice_with_medicines) fs
          = Ok (Some alice_with_medicines)) as Hstored by (vm_compute; reflexivity).
  assert (run = (run.1, Ok (user', out))) as Hrun by (vm_compute; reflexivity).
  split; [exact Hdata|]. split; [exact Hstored|]. split; [exact Hrun|].
  exact (@operation_is_durable example_clock compact_json example_text
           (MediTrackApp.MarkMedicineTaken "1") alice_with_medicines user' out fs run.1
           (store_data [bob; alice_with_medicines])
           (store_users [bob; alice_with_medicines])
           Hdata eq_refl Hcodec Hstored Hrun).
Defined.

Lemma change_password_then_login_witness :
  let fs := store [bob; alice_with_medicines] in
  let user' := User.set_password "pw2" alice_with_medicines in
  let run := @MediTrackApp.change_password compact_json example_text "pw1" "pw2" " pw2"
               alice_with_medicines fs in
  @Database.load_data compact_json fs = PDict (store_data [bob; alice_with_medicines])
  ∧ strip "pw1" = User.password alice_with_medicines
  ∧ strip "pw2" ≠ ""
  ∧ strip "pw2" = strip " pw2"
  ∧ run.2 = Ok (user', [PasswordChanged])
  ∧ @MediTrackApp.check_notifications example_clock (Some user')
    = Ok [NoteLowStock "Aspirin" 3]
  ∧ @MediTrackApp.login_user example_clock compact_json example_text "alice" "pw1" None run.1
    = (run.1, Ok (None, [InvalidLogin]))
  ∧ @MediTrackApp.login_user example_clock compact_json example_text "alice" "pw2" None run.1
    = (run.1, Ok (Some user',
                  [WelcomeBack "Alice A"; Notification (NoteLowStock "Aspirin" 3)])).
Proof.
  intros fs user' run.
  assert (@Database.load_data compact_json fs
          = PDict (store_data [bob; alice_with_medicines])) as Hdata
    by (vm_compute; reflexivity).
  assert (strip "pw2" ≠ "") as Hnew by (vm_compute; discriminate).
  assert (strip "pw1" ≠ strip "pw2") as Hold by (vm_compute; discriminate).
  assert (json_load (Json := compact_json)
            (json_dump (Json := compact_json)
               (with_user (User.set_password (strip "pw2") alice_with_medicines)
                  (store_data [bob; alice_with_medicines])
                  (store_users [bob; alice_with_medicines])))
          = Some (with_user (User.set_password (strip "pw2") alice_with_medicines)
                    (store_data [bob; alice_with_medicines])
                    (store_users [bob; alice_with_medicines])))
    as Hcodec by (vm_compute; reflexivity).
  assert (@MediTrackApp.check_notifications example_clock (Some user')
          = Ok [NoteLowStock "Aspirin" 3]) as Hnotes by (vm_compute; reflexivity).
  destruct (@change_password_then_login example_clock compact_json example_text "pw1" "pw2" " pw2"
              alice_with_medicines fs
              (store_data [bob; alice_with_medicines])
              (store_users [bob; alice_with_medicines])
              Hdata eq_refl eq_refl Hnew eq_refl Hcodec)
    as [Hrun Hlogin].
  split; [exact Hdata|]. split; [reflexivity|]. split; [exact Hnew|].
  split; [reflexivity|]. split; [exact Hrun|]. split; [exact Hnotes|].
  split; [exact (proj1 (Hlogin "alice" "pw1" None eq_refl) Hold)|].
  exact (proj2 (Hlogin "alice" "pw2" None eq_refl) eq_refl _ Hnotes).
Defined.
End examples.
